(** * ArtificialAMF: porosity measurement and the generate-measure-adapt loop

    A shallow embedding of the Python sources
    ([porosity.py], [parameters.py], [user_config.py], [utils.py],
    [draw_routine.py]) together with the properties checked against them.

    Conventions of the embedding
    - Python [float] values are exact rationals ([Q]); [int] values are [Z].
      A dataclass field annotated [int] that the code itself fills with
      floats ([track_mean_width], [track_mean_height],
      [foam_pores_center_scaling_factor]) is a [Q].
    - A grayscale buffer ([numpy.ndarray] of [uint8]) is its shape together
      with its row-major data; a flattened buffer is a [list Z].
    - Code that can raise returns a [result]; code that prints or touches the
      file system also returns the list of [event]s it emitted.
    - The process-wide random source is an explicit [random_source] that is
      threaded through every draw. *)

From Stdlib Require Import ZArith QArith Qabs Qround Lqa Lia Ascii String.
From stdpp Require Import base option list strings gmap sorting pretty.

Set Warnings "-register-all".

Local Open Scope Z_scope.

(** ** Exceptions and results *)

Inductive exn : Type :=
| ZeroDivisionError
| ValueError (msg : string)
| KeyError (key : string)
| IndexError
| TypeError (msg : string)
| AttributeError (msg : string)
| RuntimeError
| FileNotFoundError
| NotADirectoryError
| NameError (name : string).

Inductive result (A : Type) : Type :=
| Ok (a : A)
| Raise (e : exn).

Arguments Ok {A} a.
Arguments Raise {A} e.

#[global] Instance result_ret : MRet result := fun A a => Ok a.

#[global] Instance result_bind : MBind result := fun A B k r =>
  match r with
  | Ok a => k a
  | Raise e => Raise e
  end.

(** ** Numeric helpers mirroring the numpy and builtin calls *)

Definition Qltb (x y : Q) : bool := negb (Qle_bool y x).

(** [np.round] on a scalar: round half to even. *)
Definition np_round (x : Q) : Z :=
  let f := Qfloor x in
  let r := (x - inject_Z f)%Q in
  if Qltb r (1 # 2) then f
  else if Qltb (1 # 2) r then f + 1
  else if Z.even f then f else f + 1.

(** [int(x)] on a float: truncation toward zero. *)
Definition py_int (x : Q) : Z :=
  if Qle_bool 0 x then Qfloor x else Qceiling x.

(** [range(0, stop, step)] for a positive [step]. *)
Definition py_range (stop step : Z) : list Z :=
  (fun k => k * step) <$> seqZ 0 ((stop + step - 1) / step).

(** ** porosity.py *)

Module porosity.

Record Porosities : Type := mkPorosities {
  total : Q;
  by_foam_pores : Q;
  by_tracks : option Q
}.

(** [Porosities(total, by_foam_pores)]: [by_tracks] defaults to [None]. *)
Definition Porosities_init (t f : Q) : Porosities :=
  {| total := t; by_foam_pores := f; by_tracks := None |}.

(** [flat_grayscale_image.size] *)
Definition size (flat_grayscale_image : list Z) : Z :=
  Z.of_nat (length flat_grayscale_image).

(** [100 / all_pixel * pixel_below_threshold]; the division of two Python
    integers raises on an empty buffer.  The [verbose] flag only prints and
    is always [False] in the repository's callers. *)
Definition calculate_porostiy (pixel_below_threshold : Z)
    (flat_grayscale_image : list Z) : result Q :=
  let all_pixel := size flat_grayscale_image in
  if all_pixel =? 0 then Raise ZeroDivisionError
  else Ok (100 / inject_Z all_pixel * inject_Z pixel_below_threshold)%Q.

(** [np.where(flat_grayscale_image < threshold)[0].size] *)
Definition pixels_below (flat_grayscale_image : list Z) (threshold : Q) : Z :=
  Z.of_nat
    (length (List.filter (fun p => Qltb (inject_Z p) threshold)
                         flat_grayscale_image)).

Definition calculate_porosity_w_threshold (flat_grayscale_image : list Z)
    (threshold : Q) : result Q :=
  let pixel_below_threshold := pixels_below flat_grayscale_image threshold in
  calculate_porostiy pixel_below_threshold flat_grayscale_image.

(** [np.mean].  On an empty buffer numpy yields nan, which no pixel is
    compared against; the value chosen here for that case is never used. *)
Definition np_mean (a : list Z) : Q :=
  (inject_Z (foldr Z.add 0%Z a) / inject_Z (size a))%Q.

(** [np.median]: the middle element of the sorted data, or the mean of the
    two middle elements for an even count. *)
Definition np_median (a : list Z) : Q :=
  let s := merge_sort Z.le a in
  let n := length a in
  if Nat.even n then
    ((inject_Z (default 0%Z (s !! (n / 2 - 1)%nat))
      + inject_Z (default 0%Z (s !! (n / 2)%nat))) / 2)%Q
  else inject_Z (default 0%Z (s !! (n / 2)%nat)).

Definition calculate_porosity_w_mean (flat_grayscale_image : list Z)
    : result Q :=
  let mean := np_mean flat_grayscale_image in
  calculate_porosity_w_threshold flat_grayscale_image mean.

Definition calculate_porosity_w_median_plus_1 (flat_grayscale_image : list Z)
    : result Q :=
  let median := np_median flat_grayscale_image in
  calculate_porosity_w_threshold flat_grayscale_image (median + 1)%Q.

(** [desired + margin >= actual >= desired - margin] *)
Definition porosity_in_margin (desired_porosity actual_porosity
    porosity_margin : Q) : bool :=
  Qle_bool actual_porosity (desired_porosity + porosity_margin)
  && Qle_bool (desired_porosity - porosity_margin) actual_porosity.

End porosity.

(** ** Output, documents and the file system *)

(** A loaded or dumped JSON value. *)
Inductive json : Type :=
| JNull
| JInt (z : Z)
| JFloat (q : Q)
| JStr (s : string)
| JObj (m : gmap string json).

(** A two-dimensional [uint8] array: [shape] and row-major [data]. *)
Record ndarray : Type := mkArray {
  shape0 : nat;
  shape1 : nat;
  data : list Z
}.

(** The shape describes the data. *)
Definition wf_image (img : ndarray) : Prop :=
  length (data img) = (shape0 img * shape1 img)%nat.

(** [b] is a buffer of the shape of [a]. *)
Definition same_shape (a b : ndarray) : Prop :=
  shape0 b = shape0 a /\ shape1 b = shape1 a /\ wf_image b.

(** What a run emits: terminal output and the calls made to the persistence
    collaborators ([os.mkdir], [cv2.imwrite], [json.dump]). *)
Inductive event : Type :=
| Print (s : string)
| PrintFmt (template : string) (args : list Q)
| PrintRed (s : string)
| Mkdir (path : string)
| Imwrite (path : string) (img : ndarray)
| JsonDump (path : string) (doc : gmap string json).

(** Code that prints and may raise: the events emitted so far and the
    outcome. *)
Definition io (A : Type) : Type := (list event * result A)%type.

#[global] Instance io_ret : MRet io := fun A a => ([], Ok a).

#[global] Instance io_bind : MBind io := fun A B k m =>
  match m with
  | (out, Ok a) => let '(out', r) := k a in (out ++ out', r)
  | (out, Raise e) => (out, Raise e)
  end.

Definition emit (e : event) : io unit := ([e], Ok tt).
Definition print (s : string) : io unit := emit (Print s).
Definition print_red_terminal_message (message : string) : io unit :=
  emit (PrintRed message).
Definition raise {A : Type} (e : exn) : io A := ([], Raise e).
Definition lift {A : Type} (r : result A) : io A := ([], r).

(** A [for x in l: body] loop; the loop variable stays bound to the last
    element once the loop has run to its end. *)
Fixpoint for_in {A : Type} (l : list A) (body : A -> io unit)
    (last_bound : option A) : io (option A) :=
  match l with
  | [] => mret last_bound
  | x :: l' => _ ← body x; for_in l' body (Some x)
  end.

(** Reading a loop variable after the loop: unbound if the loop never ran. *)
Definition bound_var {A : Type} (name : string) (v : option A) : io A :=
  match v with
  | Some a => mret a
  | None => raise (NameError name)
  end.

(** [d[key]] on a [dict]. *)
Definition getitem (d : gmap string json) (key : string) : result json :=
  match d !! key with
  | Some v => Ok v
  | None => Raise (KeyError key)
  end.

(** [key in d] *)
Definition contains (d : gmap string json) (key : string) : bool :=
  bool_decide (is_Some (d !! key)).

(** Typed views of document values.  The documents considered hold, for each
    field, a value of the field's annotated type; on any other value the
    embedding raises [TypeError] where Python would go on with an ill-typed
    object. *)
Definition as_int (v : json) : result Z :=
  match v with
  | JInt z => Ok z
  | _ => Raise (TypeError "int expected")
  end.

Definition as_float (v : json) : result Q :=
  match v with
  | JInt z => Ok (inject_Z z)
  | JFloat q => Ok q
  | _ => Raise (TypeError "number expected")
  end.

Definition as_str (v : json) : result string :=
  match v with
  | JStr s => Ok s
  | _ => Raise (TypeError "str expected")
  end.

Definition as_dict (v : json) : result (gmap string json) :=
  match v with
  | JObj m => Ok m
  | _ => Raise (TypeError "dict expected")
  end.

(** The collaborators behind [pathlib], [os.path], [open] and [json.load]. *)
Record filesystem : Type := mkFs {
  path_is_file : string -> bool;
  path_is_dir : string -> bool;
  path_suffix : string -> string;
  path_str : string -> string;
  json_load : string -> result (gmap string json)
}.

(** ** parameters.py *)

Module parameters.

Import porosity.

(** The two porosity functions a [Parameters] object can refer to. *)
Inductive porosity_rule : Type :=
| fn_calculate_porosity_w_mean
| fn_calculate_porosity_w_median_plus_1.

(** [f.__name__] *)
Definition fn_name (f : porosity_rule) : string :=
  match f with
  | fn_calculate_porosity_w_mean => "calculate_porosity_w_mean"
  | fn_calculate_porosity_w_median_plus_1 =>
      "calculate_porosity_w_median_plus_1"
  end.

(** [f(flat_grayscale_image, False)] *)
Definition fn_call (f : porosity_rule) (flat_grayscale_image : list Z)
    : result Q :=
  match f with
  | fn_calculate_porosity_w_mean =>
      calculate_porosity_w_mean flat_grayscale_image
  | fn_calculate_porosity_w_median_plus_1 =>
      calculate_porosity_w_median_plus_1 flat_grayscale_image
  end.

(** What the [porosity_function] attribute holds at run time: a function
    object, or the [str] that [save_files] stores in its place. *)
Inductive attr_value : Type :=
| Callable (f : porosity_rule)
| NameStr (s : string).

Record Parameters : Type := mkParameters {
  image_width : Z;
  image_height : Z;
  total_porosity_margin : Q;
  porosity_foam_pore_margin : Q;
  foam_pore_amount_adaption_threshold : Q;
  porosity_function : attr_value;
  x_offset : Z;
  y_offset : Z;
  track_mean_width : Q;
  track_width_variation : Q;
  track_mean_height : Q;
  track_height_variation : Q;
  randomized_track_x_factor : Z;
  randomized_track_y_factor : Z;
  foam_pores_center_scaling_factor : Q;
  mean_diameter_of_foam_pores : Z;
  mean_foam_pores_per_track : Z;
  variation_of_foam_pores_per_track : Z;
  (* a class attribute without annotation: not a dataclass field *)
  foam_pore_variation_of_diameter : Q
}.

(** The dataclass defaults. *)
Definition defaults : Parameters := {|
  image_width := 1360;
  image_height := 1024;
  total_porosity_margin := 1;
  porosity_foam_pore_margin := 2;
  foam_pore_amount_adaption_threshold := 3;
  porosity_function := Callable fn_calculate_porosity_w_mean;
  x_offset := 25;
  y_offset := 10;
  track_mean_width := 50;
  track_width_variation := 2 # 10;
  track_mean_height := 40;
  track_height_variation := 8 # 100;
  randomized_track_x_factor := 5;
  randomized_track_y_factor := 4;
  foam_pores_center_scaling_factor := 50 / 3;
  mean_diameter_of_foam_pores := 5;
  mean_foam_pores_per_track := 8;
  variation_of_foam_pores_per_track := 4;
  foam_pore_variation_of_diameter := 8 # 10
|}.

(** Attribute assignment [self.field = v], one setter per assigned field. *)
Definition set_image_width (v : Z) (self : Parameters) : Parameters :=
  {| image_width := v; image_height := image_height self;
    total_porosity_margin := total_porosity_margin self;
    porosity_foam_pore_margin := porosity_foam_pore_margin self;
    foam_pore_amount_adaption_threshold := foam_pore_amount_adaption_threshold self;
    porosity_function := porosity_function self;
    x_offset := x_offset self; y_offset := y_offset self;
    track_mean_width := track_mean_width self;
    track_width_variation := track_width_variation self;
    track_mean_height := track_mean_height self;
    track_height_variation := track_height_variation self;
    randomized_track_x_factor := randomized_track_x_factor self;
    randomized_track_y_factor := randomized_track_y_factor self;
    foam_pores_center_scaling_factor := foam_pores_center_scaling_factor self;
    mean_diameter_of_foam_pores := mean_diameter_of_foam_pores self;
    mean_foam_pores_per_track := mean_foam_pores_per_track self;
    variation_of_foam_pores_per_track := variation_of_foam_pores_per_track self;
    foam_pore_variation_of_diameter := foam_pore_variation_of_diameter self |}.

Definition set_total_porosity_margin (v : Q) (self : Parameters) : Parameters :=
  {| image_width := image_width self; image_height := image_height self;
    total_porosity_margin := v;
    porosity_foam_pore_margin := porosity_foam_pore_margin self;
    foam_pore_amount_adaption_threshold := foam_pore_amount_adaption_threshold self;
    porosity_function := porosity_function self;
    x_offset := x_offset self; y_offset := y_offset self;
    track_mean_width := track_mean_width self;
    track_width_variation := track_width_variation self;
    track_mean_height := track_mean_height self;
    track_height_variation := track_height_variation self;
    randomized_track_x_factor := randomized_track_x_factor self;
    randomized_track_y_factor := randomized_track_y_factor self;
    foam_pores_center_scaling_factor := foam_pores_center_scaling_factor self;
    mean_diameter_of_foam_pores := mean_diameter_of_foam_pores self;
    mean_foam_pores_per_track := mean_foam_pores_per_track self;
    variation_of_foam_pores_per_track := variation_of_foam_pores_per_track self;
    foam_pore_variation_of_diameter := foam_pore_variation_of_diameter self |}.

Definition set_porosity_foam_pore_margin (v : Q) (self : Parameters) : Parameters :=
  {| image_width := image_width self; image_height := image_height self;
    total_porosity_margin := total_porosity_margin self;
    porosity_foam_pore_margin := v;
    foam_pore_amount_adaption_threshold := foam_pore_amount_adaption_threshold self;
    porosity_function := porosity_function self;
    x_offset := x_offset self; y_offset := y_offset self;
    track_mean_width := track_mean_width self;
    track_width_variation := track_width_variation self;
    track_mean_height := track_mean_height self;
    track_height_variation := track_height_variation self;
    randomized_track_x_factor := randomized_track_x_factor self;
    randomized_track_y_factor := randomized_track_y_factor self;
    foam_pores_center_scaling_factor := foam_pores_center_scaling_factor self;
    mean_diameter_of_foam_pores := mean_diameter_of_foam_pores self;
    mean_foam_pores_per_track := mean_foam_pores_per_track self;
    variation_of_foam_pores_per_track := variation_of_foam_pores_per_track self;
    foam_pore_variation_of_diameter := foam_pore_variation_of_diameter self |}.

Definition set_porosity_function (v : attr_value) (self : Parameters) : Parameters :=
  {| image_width := image_width self; image_height := image_height self;
    total_porosity_margin := total_porosity_margin self;
    porosity_foam_pore_margin := porosity_foam_pore_margin self;
    foam_pore_amount_adaption_threshold := foam_pore_amount_adaption_threshold self;
    porosity_function := v; x_offset := x_offset self;
    y_offset := y_offset self;
    track_mean_width := track_mean_width self;
    track_width_variation := track_width_variation self;
    track_mean_height := track_mean_height self;
    track_height_variation := track_height_variation self;
    randomized_track_x_factor := randomized_track_x_factor self;
    randomized_track_y_factor := randomized_track_y_factor self;
    foam_pores_center_scaling_factor := foam_pores_center_scaling_factor self;
    mean_diameter_of_foam_pores := mean_diameter_of_foam_pores self;
    mean_foam_pores_per_track := mean_foam_pores_per_track self;
    variation_of_foam_pores_per_track := variation_of_foam_pores_per_track self;
    foam_pore_variation_of_diameter := foam_pore_variation_of_diameter self |}.

Definition set_track_mean_width (v : Q) (self : Parameters) : Parameters :=
  {| image_width := image_width self; image_height := image_height self;
    total_porosity_margin := total_porosity_margin self;
    porosity_foam_pore_margin := porosity_foam_pore_margin self;
    foam_pore_amount_adaption_threshold := foam_pore_amount_adaption_threshold self;
    porosity_function := porosity_function self;
    x_offset := x_offset self; y_offset := y_offset self;
    track_mean_width := v;
    track_width_variation := track_width_variation self;
    track_mean_height := track_mean_height self;
    track_height_variation := track_height_variation self;
    randomized_track_x_factor := randomized_track_x_factor self;
    randomized_track_y_factor := randomized_track_y_factor self;
    foam_pores_center_scaling_factor := foam_pores_center_scaling_factor self;
    mean_diameter_of_foam_pores := mean_diameter_of_foam_pores self;
    mean_foam_pores_per_track := mean_foam_pores_per_track self;
    variation_of_foam_pores_per_track := variation_of_foam_pores_per_track self;
    foam_pore_variation_of_diameter := foam_pore_variation_of_diameter self |}.

Definition set_track_mean_height (v : Q) (self : Parameters) : Parameters :=
  {| image_width := image_width self; image_height := image_height self;
    total_porosity_margin := total_porosity_margin self;
    porosity_foam_pore_margin := porosity_foam_pore_margin self;
    foam_pore_amount_adaption_threshold := foam_pore_amount_adaption_threshold self;
    porosity_function := porosity_function self;
    x_offset := x_offset self; y_offset := y_offset self;
    track_mean_width := track_mean_width self;
    track_width_variation := track_width_variation self;
    track_mean_height := v;
    track_height_variation := track_height_variation self;
    randomized_track_x_factor := randomized_track_x_factor self;
    randomized_track_y_factor := randomized_track_y_factor self;
    foam_pores_center_scaling_factor := foam_pores_center_scaling_factor self;
    mean_diameter_of_foam_pores := mean_diameter_of_foam_pores self;
    mean_foam_pores_per_track := mean_foam_pores_per_track self;
    variation_of_foam_pores_per_track := variation_of_foam_pores_per_track self;
    foam_pore_variation_of_diameter := foam_pore_variation_of_diameter self |}.

Definition set_foam_pores_center_scaling_factor (v : Q) (self : Parameters) : Parameters :=
  {| image_width := image_width self; image_height := image_height self;
    total_porosity_margin := total_porosity_margin self;
    porosity_foam_pore_margin := porosity_foam_pore_margin self;
    foam_pore_amount_adaption_threshold := foam_pore_amount_adaption_threshold self;
    porosity_function := porosity_function self;
    x_offset := x_offset self; y_offset := y_offset self;
    track_mean_width := track_mean_width self;
    track_width_variation := track_width_variation self;
    track_mean_height := track_mean_height self;
    track_height_variation := track_height_variation self;
    randomized_track_x_factor := randomized_track_x_factor self;
    randomized_track_y_factor := randomized_track_y_factor self;
    foam_pores_center_scaling_factor := v;
    mean_diameter_of_foam_pores := mean_diameter_of_foam_pores self;
    mean_foam_pores_per_track := mean_foam_pores_per_track self;
    variation_of_foam_pores_per_track := variation_of_foam_pores_per_track self;
    foam_pore_variation_of_diameter := foam_pore_variation_of_diameter self |}.

Definition set_mean_diameter_of_foam_pores (v : Z) (self : Parameters) : Parameters :=
  {| image_width := image_width self; image_height := image_height self;
    total_porosity_margin := total_porosity_margin self;
    porosity_foam_pore_margin := porosity_foam_pore_margin self;
    foam_pore_amount_adaption_threshold := foam_pore_amount_adaption_threshold self;
    porosity_function := porosity_function self;
    x_offset := x_offset self; y_offset := y_offset self;
    track_mean_width := track_mean_width self;
    track_width_variation := track_width_variation self;
    track_mean_height := track_mean_height self;
    track_height_variation := track_height_variation self;
    randomized_track_x_factor := randomized_track_x_factor self;
    randomized_track_y_factor := randomized_track_y_factor self;
    foam_pores_center_scaling_factor := foam_pores_center_scaling_factor self;
    mean_diameter_of_foam_pores := v;
    mean_foam_pores_per_track := mean_foam_pores_per_track self;
    variation_of_foam_pores_per_track := variation_of_foam_pores_per_track self;
    foam_pore_variation_of_diameter := foam_pore_variation_of_diameter self |}.

Definition set_mean_foam_pores_per_track (v : Z) (self : Parameters) : Parameters :=
  {| image_width := image_width self; image_height := image_height self;
    total_porosity_margin := total_porosity_margin self;
    porosity_foam_pore_margin := porosity_foam_pore_margin self;
    foam_pore_amount_adaption_threshold := foam_pore_amount_adaption_threshold self;
    porosity_function := porosity_function self;
    x_offset := x_offset self; y_offset := y_offset self;
    track_mean_width := track_mean_width self;
    track_width_variation := track_width_variation self;
    track_mean_height := track_mean_height self;
    track_height_variation := track_height_variation self;
    randomized_track_x_factor := randomized_track_x_factor self;
    randomized_track_y_factor := randomized_track_y_factor self;
    foam_pores_center_scaling_factor := foam_pores_center_scaling_factor self;
    mean_diameter_of_foam_pores := mean_diameter_of_foam_pores self;
    mean_foam_pores_per_track := v;
    variation_of_foam_pores_per_track := variation_of_foam_pores_per_track self;
    foam_pore_variation_of_diameter := foam_pore_variation_of_diameter self |}.

Definition set_variation_of_foam_pores_per_track (v : Z) (self : Parameters) : Parameters :=
  {| image_width := image_width self; image_height := image_height self;
    total_porosity_margin := total_porosity_margin self;
    porosity_foam_pore_margin := porosity_foam_pore_margin self;
    foam_pore_amount_adaption_threshold := foam_pore_amount_adaption_threshold self;
    porosity_function := porosity_function self;
    x_offset := x_offset self; y_offset := y_offset self;
    track_mean_width := track_mean_width self;
    track_width_variation := track_width_variation self;
    track_mean_height := track_mean_height self;
    track_height_variation := track_height_variation self;
    randomized_track_x_factor := randomized_track_x_factor self;
    randomized_track_y_factor := randomized_track_y_factor self;
    foam_pores_center_scaling_factor := foam_pores_center_scaling_factor self;
    mean_diameter_of_foam_pores := mean_diameter_of_foam_pores self;
    mean_foam_pores_per_track := mean_foam_pores_per_track self;
    variation_of_foam_pores_per_track := v;
    foam_pore_variation_of_diameter := foam_pore_variation_of_diameter self |}.

(** [Parameters()]: the defaults; [__post_init__] prints. *)
Definition Parameters_init : io Parameters :=
  _ ← print "Initialzed Parameters"; mret defaults.

(** The track nudge [self.track_mean_width += dw; self.track_mean_height += dh]. *)
Definition nudge_tracks (dw dh : Q) (self : Parameters) : Parameters :=
  let self := set_track_mean_width (track_mean_width self + dw) self in
  set_track_mean_height (track_mean_height self + dh) self.

(** The first [if]/[else] of [adapt_parameters]: both arms have the same
    shape and differ in the bound on the gap ([7] and [10]). *)
Definition adapt_tracks (bound : Q) (self : Parameters)
    (desired_porosities actual_porosities : Porosities) : Parameters :=
  if Qltb bound (Qabs (total actual_porosities - total desired_porosities))
  then
    if Qltb (total desired_porosities) (total actual_porosities)
    then nudge_tracks 3 2 self
    else nudge_tracks (-3) (-2) self
  else if Qltb (total desired_porosities) (total actual_porosities)
  then nudge_tracks 1 (1 # 2) self
  else nudge_tracks (-1) (- (1 # 2)) self.

(** The second [if] of [adapt_parameters], taken when the foam-pore
    porosity is not in margin. *)
Definition adapt_foam_pores (difference_in_foam_porosity : Q)
    (self : Parameters) : Parameters :=
  if Qltb 0 difference_in_foam_porosity then
    (* calculated current porosity is too high -> less / smaller foam pores *)
    if Qltb difference_in_foam_porosity
            (foam_pore_amount_adaption_threshold self)
       && (mean_foam_pores_per_track self <? 10)
    then
      (* adapt size of pores *)
      let self :=
        set_mean_diameter_of_foam_pores
          (mean_diameter_of_foam_pores self - 1) self in
      if mean_diameter_of_foam_pores self <=? 0
      then set_mean_diameter_of_foam_pores 1 self
      else self
    else
      (* adapt amount of pores *)
      let self :=
        set_mean_foam_pores_per_track
          (mean_foam_pores_per_track self - 1) self in
      if mean_foam_pores_per_track self <=? 0 then
        let self := set_mean_foam_pores_per_track 1 self in
        let self :=
          set_variation_of_foam_pores_per_track
            (variation_of_foam_pores_per_track self - 1) self in
        if variation_of_foam_pores_per_track self <? 0
        then set_variation_of_foam_pores_per_track 0 self
        else self
      else self
  else
    (* calculated current porosity is too low *)
    if Qltb (Qabs difference_in_foam_porosity)
            (foam_pore_amount_adaption_threshold self)
    then
      set_mean_diameter_of_foam_pores
        (mean_diameter_of_foam_pores self + 1) self
    else
      set_mean_foam_pores_per_track
        (mean_foam_pores_per_track self + 1) self.

(** [Parameters.adapt_parameters]: the object is updated in place; the
    embedding returns the updated object. *)
Definition adapt_parameters (self : Parameters)
    (desired_porosities actual_porosities : Porosities) : Parameters :=
  let self :=
    if Qltb (by_foam_pores desired_porosities - porosity_foam_pore_margin self)
            (by_foam_pores actual_porosities)
       && Qltb (by_foam_pores actual_porosities)
               (by_foam_pores desired_porosities
                + porosity_foam_pore_margin self)
    then adapt_tracks 7 self desired_porosities actual_porosities
    else adapt_tracks 10 self desired_porosities actual_porosities in
  let difference_in_foam_porosity :=
    (by_foam_pores actual_porosities - by_foam_pores desired_porosities)%Q in
  let self :=
    if Qltb (porosity_foam_pore_margin self)
            (Qabs difference_in_foam_porosity)
    then adapt_foam_pores difference_in_foam_porosity self
    else self in
  let self :=
    if Qeq_bool (by_foam_pores desired_porosities) 0
    then set_mean_foam_pores_per_track 0 self
    else self in
  set_foam_pores_center_scaling_factor
    (inject_Z (np_round (track_mean_width self / 3))) self.

(** [parameter_file[key]] read at the field's type. *)
Definition get_int (d : gmap string json) (key : string) : io Z :=
  lift (v ← getitem d key; as_int v).

Definition get_float (d : gmap string json) (key : string) : io Q :=
  lift (v ← getitem d key; as_float v).

(** The [if]/[elif]/[else] of [load_from_file] that sets the porosity
    function from the document's entry; an entry that is not a string equals
    neither name. *)
Definition select_porosity_function (rule : json) (params : Parameters)
    : io Parameters :=
  match rule with
  | JStr name =>
      if String.eqb name "calculate_porosity_w_mean" then
        mret (set_porosity_function
                (Callable fn_calculate_porosity_w_mean) params)
      else if String.eqb name "calculate_porosity_w_median" then
        mret (set_porosity_function
                (Callable fn_calculate_porosity_w_median_plus_1) params)
      else
        _ ← print_red_terminal_message
              "The given porosity function is not supported in this loading process";
        mret params
  | _ =>
      _ ← print_red_terminal_message
            "The given porosity function is not supported in this loading process";
      mret params
  end.

(** [Parameters.load_from_file] *)
Definition load_from_file (fs : filesystem) (filename : string)
    : io Parameters :=
  loaded ← lift (json_load fs filename);
  parameter_file ← lift (v ← getitem loaded "parameters"; as_dict v);
  params ← Parameters_init;
  (* set porosity_function *)
  rule ← lift (getitem parameter_file "porosity_function");
  params ← select_porosity_function rule params;
  image_width' ← get_int parameter_file "image_width";
  image_height' ← get_int parameter_file "image_height";
  total_porosity_margin' ← get_float parameter_file "total_porosity_margin";
  porosity_foam_pore_margin' ←
    get_float parameter_file "porosity_foam_pore_margin";
  foam_pore_amount_adaption_threshold' ←
    get_float parameter_file "foam_pore_amount_adaption_threshold";
  x_offset' ← get_int parameter_file "x_offset";
  y_offset' ← get_int parameter_file "y_offset";
  track_mean_width' ← get_float parameter_file "track_mean_width";
  track_width_variation' ← get_float parameter_file "track_width_variation";
  track_mean_height' ← get_float parameter_file "track_mean_height";
  track_height_variation' ←
    get_float parameter_file "track_height_variation";
  randomized_track_x_factor' ←
    get_int parameter_file "randomized_track_x_factor";
  randomized_track_y_factor' ←
    get_int parameter_file "randomized_track_y_factor";
  foam_pores_center_scaling_factor' ←
    get_float parameter_file "foam_pores_center_scaling_factor";
  mean_diameter_of_foam_pores' ←
    get_int parameter_file "mean_diameter_of_foam_pores";
  mean_foam_pores_per_track' ←
    get_int parameter_file "mean_foam_pores_per_track";
  variation_of_foam_pores_per_track' ←
    get_int parameter_file "variation_of_foam_pores_per_track";
  foam_pore_variation_of_diameter' ←
    (if contains parameter_file "foam_pore_variation_of_diameter"
     then get_float parameter_file "foam_pore_variation_of_diameter"
     else mret 1%Q);
  _ ← print ("Successfully loaded parameters from  " +:+ filename);
  mret {|
    image_width := image_width';
    image_height := image_height';
    total_porosity_margin := total_porosity_margin';
    porosity_foam_pore_margin := porosity_foam_pore_margin';
    foam_pore_amount_adaption_threshold :=
      foam_pore_amount_adaption_threshold';
    porosity_function := porosity_function params;
    x_offset := x_offset';
    y_offset := y_offset';
    track_mean_width := track_mean_width';
    track_width_variation := track_width_variation';
    track_mean_height := track_mean_height';
    track_height_variation := track_height_variation';
    randomized_track_x_factor := randomized_track_x_factor';
    randomized_track_y_factor := randomized_track_y_factor';
    foam_pores_center_scaling_factor := foam_pores_center_scaling_factor';
    mean_diameter_of_foam_pores := mean_diameter_of_foam_pores';
    mean_foam_pores_per_track := mean_foam_pores_per_track';
    variation_of_foam_pores_per_track := variation_of_foam_pores_per_track';
    foam_pore_variation_of_diameter := foam_pore_variation_of_diameter'
  |}.

End parameters.

(** ** user_config.py *)

(** Python values met by the directory-suffix test, with their truth value,
    [not] and [or]. *)
Inductive pyval : Type :=
| PyBool (b : bool)
| PyStr (s : string).

Definition truthy (v : pyval) : bool :=
  match v with
  | PyBool b => b
  | PyStr s => negb (String.eqb s "")
  end.

Definition py_not (v : pyval) : pyval := PyBool (negb (truthy v)).

Definition py_or (a b : pyval) : pyval := if truthy a then a else b.

(** [s[-1]] on a [str]. *)
Fixpoint str_last (s : string) : result string :=
  match s with
  | EmptyString => Raise IndexError
  | String c EmptyString => Ok (String c EmptyString)
  | String _ s' => str_last s'
  end.

Module user_config.

Import porosity.

Record UserConfig : Type := mkUserConfig {
  layer_height : Z;
  layer_width_to_layer_height_ratio : Q;
  desired_porosities : Porosities;
  output_folder : string
}.

Definition needed_params : list string :=
  ["layer_height"; "layer_width_to_layer_height_ratio"; "output_folder";
   "desired_porosities"].

Definition needed_porosity_params : list string := ["total"; "by_foam_pores"].

(** The test [not output_directory[-1] == '/' or '\\']: [not] binds
    tighter than [or], so its second operand is the non-empty string. *)
Definition suffix_condition (last_char : string) : pyval :=
  py_or (py_not (PyBool (String.eqb last_char "/"))) (PyStr "\").

(** The two statements that complete [output_directory]. *)
Definition complete_output_directory (output_directory : string)
    : result string :=
  last_char ← str_last output_directory;
  if truthy (suffix_condition last_char)
  then Ok (output_directory +:+ "\")
  else Ok output_directory.

(** [UserConfig.load_from_file] *)
Definition load_from_file (fs : filesystem) (filename : string)
    (output_directory : option string) : io UserConfig :=
  (* check that filename is a valid file *)
  _ ← (if negb (path_is_file fs filename)
          || negb (String.eqb (path_suffix fs filename) ".json")
       then
         _ ← print_red_terminal_message
               ("Error! The given file name " +:+ filename
                +:+ " is not a valid json file!");
         raise FileNotFoundError
       else mret tt);
  (* check that the output_directory is a valid directory *)
  _ ← match output_directory with
      | Some dir =>
          if negb (path_is_dir fs dir) then
            _ ← print_red_terminal_message
                  ("Error! The given directory name " +:+ path_str fs dir
                   +:+ " is not a valid directory!");
            raise NotADirectoryError
          else mret tt
      | None => mret tt
      end;
  (* open file and set values *)
  loaded_json_file ← lift (json_load fs filename);
  (* check that all needed parameters are in the file *)
  user_config_dict ←
    (if negb (contains loaded_json_file "user_config") then
       _ ← print_red_terminal_message
             "Error! No user_config parameter dict found in specified config file!";
       raise RuntimeError
     else
       user_config_dict ←
         lift (v ← getitem loaded_json_file "user_config"; as_dict v);
       param ←
         for_in needed_params
           (fun param =>
              if negb (contains user_config_dict param) then
                _ ← print_red_terminal_message
                      ("Error! Parameter " +:+ param
                       +:+ " was not specified in specified config file!");
                raise RuntimeError
              else mret tt)
           None;
       _ ← for_in needed_porosity_params
             (fun p_param =>
                desired ←
                  lift (v ← getitem user_config_dict "desired_porosities";
                        as_dict v);
                if negb (contains desired p_param) then
                  param ← bound_var "param" param;
                  _ ← print_red_terminal_message
                        ("Error! Parameter " +:+ param
                         +:+ " was not specified in desired porosities dict of specified config file");
                  raise RuntimeError
                else mret tt)
             None;
       mret user_config_dict);
  layer_height' ←
    lift (v ← getitem user_config_dict "layer_height"; as_int v);
  layer_width_to_layer_height_ratio' ←
    lift (v ← getitem user_config_dict "layer_width_to_layer_height_ratio";
          as_float v);
  output_directory ←
    match output_directory with
    | None => lift (v ← getitem user_config_dict "output_folder"; as_str v)
    | Some dir => mret dir
    end;
  output_directory ← lift (complete_output_directory output_directory);
  (* setup porosity object *)
  desired ←
    lift (v ← getitem user_config_dict "desired_porosities"; as_dict v);
  total' ← lift (v ← getitem desired "total"; as_float v);
  by_foam_pores' ← lift (v ← getitem desired "by_foam_pores"; as_float v);
  let desired_porosities' := Porosities_init total' by_foam_pores' in
  (* setup UserConfig object *)
  let user_config := {|
    layer_height := layer_height';
    layer_width_to_layer_height_ratio := layer_width_to_layer_height_ratio';
    output_folder := output_directory;
    desired_porosities := desired_porosities'
  |} in
  _ ← print ("Loaded UserConfig from  " +:+ filename);
  mret user_config.

End user_config.

(** ** parameters.py: the factory [adapt_to_config] *)

(** [a / b] on numbers: true division raises on a zero divisor. *)
Definition py_truediv (a b : Q) : result Q :=
  if Qeq_bool b 0 then Raise ZeroDivisionError else Ok (a / b)%Q.

Module parameters_factory.

Import porosity parameters user_config.

(** [Parameters.adapt_to_config] *)
Definition adapt_to_config (user_config : UserConfig) : io Parameters :=
  params ← Parameters_init;
  let layer_width :=
    (inject_Z (layer_height user_config)
     * layer_width_to_layer_height_ratio user_config)%Q in
  (* estimate approx. track and foam porosities *)
  amount_columns ←
    lift (py_truediv (inject_Z (image_width params)) layer_width);
  amount_rows ←
    lift (py_truediv (inject_Z (image_height params))
            (inject_Z (layer_height user_config)));
  let volume_of_tack :=
    (layer_width * inject_Z (layer_height user_config) * (6 # 10))%Q in
  let total_volume_of_tracks :=
    (amount_columns * amount_rows * volume_of_tack)%Q in
  let total_volume_of_image :=
    inject_Z (image_height params * image_width params) in
  share ← lift (py_truediv 100 total_volume_of_image);
  let estimated_porosity_by_tracks :=
    (100 - share * total_volume_of_tracks)%Q in
  let volume_of_foam_pore :=
    (inject_Z (mean_diameter_of_foam_pores params
               * mean_diameter_of_foam_pores params) * (7 # 10))%Q in
  let total_volume_by_foam_pores :=
    (amount_rows * amount_columns * volume_of_foam_pore
     * inject_Z (mean_foam_pores_per_track params))%Q in
  share ← lift (py_truediv 100 total_volume_of_image);
  let estimated_porosity_by_foam_pores :=
    (share * total_volume_by_foam_pores * (7 # 10))%Q in
  let estimated_proosity_total :=
    (estimated_porosity_by_foam_pores
     + estimated_porosity_by_tracks * (9 # 10))%Q in
  _ ← emit (PrintFmt
              "I estimated these porosities to update the initial default parameters: total: {:.2f}, foam: {:.2f}"
              [estimated_proosity_total; estimated_porosity_by_foam_pores]);
  let desired := desired_porosities user_config in
  (* adjust parameters according to estimate *)
  params ←
    (if Qltb estimated_porosity_by_foam_pores (by_foam_pores desired) then
       (* User wants more foam pore porosity, so increase size of foam pores *)
       let params :=
         set_mean_diameter_of_foam_pores
           (mean_diameter_of_foam_pores params + 2) params in
       params ←
         (if Qltb 5 (by_foam_pores desired - estimated_porosity_by_foam_pores)
          then
            let params :=
              set_mean_foam_pores_per_track
                (mean_foam_pores_per_track params + 1) params in
            let params :=
              set_mean_diameter_of_foam_pores
                (mean_diameter_of_foam_pores params + 2) params in
            _ ← emit (PrintFmt
                        "I initialized the mean diameter of foam pores with {} and the mean amount of foam pores with {}"
                        [inject_Z (mean_diameter_of_foam_pores params);
                         inject_Z (mean_foam_pores_per_track params)]);
            mret params
          else mret params);
       params ←
         (if Qltb (total desired) estimated_proosity_total
          then (let params :=
              set_track_mean_width
                (inject_Z (np_round (layer_width * (99 # 100)))) params in
            let params :=
              set_track_mean_height
                (inject_Z (np_round (inject_Z (layer_height user_config)
                                     * (96 # 100)))) params in
            mret params)
          else (let params :=
              set_track_mean_width
                (inject_Z (np_round (layer_width * (8 # 10)))) params in
            let params :=
              set_track_mean_height
                (inject_Z (np_round (inject_Z (layer_height user_config)
                                     * (8 # 10)))) params in
            mret params));
       _ ← emit (PrintFmt
                   "I initialized the track mean width to {} and the track mean height to {}"
                   [track_mean_width params; track_mean_height params]);
       mret params
     else
       (* user wants less foam pore porosity, so let's decrease their size *)
       let params :=
         set_mean_diameter_of_foam_pores
           (mean_diameter_of_foam_pores params - 2) params in
       params ←
         (if Qltb 5 (estimated_porosity_by_foam_pores - by_foam_pores desired)
          then
            let params :=
              set_mean_foam_pores_per_track
                (mean_foam_pores_per_track params - 1) params in
            _ ← emit (PrintFmt
                        "I initialized the mean diameter of foam pores to {} and the mean amount of foam pores to {}"
                        [inject_Z (mean_diameter_of_foam_pores params);
                         inject_Z (mean_foam_pores_per_track params)]);
            mret params
          else mret params);
       params ←
         (if Qltb (total desired) estimated_proosity_total
          then (let params :=
              set_track_mean_width
                (inject_Z (np_round (layer_width * (85 # 100)))) params in
            let params :=
              set_track_mean_height
                (inject_Z (np_round (inject_Z (layer_height user_config)
                                     * (9 # 10)))) params in
            mret params)
          else (let params :=
              set_track_mean_width
                (inject_Z (np_round (layer_width * (8 # 10)))) params in
            let params :=
              set_track_mean_height
                (inject_Z (np_round (inject_Z (layer_height user_config)
                                     * (8 # 10)))) params in
            mret params));
       _ ← emit (PrintFmt
                   "I initialized the track mean width to {} and the track mean height to {}"
                   [track_mean_width params; track_mean_height params]);
       mret params);
  mret params.

End parameters_factory.

(** ** ellipse.py *)

(** The process-wide random sources ([numpy.random] and [random]): the
    draws still to come, and how many have been consumed.  Integer draws are
    reduced into the requested range. *)
Record random_source : Type := mkRandom {
  int_draws : nat -> Z;
  normal_draws : nat -> Q;
  unit_draws : nat -> Q;
  position : nat
}.

Definition advance (rs : random_source) : random_source :=
  {| int_draws := int_draws rs; normal_draws := normal_draws rs;
     unit_draws := unit_draws rs; position := S (position rs) |}.

(** [np.random.randint(low, high)]: uniform over [[low, high)], and a
    [ValueError] when that range is empty. *)
Definition np_random_randint (low high : Z) (rs : random_source)
    : result (Z * random_source) :=
  if low <? high
  then Ok (low + int_draws rs (position rs) `mod` (high - low), advance rs)
  else Raise (ValueError "low >= high").

(** [random.randint(a, b)]: uniform over [[a, b]], both ends included. *)
Definition random_randint (a b : Z) (rs : random_source)
    : result (Z * random_source) :=
  if a <=? b
  then Ok (a + int_draws rs (position rs) `mod` (b - a + 1), advance rs)
  else Raise (ValueError "empty range for randrange()").

(** [np.random.normal()] *)
Definition np_random_normal (rs : random_source) : Q * random_source :=
  (normal_draws rs (position rs), advance rs).

(** [np.random.random(N)]: [N] draws from [[0, 1)]. *)
Fixpoint np_random_random (N : nat) (rs : random_source)
    : list Q * random_source :=
  match N with
  | O => ([], rs)
  | S N' =>
      let u := unit_draws rs (position rs) in
      let '(us, rs') := np_random_random N' (advance rs) in
      ((u - inject_Z (Qfloor u))%Q :: us, rs')
  end.

Module ellipse.

Inductive color_tag : Type :=
| DARK_ELLIPSE_COLOR
| LIGHT_ELLIPSE_COLOR.

(** A [BezierEllipse].  Its vertices are the points of the unit circle at
    [N] evenly spaced angles, each scaled by the matching entry of
    [radii], then stretched to [width] and [height] and moved to
    [(x, y)]: the rasterizer's input.  The embedding keeps what those
    vertices are computed from. *)
Record BezierEllipse : Type := mkEllipse {
  x : Q;
  y : Q;
  width : Q;
  height : Q;
  n : Z;
  r : Q;
  N0 : Z;
  N1 : Z;
  color : color_tag;
  radii : list Q
}.

(** [BezierEllipse(x, y, width, height, color=...)] with the defaults
    [n=2, r=.2, n0=7, n1=5]; the perturbation
    [2 * r * np.random.random(N) + 1 - r] consumes [N] draws. *)
Definition BezierEllipse_init (x0 y0 width0 height0 : Q) (c : color_tag)
    (rs : random_source) : BezierEllipse * random_source :=
  let n0 := 2 in
  let r0 := (2 # 10)%Q in
  let N := n0 * 7 + 5 in
  let '(us, rs') := np_random_random (Z.to_nat N) rs in
  ({| x := x0; y := y0; width := width0; height := height0;
      n := n0; r := r0; N0 := 7; N1 := 5; color := c;
      radii := (fun u => 2 * r0 * u + 1 - r0)%Q <$> us |}, rs').

End ellipse.

(** ** ellipse.py: the vertices of the path *)

Module bezier_path.

Import ellipse.

(** A row of [self.vertices]. *)
Definition vertex : Type := (Q * Q)%type.

(** The vertex array.  numpy divides by a zero length without raising and
    fills the array with [nan] or [inf]; the embedding, whose numbers are
    rationals, yields [NotFinite] for such an array. *)
Inductive vertex_array : Type :=
| Finite (vertices : list vertex)
| NotFinite.

(** [v[index]] and [self.vertices[e][index] = c] *)
Definition coordinate (index : nat) (v : vertex) : Q :=
  match index with
  | O => v.1
  | _ => v.2
  end.

Definition set_coordinate (index : nat) (c : Q) (v : vertex) : vertex :=
  match index with
  | O => (c, v.2)
  | _ => (v.1, c)
  end.

(** [a.max()] and [a.min()]; both raise on an empty array. *)
Definition np_max (a : list Q) : result Q :=
  match a with
  | [] =>
      Raise (ValueError
               "zero-size array to reduction operation maximum which has no identity")
  | c :: a' => Ok (foldl (fun m c' => if Qltb m c' then c' else m) c a')
  end.

Definition np_min (a : list Q) : result Q :=
  match a with
  | [] =>
      Raise (ValueError
               "zero-size array to reduction operation minimum which has no identity")
  | c :: a' => Ok (foldl (fun m c' => if Qltb c' m then c' else m) c a')
  end.

(** The body of the loop of [__scale_to_length]; [length] is [self.width]
    or [self.height]. *)
Definition scale_vertex (index : nat) (length actual_length : Q)
    (v : vertex) : vertex :=
  let ratio := (Qabs (coordinate index v) / actual_length)%Q in
  let new_coord := (length * ratio)%Q in
  if Qltb (coordinate index v) 0
  then set_coordinate index (- new_coord)%Q v
  else set_coordinate index new_coord v.

(** [__scale_to_length]: with a coordinate name other than [x] and [y] the
    message is printed and [index] is read unbound. *)
Definition scale_to_length (self : BezierEllipse) (coord : string)
    (vertices : list vertex) : io vertex_array :=
  index ←
    (if String.eqb coord "x" then mret 0%nat
     else if String.eqb coord "y" then mret 1%nat
     else
       _ ← print_red_terminal_message
             ("Wrongly specified coordinate " +:+ coord
              +:+ ", only x and y are allowed");
       raise (NameError "index"));
  (* scale x (index = 0) or y (index = 1) coordinates *)
  my_max ← lift (np_max (coordinate index <$> vertices));
  my_min ← lift (np_min (coordinate index <$> vertices));
  let actual_length := (my_max + Qabs my_min)%Q in
  if Qeq_bool actual_length 0 then mret NotFinite
  else
    let length :=
      match index with
      | O => width self
      | _ => height self
      end in
    mret (Finite (scale_vertex index length actual_length <$> vertices)).

(** [__create_bezier_vertices_and_codes], from the radii drawn for [self]:
    [cos_sin] holds the cosine and the sine of the [N] angles of
    [np.linspace(0, 2 * np.pi, N)].  [np.linspace] raises on a negative
    count, and [self.codes[0]] on an empty array. *)
Definition create_bezier_vertices_and_codes (cos_sin : list vertex)
    (self : BezierEllipse) : io vertex_array :=
  let N := n self * N0 self + N1 self in
  _ ← (if N <? 0
       then raise (ValueError "Number of samples must be non-negative")
       else if N =? 0 then raise IndexError
       else mret tt);
  let vertices :=
    zip_with (fun d radius => (d.1 * radius, d.2 * radius)%Q)
      cos_sin (radii self) in
  (* self.vertices[-1, :] = self.vertices[0, :] *)
  let vertices :=
    match vertices with
    | [] => []
    | first :: _ => <[(length vertices - 1)%nat := first]> vertices
    end in
  (* scale x- and y-coords of vertices to given width and height *)
  scaled ← scale_to_length self "x" vertices;
  match scaled with
  | NotFinite => mret NotFinite
  | Finite vertices =>
      scaled ← scale_to_length self "y" vertices;
      match scaled with
      | NotFinite => mret NotFinite
      | Finite vertices =>
          (* set center of vertices to x, y *)
          mret (Finite ((fun v => (v.1 + x self, v.2 + y self)%Q)
                          <$> vertices))
      end
  end.

End bezier_path.

(** ** utils.py *)

(** A loop whose body updates a state and may raise. *)
Fixpoint for_state {A S : Type} (l : list A) (body : A -> S -> result S)
    (s : S) : result S :=
  match l with
  | [] => Ok s
  | a :: l' => s' ← body a s; for_state l' body s'
  end.

Module utils.

Import porosity parameters user_config ellipse.

(** An index into an axis of length [len]: negative indices count from
    the end. *)
Definition axis_index (len : nat) (i : Z) : result nat :=
  let i' := if i <? 0 then i + Z.of_nat len else i in
  if (0 <=? i') && (i' <? Z.of_nat len)
  then Ok (Z.to_nat i')
  else Raise IndexError.

(** [img[i][j]] *)
Definition array_get (img : ndarray) (i j : Z) : result Z :=
  row ← axis_index (shape0 img) i;
  col ← axis_index (shape1 img) j;
  match data img !! (row * shape1 img + col)%nat with
  | Some v => Ok v
  | None => Raise IndexError
  end.

(** [img[i][j] = v] *)
Definition array_set (img : ndarray) (i j : Z) (v : Z) : result ndarray :=
  row ← axis_index (shape0 img) i;
  col ← axis_index (shape1 img) j;
  Ok {| shape0 := shape0 img; shape1 := shape1 img;
        data := <[(row * shape1 img + col)%nat := v]> (data img) |}.

(** The body of the two nested loops of [border_correction]. *)
Definition border_correction_pixel (width height xi yi : Z)
    (img_grey : ndarray) : result ndarray :=
  p ← array_get img_grey xi yi;
  if p =? 0 then
    let x_new := if xi =? width - 1 then width - 2 else xi + 1 in
    let y_new := if yi =? height - 1 then height - 2 else yi + 1 in
    v ← array_get img_grey x_new y_new;
    array_set img_grey xi yi v
  else Ok img_grey.

(** [border_correction]: the buffer is corrected in place, pixel after
    pixel in row-major order, and returned. *)
Definition border_correction (img_grey : ndarray) : result ndarray :=
  let width := Z.of_nat (shape0 img_grey) in
  let height := Z.of_nat (shape1 img_grey) in
  for_state (seqZ 0 width)
    (fun xi img =>
       for_state (seqZ 0 height)
         (fun yi img => border_correction_pixel width height xi yi img)
         img)
    img_grey.

(** [draw_random_normal_int(low, high)] *)
Definition draw_random_normal_int (low high : Q) (rs : random_source)
    : Q * random_source :=
  let '(normal, rs) := np_random_normal rs in
  (* clip to -3, 3 *)
  let normal := if Qltb normal (-3) then (-3)%Q else normal in
  let normal := if Qltb 3 normal then 3%Q else normal in
  (* scale range of 6 (-3..3) to range of low-high *)
  let scaling_factor := ((high - low) / 6)%Q in
  let normal_scaled := (normal * scaling_factor)%Q in
  (* center around mean of range of low high *)
  let normal_scaled := (normal_scaled + (low + (high - low) / 2))%Q in
  (inject_Z (np_round normal_scaled), rs).

(** The figure under construction: its size in inches and the patches
    added so far. *)
Record figure : Type := mkFigure {
  figsize : Q * Q;
  xlim : Z;
  ylim : Z;
  patches : list BezierEllipse
}.

(** [setup_figure_w_axes] *)
Definition setup_figure_w_axes (parameters : Parameters) : figure :=
  {| figsize := (inject_Z (image_width parameters) / 100,
                 inject_Z (image_height parameters) / 100)%Q;
     xlim := image_width parameters;
     ylim := image_height parameters;
     patches := [] |}.

(** [ax.add_patch(shape.retrieve_patch())] *)
Definition add_patch (shape : BezierEllipse) (fig : figure) : figure :=
  {| figsize := figsize fig; xlim := xlim fig; ylim := ylim fig;
     patches := patches fig ++ [shape] |}.

(** The rendering backend (matplotlib's [savefig] followed by OpenCV's
    decoding and grayscale conversion) behind
    [convert_plt_to_greyscale_array], and OpenCV's [imwrite]. *)
Record backend : Type := mkBackend {
  convert_plt_to_greyscale_array : figure -> ndarray;
  cv2_imwrite : string -> ndarray -> bool
}.

(** The loop state of [generate_objects]: the two lists and the random
    source. *)
Definition objects : Type :=
  (list BezierEllipse * list BezierEllipse * random_source)%type.

(** The body of the foam-pore loop of [generate_objects]. *)
Definition generate_foam_pore (parameters : Parameters) (x y : Z)
    (st : objects) : result objects :=
  let '(track_objects, foam_pore_objects, rs) := st in
  let deviation_from_diameter :=
    inject_Z (np_round (inject_Z (mean_diameter_of_foam_pores parameters)
                        * foam_pore_variation_of_diameter parameters)) in
  let low_foam_pore :=
    (inject_Z (mean_diameter_of_foam_pores parameters)
     - deviation_from_diameter)%Q in
  let high_foam_pore :=
    (inject_Z (mean_diameter_of_foam_pores parameters)
     + deviation_from_diameter)%Q in
  let '(generated_width_foam_pore, rs) :=
    draw_random_normal_int low_foam_pore high_foam_pore rs in
  let '(generated_height_foam_pore, rs) :=
    draw_random_normal_int low_foam_pore high_foam_pore rs in
  let '(nx, rs) := np_random_normal rs in
  let randomized_x_foam :=
    (inject_Z (x_offset parameters) + inject_Z x
     + nx * foam_pores_center_scaling_factor parameters)%Q in
  let '(ny, rs) := np_random_normal rs in
  let randomized_y_foam :=
    (inject_Z (y_offset parameters) + inject_Z y
     + ny * foam_pores_center_scaling_factor parameters)%Q in
  let '(a_foam_pore, rs) :=
    BezierEllipse_init randomized_x_foam randomized_y_foam
      generated_width_foam_pore generated_height_foam_pore
      DARK_ELLIPSE_COLOR rs in
  Ok (track_objects, foam_pore_objects ++ [a_foam_pore], rs).

(** The body of the two grid loops of [generate_objects]. *)
Definition generate_cell (parameters : Parameters)
    (user_config : UserConfig) (x y : Z) (st : objects) : result objects :=
  let '(track_objects, foam_pore_objects, rs) := st in
  let absolute_track_width_variation :=
    (track_mean_width parameters * track_width_variation parameters)%Q in
  '(generated_width, rs) ←
    np_random_randint
      (Qfloor (track_mean_width parameters - absolute_track_width_variation))
      (Qceiling (track_mean_width parameters + absolute_track_width_variation))
      rs;
  let absolute_track_height_variation :=
    (track_mean_height parameters * track_height_variation parameters)%Q in
  '(generated_height, rs) ←
    np_random_randint
      (Qfloor (track_mean_height parameters
               - absolute_track_height_variation))
      (Qceiling (track_mean_height parameters
                 + absolute_track_height_variation))
      rs;
  let '(nx, rs) := np_random_normal rs in
  let randomized_x :=
    (inject_Z (x_offset parameters) + inject_Z x
     + nx * inject_Z (randomized_track_x_factor parameters))%Q in
  let '(ny, rs) := np_random_normal rs in
  let randomized_y :=
    (inject_Z (y_offset parameters) + inject_Z y
     + ny * inject_Z (randomized_track_y_factor parameters))%Q in
  let '(track_pore, rs) :=
    BezierEllipse_init randomized_x randomized_y
      (inject_Z generated_width) (inject_Z generated_height)
      LIGHT_ELLIPSE_COLOR rs in
  let track_objects := track_objects ++ [track_pore] in
  if negb (Qeq_bool (by_foam_pores (desired_porosities user_config)) 0) then
    '(amount, rs) ←
      np_random_randint
        (mean_foam_pores_per_track parameters
         - variation_of_foam_pores_per_track parameters)
        (mean_foam_pores_per_track parameters
         + variation_of_foam_pores_per_track parameters)
        rs;
    for_state (seqZ 0 amount)
      (fun i st => generate_foam_pore parameters x y st)
      (track_objects, foam_pore_objects, rs)
  else Ok (track_objects, foam_pore_objects, rs).

(** [generate_objects]: the two lists, and the random source after the
    draws. *)
Definition generate_objects (parameters : Parameters)
    (user_config : UserConfig) (rs : random_source) : result objects :=
  let layer_width :=
    np_round (inject_Z (layer_height user_config)
              * layer_width_to_layer_height_ratio user_config) in
  if negb (0 <? layer_width) then
    Raise (ValueError
      ("Layer width must not be zero or smaller! Check user config. Layer_width: "
       +:+ pretty layer_width))
  else if negb (0 <? layer_height user_config) then
    Raise (ValueError
      ("Layer height must not be zero or smaller! Check user config! Layer_height: "
       +:+ pretty (layer_height user_config)))
  else
    for_state (py_range (image_width parameters) layer_width)
      (fun x st =>
         for_state
           (py_range (image_height parameters) (layer_height user_config))
           (fun y st => generate_cell parameters user_config x y st)
           st)
      ([], [], rs).

(** The state a run works on: the caller's [Parameters] object, the
    random source and what has been emitted. *)
Record run_state : Type := mkState {
  the_parameters : Parameters;
  the_random : random_source;
  emitted : list event
}.

(** Programs over a [run_state] that may raise; the state reached when an
    exception is raised is kept. *)
Definition prog (A : Type) : Type := run_state -> run_state * result A.

#[global] Instance prog_ret : MRet prog := fun A a st => (st, Ok a).

#[global] Instance prog_bind : MBind prog := fun A B k m st =>
  match m st with
  | (st', Ok a) => k a st'
  | (st', Raise e) => (st', Raise e)
  end.

Definition get_parameters : prog Parameters :=
  fun st => (st, Ok (the_parameters st)).

Definition put_parameters (p : Parameters) : prog unit :=
  fun st => ({| the_parameters := p; the_random := the_random st;
                emitted := emitted st |}, Ok tt).

Definition log (e : event) : prog unit :=
  fun st => ({| the_parameters := the_parameters st;
                the_random := the_random st;
                emitted := emitted st ++ [e] |}, Ok tt).

Definition throw {A : Type} (e : exn) : prog A := fun st => (st, Raise e).

Definition of_result {A : Type} (r : result A) : prog A :=
  fun st => (st, r).

(** A draw from the random source. *)
Definition draw {A : Type} (f : random_source -> result (A * random_source))
    : prog A :=
  fun st =>
    match f (the_random st) with
    | Ok (a, rs) => ({| the_parameters := the_parameters st;
                        the_random := rs; emitted := emitted st |}, Ok a)
    | Raise e => (st, Raise e)
    end.

(** [str(n).zfill(width)] for a non-negative [n]. *)
Definition zfill (width : nat) (s : string) : string :=
  String.string_of_list_ascii (replicate (width - String.length s) "0"%char) +:+ s.

(** [dataclasses.asdict] on the three dataclasses. *)
Definition asdict_porosities (p : Porosities) : gmap string json :=
  list_to_map
    [("total", JFloat (total p));
     ("by_foam_pores", JFloat (by_foam_pores p));
     ("by_tracks", from_option JFloat JNull (by_tracks p))].

Definition asdict_user_config (c : UserConfig) : gmap string json :=
  list_to_map
    [("layer_height", JInt (layer_height c));
     ("layer_width_to_layer_height_ratio",
      JFloat (layer_width_to_layer_height_ratio c));
     ("desired_porosities", JObj (asdict_porosities (desired_porosities c)));
     ("output_folder", JStr (output_folder c))].

(** Only annotated attributes are dataclass fields:
    [foam_pore_variation_of_diameter] is not dumped.  [name] is what the
    [porosity_function] attribute holds at the time of the call. *)
Definition asdict_parameters (name : string) (p : Parameters)
    : gmap string json :=
  list_to_map
    [("image_width", JInt (image_width p));
     ("image_height", JInt (image_height p));
     ("total_porosity_margin", JFloat (total_porosity_margin p));
     ("porosity_foam_pore_margin", JFloat (porosity_foam_pore_margin p));
     ("foam_pore_amount_adaption_threshold",
      JFloat (foam_pore_amount_adaption_threshold p));
     ("porosity_function", JStr name);
     ("x_offset", JInt (x_offset p));
     ("y_offset", JInt (y_offset p));
     ("track_mean_width", JFloat (track_mean_width p));
     ("track_width_variation", JFloat (track_width_variation p));
     ("track_mean_height", JFloat (track_mean_height p));
     ("track_height_variation", JFloat (track_height_variation p));
     ("randomized_track_x_factor", JInt (randomized_track_x_factor p));
     ("randomized_track_y_factor", JInt (randomized_track_y_factor p));
     ("foam_pores_center_scaling_factor",
      JFloat (foam_pores_center_scaling_factor p));
     ("mean_diameter_of_foam_pores", JInt (mean_diameter_of_foam_pores p));
     ("mean_foam_pores_per_track", JInt (mean_foam_pores_per_track p));
     ("variation_of_foam_pores_per_track",
      JInt (variation_of_foam_pores_per_track p))].

(** [save_files]: works on the caller's [Parameters] object. *)
Definition save_files (be : backend) (fs : filesystem)
    (img_grey_sp : ndarray) (actual_porosities : Porosities)
    (user_config : UserConfig) : prog unit :=
  _ ← (if negb (path_is_dir fs (output_folder user_config))
       then log (Mkdir (output_folder user_config))
       else mret tt);
  (* save image *)
  no ← draw (random_randint 1 100);
  let random_no := zfill 3 (pretty no) in
  let file_name_sp :=
    output_folder user_config +:+ "/" +:+ "img" +:+ random_no +:+ "_"
    +:+ pretty (py_int (total actual_porosities)) +:+ "_"
    +:+ pretty (py_int (by_foam_pores actual_porosities)) +:+ ".png" in
  let result := cv2_imwrite be file_name_sp img_grey_sp in
  _ ← log (Imwrite file_name_sp img_grey_sp);
  _ ← log (Print ("cv2 result " +:+ if result then "True" else "False"));
  (* replace function in parameters with function name for saving of config *)
  parameters ← get_parameters;
  name ← match porosity_function parameters with
         | Callable f => mret (fn_name f)
         | NameStr _ =>
             throw (AttributeError "'str' object has no attribute '__name__'")
         end;
  _ ← put_parameters (set_porosity_function (NameStr name) parameters);
  parameters ← get_parameters;
  let config_to_dump : gmap string json :=
    list_to_map
      [("user_config", JObj (asdict_user_config user_config));
       ("parameters", JObj (asdict_parameters name parameters));
       ("porosity_results", JObj (asdict_porosities actual_porosities))] in
  let config_file_name :=
    output_folder user_config +:+ "/" +:+ "config_" +:+ random_no
    +:+ ".json" in
  _ ← log (JsonDump config_file_name config_to_dump);
  _ ← log (Print ("saved " +:+ file_name_sp +:+ " and " +:+ config_file_name));
  log (PrintFmt
         "Porosities: total: is {:.2f}, should {:.2f}, foam pores: is {:.2f}, should {:.2f}"
         [total actual_porosities; total (desired_porosities user_config);
          by_foam_pores actual_porosities;
          by_foam_pores (desired_porosities user_config)]).

End utils.

(** ** draw_routine.py *)

Module draw_routine.

Import porosity parameters user_config ellipse utils.

(** [parameters.porosity_function(img.flatten(), False)]: calling the
    attribute fails once it holds a [str]. *)
Definition call_porosity_function (parameters : Parameters)
    (img : ndarray) : result Q :=
  match porosity_function parameters with
  | Callable f => fn_call f (data img)
  | NameStr _ => Raise (TypeError "'str' object is not callable")
  end.

(** The first part of the body of the [while (True)] loop of
    [generate_image]: build the scene, render it twice and measure.
    Yields the second buffer and the measured porosities. *)
Definition render_and_measure (be : backend) (user_config : UserConfig)
    (actual_porosities : Porosities) : prog (ndarray * Porosities) :=
  parameters ← get_parameters;
  (* setup pyplot *)
  let fig := setup_figure_w_axes parameters in
  (* generate tracks and foam pores *)
  '(track_objects, foam_pore_objects) ←
    draw (fun rs =>
            '(tracks, pores, rs') ← generate_objects parameters user_config rs;
            Ok ((tracks, pores), rs'));
  (* plot tracks *)
  let fig := foldl (fun fig track => add_patch track fig) fig track_objects in
  (* convert to numpy array *)
  let img_grey := convert_plt_to_greyscale_array be fig in
  img_grey ← of_result (border_correction img_grey);
  (* calculate porosity of tracks *)
  by_tracks' ← of_result (call_porosity_function parameters img_grey);
  let actual_porosities :=
    {| total := total actual_porosities;
       by_foam_pores := by_foam_pores actual_porosities;
       by_tracks := Some by_tracks' |} in
  (* add foam pores to image *)
  let fig :=
    foldl (fun fig pore => add_patch pore fig) fig foam_pore_objects in
  let img_grey_sp := convert_plt_to_greyscale_array be fig in
  img_grey_sp ← of_result (border_correction img_grey_sp);
  (* calculate total porosity and porosity by foam pores *)
  total' ← of_result (call_porosity_function parameters img_grey_sp);
  let actual_porosities :=
    {| total := total';
       by_foam_pores := (total' - by_tracks')%Q;
       by_tracks := Some by_tracks' |} in
  mret (img_grey_sp, actual_porosities).

(** The second part: the margin check and its two arms.  The [bool]
    tells whether the pass ended in [return actual_porosities]. *)
Definition accept_or_adapt (be : backend) (fs : filesystem)
    (user_config : UserConfig) (save : bool) (img_grey_sp : ndarray)
    (actual_porosities : Porosities) : prog (bool * Porosities) :=
  parameters ← get_parameters;
  (* check if computed porosity is close enough to desired porosity *)
  let porosity_total_in_margin :=
    porosity_in_margin (total (desired_porosities user_config))
      (total actual_porosities) (total_porosity_margin parameters) in
  let porosity_foam_pores_in_margin :=
    porosity_in_margin (by_foam_pores (desired_porosities user_config))
      (by_foam_pores actual_porosities)
      (porosity_foam_pore_margin parameters) in
  if porosity_total_in_margin && porosity_foam_pores_in_margin then
    _ ← (if save
         then save_files be fs img_grey_sp actual_porosities user_config
         else mret tt);
    mret (true, actual_porosities)
  else
    (* adapt draw parameters and generate new *)
    _ ← put_parameters
          (adapt_parameters parameters (desired_porosities user_config)
             actual_porosities);
    _ ← log (PrintFmt
               "lets do it again! total: is {:.2f}, should {:.2f}, foam pores: is {:.2f}, should {:.2f}"
               [total actual_porosities;
                total (desired_porosities user_config);
                by_foam_pores actual_porosities;
                by_foam_pores (desired_porosities user_config)]);
    mret (false, actual_porosities).

(** One pass through the body of the loop. *)
Definition generate_image_pass (be : backend) (fs : filesystem)
    (user_config : UserConfig) (save : bool)
    (actual_porosities : Porosities) : prog (bool * Porosities) :=
  '(img_grey_sp, actual_porosities) ←
    render_and_measure be user_config actual_porosities;
  accept_or_adapt be fs user_config save img_grey_sp actual_porosities.

(** The loop, unrolled at most [fuel] times; [None] when it is still
    running after that many passes. *)
Fixpoint generate_image_loop (fuel : nat) (be : backend) (fs : filesystem)
    (user_config : UserConfig) (save : bool)
    (actual_porosities : Porosities) : prog (option Porosities) :=
  match fuel with
  | O => mret None
  | S fuel' =>
      '(returned, actual_porosities) ←
        generate_image_pass be fs user_config save actual_porosities;
      if returned : bool then mret (Some actual_porosities)
      else generate_image_loop fuel' be fs user_config save
             actual_porosities
  end.

(** [generate_image(user_config, parameters, save)] *)
Definition generate_image (fuel : nat) (be : backend) (fs : filesystem)
    (user_config : UserConfig) (save : bool) : prog (option Porosities) :=
  let actual_porosities := Porosities_init 0 0 in
  generate_image_loop fuel be fs user_config save actual_porosities.

End draw_routine.

(** ** Vocabulary of the properties *)

Module vocabulary.

Import porosity parameters user_config utils.

(** Every attribute of [p'] other than [porosity_function] has the value it
    has in [p]. *)
Definition same_other_fields (p p' : Parameters) : Prop :=
  image_width p' = image_width p
  /\ image_height p' = image_height p
  /\ total_porosity_margin p' = total_porosity_margin p
  /\ porosity_foam_pore_margin p' = porosity_foam_pore_margin p
  /\ foam_pore_amount_adaption_threshold p'
     = foam_pore_amount_adaption_threshold p
  /\ x_offset p' = x_offset p
  /\ y_offset p' = y_offset p
  /\ track_mean_width p' = track_mean_width p
  /\ track_width_variation p' = track_width_variation p
  /\ track_mean_height p' = track_mean_height p
  /\ track_height_variation p' = track_height_variation p
  /\ randomized_track_x_factor p' = randomized_track_x_factor p
  /\ randomized_track_y_factor p' = randomized_track_y_factor p
  /\ foam_pores_center_scaling_factor p' = foam_pores_center_scaling_factor p
  /\ mean_diameter_of_foam_pores p' = mean_diameter_of_foam_pores p
  /\ mean_foam_pores_per_track p' = mean_foam_pores_per_track p
  /\ variation_of_foam_pores_per_track p'
     = variation_of_foam_pores_per_track p
  /\ foam_pore_variation_of_diameter p' = foam_pore_variation_of_diameter p.

(** Both measured porosities lie within their margins of the desired
    ones. *)
Definition within_margins (user_config : UserConfig) (parameters : Parameters)
    (actual : Porosities) : Prop :=
  (Qabs (total actual - total (desired_porosities user_config))
   <= total_porosity_margin parameters)%Q
  /\ (Qabs (by_foam_pores actual
            - by_foam_pores (desired_porosities user_config))
      <= porosity_foam_pore_margin parameters)%Q.

(** The keys [Parameters.load_from_file] reads unconditionally, by the type
    of the attribute they fill. *)
Definition int_fields : list string :=
  ["image_width"; "image_height"; "x_offset"; "y_offset";
   "randomized_track_x_factor"; "randomized_track_y_factor";
   "mean_diameter_of_foam_pores"; "mean_foam_pores_per_track";
   "variation_of_foam_pores_per_track"].

Definition float_fields : list string :=
  ["total_porosity_margin"; "porosity_foam_pore_margin";
   "foam_pore_amount_adaption_threshold"; "track_mean_width";
   "track_width_variation"; "track_mean_height"; "track_height_variation";
   "foam_pores_center_scaling_factor"].


(** The same keys in the order in which they are read. *)
Definition reading_order : list string :=
  ["image_width"; "image_height"; "total_porosity_margin";
   "porosity_foam_pore_margin"; "foam_pore_amount_adaption_threshold";
   "x_offset"; "y_offset"; "track_mean_width"; "track_width_variation";
   "track_mean_height"; "track_height_variation";
   "randomized_track_x_factor"; "randomized_track_y_factor";
   "foam_pores_center_scaling_factor"; "mean_diameter_of_foam_pores";
   "mean_foam_pores_per_track"; "variation_of_foam_pores_per_track"].

(** The entry [key] of the [parameters] object is present with a value of
    the type of the attribute it fills. *)
Definition field_present (parameter_file : gmap string json) (key : string)
    : Prop :=
  (key ∈ int_fields /\ exists z, parameter_file !! key = Some (JInt z))
  \/ (key ∈ float_fields
      /\ exists v q, parameter_file !! key = Some v /\ as_float v = Ok q).

(** The file and the directory that [UserConfig.load_from_file] is given
    exist, and the file holds [loaded] with the [user_config] object
    [user_config_dict]. *)
Definition readable (fs : filesystem) (filename : string)
    (output_directory : option string) (loaded : gmap string json)
    (user_config_dict : gmap string json) : Prop :=
  path_is_file fs filename = true
  /\ path_suffix fs filename = ".json"
  /\ from_option (fun dir => path_is_dir fs dir = true) True output_directory
  /\ json_load fs filename = Ok loaded
  /\ loaded !! "user_config" = Some (JObj user_config_dict).

End vocabulary.

(** ** Sample inputs *)

Module samples.

Import porosity parameters user_config ellipse utils draw_routine.

(** The user configuration of [generate_from_scratch.py], with a smaller
    foam-pore target. *)
Definition sample_user_config : UserConfig :=
  {| layer_height := 40;
     layer_width_to_layer_height_ratio := 5 # 4;
     desired_porosities := Porosities_init 50 10;
     output_folder := "output" |}.

(** A configuration document as [save_files] dumps it for the default
    parameters, [name] being the dumped name of the porosity function. *)
Definition sample_document (name : string) : gmap string json :=
  list_to_map
    [("user_config", JObj (asdict_user_config sample_user_config));
     ("parameters", JObj (asdict_parameters name defaults));
     ("porosity_results",
      JObj (asdict_porosities (mkPorosities 50 10 (Some 40%Q))))].

(** The same document with [desired] as the [desired_porosities] object of
    its user configuration. *)
Definition document_with_desired (desired : gmap string json)
    : gmap string json :=
  <["user_config" :=
      JObj (<["desired_porosities" := JObj desired]>
              (asdict_user_config sample_user_config))]>
    (sample_document "calculate_porosity_w_mean").

(** A file system holding [doc] as [config.json] next to a directory
    [output]. *)
Definition sample_fs (doc : gmap string json) : filesystem :=
  {| path_is_file := fun f => String.eqb f "config.json";
     path_is_dir := fun d => String.eqb d "output" || String.eqb d "output/";
     path_suffix := fun f => ".json";
     path_str := fun f => f;
     json_load := fun f => if String.eqb f "config.json" then Ok doc
                           else Raise FileNotFoundError |}.

(** A coarse grid (3 x 3 cells on the default canvas) asking for 10 % of
    foam-pore porosity, and the same grid asking for 25 %. *)
Definition coarse_user_config : UserConfig :=
  {| layer_height := 400;
     layer_width_to_layer_height_ratio := 5 # 4;
     desired_porosities := Porosities_init 50 10;
     output_folder := "output" |}.

Definition matching_user_config : UserConfig :=
  {| layer_height := 400;
     layer_width_to_layer_height_ratio := 5 # 4;
     desired_porosities := Porosities_init 50 25;
     output_folder := "output" |}.

Definition is_dark (shape : BezierEllipse) : bool :=
  match color shape with
  | DARK_ELLIPSE_COLOR => true
  | LIGHT_ELLIPSE_COLOR => false
  end.

(** A backend that renders every scene to a 2 x 2 buffer: one dark pixel
    (76) among light ones (211) for tracks alone, two once a pore is drawn. *)
Definition sample_backend : backend :=
  {| convert_plt_to_greyscale_array := fun fig =>
       if existsb is_dark (patches fig)
       then mkArray 2 2 [211; 211; 76; 76]
       else mkArray 2 2 [211; 211; 211; 76];
     cv2_imwrite := fun _ _ => true |}.

(** A random source whose integer draws all fall on the upper end of the
    requested range. *)
Definition sample_random : random_source :=
  {| int_draws := fun _ => -1; normal_draws := fun _ => 0%Q;
     unit_draws := fun _ => (1 # 2)%Q; position := 0 |}.

(** A run that starts from the default parameters. *)
Definition sample_state : run_state :=
  {| the_parameters := defaults; the_random := sample_random;
     emitted := [] |}.

End samples.

(** ** Predicates of the further properties *)

Module predicates.

Import porosity parameters user_config ellipse utils.

(** The settings that neither [adapt_to_config] nor [adapt_parameters]
    assigns have in [p'] the value they have in [p]. *)
Definition same_settings (p p' : Parameters) : Prop :=
  image_width p' = image_width p
  /\ image_height p' = image_height p
  /\ total_porosity_margin p' = total_porosity_margin p
  /\ porosity_foam_pore_margin p' = porosity_foam_pore_margin p
  /\ foam_pore_amount_adaption_threshold p'
     = foam_pore_amount_adaption_threshold p
  /\ porosity_function p' = porosity_function p
  /\ x_offset p' = x_offset p
  /\ y_offset p' = y_offset p
  /\ track_width_variation p' = track_width_variation p
  /\ track_height_variation p' = track_height_variation p
  /\ randomized_track_x_factor p' = randomized_track_x_factor p
  /\ randomized_track_y_factor p' = randomized_track_y_factor p
  /\ foam_pore_variation_of_diameter p' = foam_pore_variation_of_diameter p.

(** The foam-pore knobs are in the range the adaptation keeps them in. *)
Definition pore_knobs_in_range (p : Parameters) : Prop :=
  1 <= mean_diameter_of_foam_pores p
  /\ 0 <= mean_foam_pores_per_track p
  /\ 0 <= variation_of_foam_pores_per_track p.

(** The attributes that [adapt_to_config] does not assign besides the
    settings: the centre scaling factor and the variation of the pore
    count. *)
Definition same_scaling_and_variation (p p' : Parameters) : Prop :=
  foam_pores_center_scaling_factor p' = foam_pores_center_scaling_factor p
  /\ variation_of_foam_pores_per_track p'
     = variation_of_foam_pores_per_track p.
(** The numeric dataclass fields, which [save_files] dumps and
    [Parameters.load_from_file] reads, have in [p'] the value they have in
    [p]. *)
Definition same_dumped_fields (p p' : Parameters) : Prop :=
  image_width p' = image_width p
  /\ image_height p' = image_height p
  /\ total_porosity_margin p' = total_porosity_margin p
  /\ porosity_foam_pore_margin p' = porosity_foam_pore_margin p
  /\ foam_pore_amount_adaption_threshold p'
     = foam_pore_amount_adaption_threshold p
  /\ x_offset p' = x_offset p
  /\ y_offset p' = y_offset p
  /\ track_mean_width p' = track_mean_width p
  /\ track_width_variation p' = track_width_variation p
  /\ track_mean_height p' = track_mean_height p
  /\ track_height_variation p' = track_height_variation p
  /\ randomized_track_x_factor p' = randomized_track_x_factor p
  /\ randomized_track_y_factor p' = randomized_track_y_factor p
  /\ foam_pores_center_scaling_factor p' = foam_pores_center_scaling_factor p
  /\ mean_diameter_of_foam_pores p' = mean_diameter_of_foam_pores p
  /\ mean_foam_pores_per_track p' = mean_foam_pores_per_track p
  /\ variation_of_foam_pores_per_track p'
     = variation_of_foam_pores_per_track p.

(** The document [save_files] dumps. *)
Definition dumped_config (name : string) (p : Parameters)
    (actual : Porosities) (cfg : UserConfig) : gmap string json :=
  list_to_map
    [("user_config", JObj (asdict_user_config cfg));
     ("parameters", JObj (asdict_parameters name p));
     ("porosity_results", JObj (asdict_porosities actual))].

(** The two file names [save_files] builds from the drawn number. *)
Definition image_file_name (cfg : UserConfig) (no : Z)
    (actual : Porosities) : string :=
  output_folder cfg +:+ "/" +:+ "img" +:+ zfill 3 (pretty no) +:+ "_"
  +:+ pretty (py_int (total actual)) +:+ "_"
  +:+ pretty (py_int (by_foam_pores actual)) +:+ ".png".

Definition config_file_name (cfg : UserConfig) (no : Z) : string :=
  output_folder cfg +:+ "/" +:+ "config_" +:+ zfill 3 (pretty no)
  +:+ ".json".

(** The events that write to the file system. *)
Definition is_persistence (e : event) : bool :=
  match e with
  | Mkdir _ | Imwrite _ _ | JsonDump _ _ => true
  | _ => false
  end.
(** [st'] is reached from [st] by printing only, with the settings
    kept. *)
Definition quiet_step (st st' : run_state) : Prop :=
  (exists msgs, emitted st' = emitted st ++ msgs
                /\ List.filter is_persistence msgs = [])
  /\ same_settings (the_parameters st) (the_parameters st').
(** [corrected] keeps every non-zero pixel of [img] where it is, and holds
    no value that [img] does not hold. *)
Definition keeps_nonzero_pixels (img corrected : ndarray) : Prop :=
  (forall i p, data img !! i = Some p -> p <> 0 ->
               data corrected !! i = Some p)
  /\ (forall v, v ∈ data corrected -> v ∈ data img).
(** The draw ranges of [generate_objects] are not empty: both track sizes
    and their variation ratios are positive, and so is the variation of
    the pore count unless no foam-pore porosity is desired. *)
Definition drawable (parameters : Parameters) (user_config : UserConfig)
    : Prop :=
  (0 < track_mean_width parameters)%Q
  /\ (0 < track_width_variation parameters)%Q
  /\ (0 < track_mean_height parameters)%Q
  /\ (0 < track_height_variation parameters)%Q
  /\ ((by_foam_pores (desired_porosities user_config) == 0)%Q
      \/ 0 < variation_of_foam_pores_per_track parameters).

(** The number of grid cells [generate_objects] visits. *)
Definition grid_cells (parameters : Parameters) (user_config : UserConfig)
    : nat :=
  let layer_width :=
    np_round (inject_Z (layer_height user_config)
              * layer_width_to_layer_height_ratio user_config) in
  (length (py_range (image_width parameters) layer_width)
   * length (py_range (image_height parameters) (layer_height user_config)))%nat.

(** A track as [generate_objects] makes them: light, of an integral size
    within the draw ranges. *)
Definition is_track (parameters : Parameters) (shape : BezierEllipse)
    : Prop :=
  color shape = LIGHT_ELLIPSE_COLOR
  /\ (exists w : Z,
        width shape = inject_Z w
        /\ (track_mean_width parameters
            - track_mean_width parameters * track_width_variation parameters
            - 1 < inject_Z w
            < track_mean_width parameters
              + track_mean_width parameters
                * track_width_variation parameters + 1)%Q)
  /\ (exists h : Z,
        height shape = inject_Z h
        /\ (track_mean_height parameters
            - track_mean_height parameters
              * track_height_variation parameters
            - 1 < inject_Z h
            < track_mean_height parameters
              + track_mean_height parameters
                * track_height_variation parameters + 1)%Q).

End predicates.

(** ** Sample shapes *)

Module sample_shapes.

Import ellipse.

(** A diamond of four directions, closed by a fifth, at radius 1, as the
    vertices of an ellipse 40 wide and 20 high around [(100, 50)]. *)
Definition diamond_directions : list bezier_path.vertex :=
  [(1, 0); (0, 1); (-1, 0); (0, -1); (1, 0)]%Q.

Definition diamond_ellipse : BezierEllipse :=
  {| x := 100; y := 50; width := 40; height := 20;
     n := 0; r := 2 # 10; N0 := 7; N1 := 5;
     color := LIGHT_ELLIPSE_COLOR; radii := [1; 1; 1; 1; 1]%Q |}.

End sample_shapes.

(** * Properties *)

(** ** Comparisons on rationals *)

Lemma Qltb_lt (x y : Q) : Qltb x y = true <-> (x < y)%Q.
Proof.
  unfold Qltb. rewrite negb_true_iff, <- not_true_iff_false, Qle_bool_iff.
  split; [apply Qnot_le_lt | apply Qlt_not_le].
Qed.

Lemma Qltb_ge (x y : Q) : Qltb x y = false <-> (y <= x)%Q.
Proof.
  unfold Qltb. rewrite negb_false_iff. apply Qle_bool_iff.
Qed.

(** ** Porosity measurement *)

Import porosity parameters user_config ellipse utils draw_routine.
Import vocabulary samples.

Lemma size_pos (buf : list Z) : buf <> [] -> 0 < size buf.
Proof. destruct buf; [done | unfold size; simpl; lia]. Qed.

Lemma pixels_below_bounds (buf : list Z) (t : Q) :
  0 <= pixels_below buf t <= size buf.
Proof.
  unfold pixels_below, size. split; [lia |].
  apply inj_le, List.filter_length_le.
Qed.

Lemma pixels_below_none (buf : list Z) (t : Q) :
  Forall (fun p => (t <= inject_Z p)%Q) buf -> pixels_below buf t = 0.
Proof.
  unfold pixels_below. induction 1 as [| p buf Hp _ IH]; [done |].
  simpl. apply Qltb_ge in Hp. rewrite Hp. exact IH.
Qed.

Lemma pixels_below_all (buf : list Z) (t : Q) :
  Forall (fun p => (inject_Z p < t)%Q) buf -> pixels_below buf t = size buf.
Proof.
  unfold pixels_below, size. induction 1 as [| p buf Hp _ IH]; [done |].
  simpl. apply Qltb_lt in Hp. rewrite Hp. simpl. lia.
Qed.

Lemma sum_uniform (v : Z) (buf : list Z) :
  Forall (eq v) buf -> foldr Z.add 0 buf = v * size buf.
Proof.
  unfold size. induction 1 as [| p buf Hp _ IH]; simpl; [lia |].
  rewrite IH. subst p. lia.
Qed.

Lemma np_mean_uniform (v : Z) (buf : list Z) :
  buf <> [] -> Forall (eq v) buf -> (np_mean buf == inject_Z v)%Q.
Proof.
  intros Hne Hall. unfold np_mean. rewrite (sum_uniform v buf Hall).
  pose proof (size_pos buf Hne) as Hpos.
  assert (Hn : (0 < inject_Z (size buf))%Q)
    by (change 0%Q with (inject_Z 0); rewrite <- Zlt_Qlt; lia).
  rewrite inject_Z_mult. field. lra.
Qed.



Lemma calculate_porostiy_range (c : Z) (buf : list Z) :
  buf <> [] -> 0 <= c <= size buf ->
  exists q, calculate_porostiy c buf = Ok q
            /\ (q == 100 / inject_Z (size buf) * inject_Z c)%Q
            /\ (0 <= q <= 100)%Q.
Proof.
  intros Hne [Hc0 Hcn]. pose proof (size_pos buf Hne) as Hpos.
  unfold calculate_porostiy.
  destruct (size buf =? 0) eqn:E; [lia |].
  eexists. split; [reflexivity |]. split; [reflexivity |].
  set (n := size buf) in *.
  assert (Hn : (0 < inject_Z n)%Q)
    by (change 0%Q with (inject_Z 0); rewrite <- Zlt_Qlt; lia).
  assert (Hc : (0 <= inject_Z c)%Q)
    by (change 0%Q with (inject_Z 0); rewrite <- Zle_Qle; lia).
  assert (Hcn' : (inject_Z c <= inject_Z n)%Q) by (rewrite <- Zle_Qle; lia).
  assert (Heq : (100 / inject_Z n * inject_Z c == 100 * inject_Z c / inject_Z n)%Q)
    by (field; lra).
  rewrite Heq. split.
  - apply Qle_shift_div_l; [exact Hn | lra].
  - apply Qle_shift_div_r; [exact Hn | lra].
Qed.




(** ** Parameter adaptation *)

(** The test that opens [adapt_parameters]: the measured foam-pore porosity
    lies strictly inside the margin around the desired one. *)
Lemma foam_in_margin_test (self : Parameters) (d a : Porosities) :
  Qltb (by_foam_pores d - porosity_foam_pore_margin self) (by_foam_pores a)
  && Qltb (by_foam_pores a) (by_foam_pores d + porosity_foam_pore_margin self)
  = true
  <-> (Qabs (by_foam_pores a - by_foam_pores d)
       < porosity_foam_pore_margin self)%Q.
Proof.
  rewrite andb_true_iff, !Qltb_lt, Qabs_Qlt_condition. split; intros [? ?]; split; lra.
Qed.

(** Whatever arm [adapt_tracks] takes, it is a track nudge. *)
Lemma adapt_tracks_nudge (bound : Q) (self : Parameters) (d a : Porosities) :
  exists dw dh : Q, adapt_tracks bound self d a = nudge_tracks dw dh self.
Proof.
  unfold adapt_tracks. repeat case_match; eauto.
Qed.

Lemma adapt_tracks_above (bound : Q) (self : Parameters) (d a : Porosities) :
  (total d < total a)%Q ->
  adapt_tracks bound self d a
  = if Qltb bound (Qabs (total a - total d))
    then nudge_tracks 3 2 self else nudge_tracks 1 (1 # 2) self.
Proof.
  intros H. apply Qltb_lt in H. unfold adapt_tracks. by rewrite H.
Qed.

(** The steps after the track nudge leave the track sizes alone. *)
Lemma adapt_foam_pores_tracks (diff : Q) (self : Parameters) :
  track_mean_width (adapt_foam_pores diff self) = track_mean_width self
  /\ track_mean_height (adapt_foam_pores diff self) = track_mean_height self.
Proof.
  unfold adapt_foam_pores. repeat case_match; done.
Qed.

Lemma adapt_parameters_tracks (self : Parameters) (d a : Porosities) :
  let moved :=
    adapt_tracks
      (if Qltb (by_foam_pores d - porosity_foam_pore_margin self)
               (by_foam_pores a)
          && Qltb (by_foam_pores a)
                  (by_foam_pores d + porosity_foam_pore_margin self)
       then 7 else 10)%Q self d a in
  track_mean_width (adapt_parameters self d a) = track_mean_width moved
  /\ track_mean_height (adapt_parameters self d a) = track_mean_height moved.
Proof.
  unfold adapt_parameters. cbv zeta.
  set (c := Qltb _ _ && Qltb _ _).
  assert (E : (if c then adapt_tracks 7 self d a else adapt_tracks 10 self d a)
              = adapt_tracks (if c then 7 else 10)%Q self d a)
    by (by destruct c).
  rewrite E. clear E. set (moved := adapt_tracks _ self d a).
  repeat case_match; simpl;
    try (destruct (adapt_foam_pores_tracks
                     (by_foam_pores a - by_foam_pores d) moved) as [-> ->]);
    done.
Qed.

(** C2, amended: when the measured foam-pore porosity is within its margin
    and the measured total porosity exceeds the desired one by more than 7
    points, one call to [adapt_parameters] strictly increases
    [track_mean_width] and [track_mean_height]; by 3 and 2 when the foam-pore
    porosity is strictly inside the margin. *)
Theorem adapt_parameters_excess_total_grows_tracks (self : Parameters)
    (desired actual : Porosities) :
  (Qabs (by_foam_pores actual - by_foam_pores desired)
   <= porosity_foam_pore_margin self)%Q ->
  (7 < total actual - total desired)%Q ->
  let self' := adapt_parameters self desired actual in
  (track_mean_width self < track_mean_width self')%Q
  /\ (track_mean_height self < track_mean_height self')%Q
  /\ ((Qabs (by_foam_pores actual - by_foam_pores desired)
       < porosity_foam_pore_margin self)%Q ->
      (track_mean_width self' == track_mean_width self + 3)%Q
      /\ (track_mean_height self' == track_mean_height self + 2)%Q).
Proof.
  intros Hfoam Hgap self'.
  destruct (adapt_parameters_tracks self desired actual) as [Hw Hh].
  fold self' in Hw, Hh. rewrite Hw, Hh. clear Hw Hh.
  assert (Habove : (total desired < total actual)%Q) by lra.
  assert (Habs : (7 < Qabs (total actual - total desired))%Q).
  { rewrite Qabs_pos; lra. }
  rewrite adapt_tracks_above by exact Habove.
  split; [| split].
  - repeat case_match; simpl; lra.
  - repeat case_match; simpl; lra.
  - intros Hstrict. apply foam_in_margin_test in Hstrict. rewrite Hstrict.
    apply Qltb_lt in Habs. rewrite Habs. simpl. split; reflexivity.
Qed.

Lemma adapt_parameters_excess_total_grows_tracks_witness :
  let desired := Porosities_init 50 0 in
  let actual := mkPorosities 60 0 (Some 60%Q) in
  (track_mean_width defaults
   < track_mean_width (adapt_parameters defaults desired actual))%Q
  /\ (track_mean_height defaults
      < track_mean_height (adapt_parameters defaults desired actual))%Q.
Proof.
  intros desired actual.
  destruct (adapt_parameters_excess_total_grows_tracks defaults desired actual)
    as (Hw & Hh & _).
  - vm_compute. discriminate.
  - vm_compute. reflexivity.
  - split; [exact Hw | exact Hh].
Defined.

(** C2 as stated fails: with the default parameters, foam-pore porosity 0
    for a desired 0 and a total of 60 for a desired 50, the step moves the
    track size from 50 x 40 to 53 x 42. *)
Lemma excess_total_step_does_not_shrink_tracks :
  let desired := Porosities_init 50 0 in
  let actual := mkPorosities 60 0 (Some 60%Q) in
  let self' := adapt_parameters defaults desired actual in
  (Qabs (by_foam_pores actual - by_foam_pores desired)
   <= porosity_foam_pore_margin defaults)%Q
  /\ (7 < total actual - total desired)%Q
  /\ track_mean_width self' = 53%Q
  /\ track_mean_height self' = 42%Q
  /\ ~ (track_mean_width self' < track_mean_width defaults)%Q
  /\ ~ (track_mean_height self' < track_mean_height defaults)%Q.
Proof.
  vm_compute. repeat split; try reflexivity; discriminate.
Qed.

(** The track nudge and the closing steps leave the foam-pore knobs to
    [adapt_foam_pores]. *)
Lemma adapt_parameters_foam_knobs (self : Parameters) (d a : Porosities) :
  let diff := (by_foam_pores a - by_foam_pores d)%Q in
  let sized :=
    if Qltb (porosity_foam_pore_margin self) (Qabs diff)
    then adapt_foam_pores diff self else self in
  mean_diameter_of_foam_pores (adapt_parameters self d a)
  = mean_diameter_of_foam_pores sized
  /\ variation_of_foam_pores_per_track (adapt_parameters self d a)
     = variation_of_foam_pores_per_track sized
  /\ mean_foam_pores_per_track (adapt_parameters self d a)
     = if Qeq_bool (by_foam_pores d) 0 then 0
       else mean_foam_pores_per_track sized.
Proof.
  intros diff sized. subst sized. unfold adapt_parameters. cbv zeta.
  fold diff.
  set (c := Qltb _ _ && Qltb _ _).
  assert (E : (if c then adapt_tracks 7 self d a else adapt_tracks 10 self d a)
              = adapt_tracks (if c then 7 else 10)%Q self d a)
    by (by destruct c).
  rewrite E. clear E.
  destruct (adapt_tracks_nudge (if c then 7 else 10)%Q self d a)
    as (dw & dh & ->).
  unfold nudge_tracks, adapt_foam_pores. simpl.
  repeat case_match; simpl; done.
Qed.

(** C4, amended: the foam-pore step of [adapt_parameters] when the measured
    foam-pore porosity is outside its margin.  Measured too high: the mean
    diameter shrinks by 1 (floored at 1) when the gap is below the
    amount-adaption threshold and the mean pore count is below 10, otherwise
    the mean pore count shrinks by 1 (floored at 1, and then the variation of
    the count shrinks by 1, floored at 0).  Measured too low: the mean diameter
    grows by 1 when the gap is below the threshold, otherwise the mean pore
    count grows by 1.  The knob that is not chosen keeps its value, except
    that a desired foam-pore porosity of 0 sets the mean pore count to 0. *)
Theorem adapt_parameters_foam_pore_sizing (self : Parameters)
    (desired actual : Porosities) :
  let diff := (by_foam_pores actual - by_foam_pores desired)%Q in
  let thr := foam_pore_amount_adaption_threshold self in
  let self' := adapt_parameters self desired actual in
  let diameter := mean_diameter_of_foam_pores in
  let amount := mean_foam_pores_per_track in
  let variation := variation_of_foam_pores_per_track in
  (porosity_foam_pore_margin self < Qabs diff)%Q ->
  ((by_foam_pores desired == 0)%Q -> amount self' = 0)
  /\ ((0 < diff)%Q -> (diff < thr)%Q -> amount self < 10 ->
      diameter self' = Z.max 1 (diameter self - 1)
      /\ variation self' = variation self
      /\ (~ (by_foam_pores desired == 0)%Q -> amount self' = amount self))
  /\ ((0 < diff)%Q -> ~ ((diff < thr)%Q /\ amount self < 10) ->
      diameter self' = diameter self
      /\ variation self'
         = (if amount self - 1 <=? 0 then Z.max 0 (variation self - 1)
            else variation self)
      /\ (~ (by_foam_pores desired == 0)%Q ->
          amount self' = Z.max 1 (amount self - 1)))
  /\ ((diff <= 0)%Q -> (Qabs diff < thr)%Q ->
      diameter self' = diameter self + 1
      /\ variation self' = variation self
      /\ (~ (by_foam_pores desired == 0)%Q -> amount self' = amount self))
  /\ ((diff <= 0)%Q -> (thr <= Qabs diff)%Q ->
      diameter self' = diameter self
      /\ variation self' = variation self
      /\ (~ (by_foam_pores desired == 0)%Q -> amount self' = amount self + 1)).
Proof.
  intros diff thr self' diameter amount variation Hout.
  destruct (adapt_parameters_foam_knobs self desired actual)
    as (Hd & Hv & Ha).
  fold diff self' in Hd, Hv, Ha. subst diameter amount variation. cbv beta.
  apply Qltb_lt in Hout. rewrite Hout in Hd, Hv, Ha.
  rewrite Hd, Hv, Ha. clear Hd Hv Ha.
  assert (Hzero : forall z : Z,
            ~ (by_foam_pores desired == 0)%Q ->
            (if Qeq_bool (by_foam_pores desired) 0 then 0 else z) = z).
  { intros z Hne. destruct (Qeq_bool _ _) eqn:E; [| done].
    apply Qeq_bool_iff in E. contradiction. }
  unfold adapt_foam_pores. fold thr.
  split; [| split; [| split; [| split]]].
  - intros H0. apply Qeq_bool_iff in H0. by rewrite H0.
  - intros Hpos Hlt Hcnt.
    apply Qltb_lt in Hpos, Hlt. apply Z.ltb_lt in Hcnt.
    rewrite Hpos, Hlt, Hcnt. simpl.
    destruct (mean_diameter_of_foam_pores self - 1 <=? 0) eqn:E; simpl;
      (split; [lia | split; [done |]]);
      intros Hne; by rewrite Hzero.
  - intros Hpos Hnot. apply Qltb_lt in Hpos. rewrite Hpos.
    assert (Hc : Qltb diff thr && (mean_foam_pores_per_track self <? 10)
                 = false).
    { apply not_true_iff_false. rewrite andb_true_iff, Qltb_lt, Z.ltb_lt.
      exact Hnot. }
    rewrite Hc. simpl.
    destruct (mean_foam_pores_per_track self - 1 <=? 0) eqn:E; simpl.
    + destruct (variation_of_foam_pores_per_track self - 1 <? 0) eqn:E2;
        simpl; (split; [done | split; [lia |]]);
        intros Hne; rewrite Hzero by done; lia.
    + split; [done | split; [done |]].
      intros Hne. rewrite Hzero by done. lia.
  - intros Hneg Hlt. apply Qltb_ge in Hneg. apply Qltb_lt in Hlt.
    rewrite Hneg, Hlt. simpl. split; [done | split; [done |]].
    intros Hne. by rewrite Hzero.
  - intros Hneg Hge. apply Qltb_ge in Hneg, Hge.
    rewrite Hneg, Hge. simpl. split; [done | split; [done |]].
    intros Hne. by rewrite Hzero.
Qed.

Lemma adapt_parameters_foam_pore_sizing_witness :
  let self := set_mean_foam_pores_per_track 12 defaults in
  let desired := Porosities_init 50 10 in
  let actual := mkPorosities 50 (25 # 2) (Some (75 # 2)%Q) in
  let self' := adapt_parameters self desired actual in
  mean_diameter_of_foam_pores self' = mean_diameter_of_foam_pores self
  /\ mean_foam_pores_per_track self'
     = Z.max 1 (mean_foam_pores_per_track self - 1).
Proof.
  intros self desired actual self'.
  destruct (adapt_parameters_foam_pore_sizing self desired actual)
    as (_ & _ & H & _).
  - vm_compute. reflexivity.
  - destruct H as (Hd & _ & Ha).
    + vm_compute. reflexivity.
    + intros [_ Hc]. vm_compute in Hc. discriminate.
    + split; [exact Hd |]. apply Ha. vm_compute. discriminate.
Defined.

(** C4 as stated fails: with a mean pore count of 12, a measured foam-pore
    porosity of 12.5 for a desired 10 is outside the margin of 2 and its gap
    is below the threshold of 3, yet the step keeps the mean diameter at 5
    and lowers the mean pore count to 11. *)
Lemma small_gap_with_many_pores_adapts_the_count :
  let self := set_mean_foam_pores_per_track 12 defaults in
  let desired := Porosities_init 50 10 in
  let actual := mkPorosities 50 (25 # 2) (Some (75 # 2)%Q) in
  let self' := adapt_parameters self desired actual in
  let gap := Qabs (by_foam_pores actual - by_foam_pores desired) in
  (porosity_foam_pore_margin self < gap)%Q
  /\ (gap < foam_pore_amount_adaption_threshold self)%Q
  /\ mean_diameter_of_foam_pores self = 5
  /\ mean_diameter_of_foam_pores self' = 5
  /\ mean_foam_pores_per_track self = 12
  /\ mean_foam_pores_per_track self' = 11.
Proof.
  vm_compute. repeat split; reflexivity.
Qed.

(** ** Border correction *)

Lemma for_state_fixed {A S : Type} (l : list A) (body : A -> S -> result S)
    (s : S) :
  (forall a, a ∈ l -> body a s = Ok s) -> for_state l body s = Ok s.
Proof.
  induction l as [| a l IH]; intros Hbody; simpl; [done |].
  rewrite Hbody by left. simpl. apply IH. intros b Hb. apply Hbody. by right.
Qed.

Lemma for_state_invariant {A S : Type} (P : S -> Prop) (l : list A)
    (body : A -> S -> result S) (s : S) :
  P s ->
  (forall a t, a ∈ l -> P t -> exists t', body a t = Ok t' /\ P t') ->
  exists s', for_state l body s = Ok s' /\ P s'.
Proof.
  revert s. induction l as [| a l IH]; intros s Hs Hbody; simpl; [eauto |].
  destruct (Hbody a s) as (t & -> & Ht); [left | done |]. simpl.
  apply IH; [done |]. intros b u Hb Hu. apply Hbody; [by right | done].
Qed.

Lemma axis_index_in_range (len : nat) (i : Z) :
  0 <= i < Z.of_nat len -> axis_index len i = Ok (Z.to_nat i).
Proof.
  intros Hi. unfold axis_index.
  destruct (i <? 0) eqn:E; [lia |].
  destruct (0 <=? i) eqn:E1; [| lia]. destruct (i <? Z.of_nat len) eqn:E2; [| lia].
  done.
Qed.

(** The neighbour index is valid on every axis that has the index itself. *)
Lemma axis_index_neighbour (len : nat) (i : Z) :
  0 <= i < Z.of_nat len ->
  exists k, axis_index len (if i =? Z.of_nat len - 1 then Z.of_nat len - 2
                            else i + 1) = Ok k
            /\ (k < len)%nat.
Proof.
  intros Hi. unfold axis_index.
  destruct (i =? Z.of_nat len - 1) eqn:E.
  - destruct (Z.of_nat len - 2 <? 0) eqn:E1.
    + assert (len = 1%nat) by lia. subst len. simpl. exists 0%nat. split; [done | lia].
    + destruct (0 <=? Z.of_nat len - 2) eqn:E2; [| lia].
      destruct (Z.of_nat len - 2 <? Z.of_nat len) eqn:E3; [| lia].
      simpl. eexists. split; [done | lia].
  - destruct (i + 1 <? 0) eqn:E1; [lia |].
    destruct (0 <=? i + 1) eqn:E2; [| lia].
    destruct (i + 1 <? Z.of_nat len) eqn:E3; [| lia].
    simpl. eexists. split; [done | lia].
Qed.

Lemma flat_index_in_range (rows cols row col : nat) :
  (row < rows)%nat -> (col < cols)%nat -> (row * cols + col < rows * cols)%nat.
Proof. intros Hr Hc. nia. Qed.

Lemma array_get_in_range (img : ndarray) (i j : Z) :
  wf_image img ->
  0 <= i < Z.of_nat (shape0 img) -> 0 <= j < Z.of_nat (shape1 img) ->
  exists p, array_get img i j = Ok p
            /\ data img !! (Z.to_nat i * shape1 img + Z.to_nat j)%nat = Some p.
Proof.
  intros Hwf Hi Hj. unfold array_get.
  rewrite (axis_index_in_range _ i Hi), (axis_index_in_range _ j Hj). simpl.
  destruct (data img !! _) as [p |] eqn:E; [eauto |].
  apply lookup_ge_None in E. rewrite Hwf in E.
  pose proof (flat_index_in_range (shape0 img) (shape1 img)
                (Z.to_nat i) (Z.to_nat j)). lia.
Qed.

Lemma border_correction_pixel_total (img0 img : ndarray) (xi yi : Z) :
  same_shape img0 img ->
  0 <= xi < Z.of_nat (shape0 img0) -> 0 <= yi < Z.of_nat (shape1 img0) ->
  exists img', border_correction_pixel (Z.of_nat (shape0 img0))
                 (Z.of_nat (shape1 img0)) xi yi img = Ok img'
               /\ same_shape img0 img'.
Proof.
  intros (H0 & H1 & Hwf) Hx Hy. unfold border_correction_pixel.
  destruct (array_get_in_range img xi yi Hwf) as (p & -> & _); [lia | lia |].
  simpl. destruct (p =? 0); [| exists img; by repeat split].
  destruct (axis_index_neighbour (shape0 img0) xi Hx) as (kx & Hkx & Hkx').
  destruct (axis_index_neighbour (shape1 img0) yi Hy) as (ky & Hky & Hky').
  unfold array_get at 1. rewrite H0, H1, Hkx, Hky. simpl.
  destruct (data img !! _) as [v |] eqn:E.
  - unfold array_set. rewrite H0, H1.
    rewrite (axis_index_in_range _ xi Hx), (axis_index_in_range _ yi Hy).
    simpl. eexists. split; [done |].
    repeat split; simpl; try done.
    unfold wf_image in *. simpl. rewrite length_insert. lia.
  - apply lookup_ge_None in E. rewrite Hwf, H0, H1 in E.
    pose proof (flat_index_in_range (shape0 img0) (shape1 img0) kx ky). lia.
Qed.

Lemma border_correction_total (img : ndarray) :
  wf_image img ->
  exists img', border_correction img = Ok img' /\ same_shape img img'.
Proof.
  intros Hwf. unfold border_correction.
  apply (for_state_invariant (same_shape img)); [done |].
  intros xi t Hxi Ht. apply elem_of_seqZ in Hxi.
  apply (for_state_invariant (same_shape img)); [done |].
  intros yi u Hyi Hu. apply elem_of_seqZ in Hyi.
  apply border_correction_pixel_total; [done | lia | lia].
Qed.

Lemma border_correction_without_zero (img : ndarray) :
  wf_image img -> Forall (fun p => p <> 0) (data img) ->
  border_correction img = Ok img.
Proof.
  intros Hwf Hnz. unfold border_correction.
  apply for_state_fixed. intros xi Hxi. apply elem_of_seqZ in Hxi.
  apply for_state_fixed. intros yi Hyi. apply elem_of_seqZ in Hyi.
  unfold border_correction_pixel.
  destruct (array_get_in_range img xi yi Hwf) as (p & -> & Hp); [lia | lia |].
  simpl. rewrite Forall_lookup in Hnz. specialize (Hnz _ _ Hp).
  destruct (p =? 0) eqn:E; [lia | done].
Qed.

(** C5, amended: [border_correction] returns a corrected buffer for every
    buffer, and whenever that corrected buffer holds no pixel of value 0,
    applying [border_correction] to it again yields the same buffer. *)
Theorem border_correction_idempotent_without_zero (img : ndarray) :
  wf_image img ->
  exists corrected,
    border_correction img = Ok corrected
    /\ (Forall (fun p => p <> 0) (data corrected) ->
        border_correction corrected = Ok corrected).
Proof.
  intros Hwf.
  destruct (border_correction_total img Hwf) as (c & Hc & _ & _ & Hwfc).
  exists c. split; [exact Hc |].
  intros Hnz. by apply border_correction_without_zero.
Qed.

Lemma border_correction_idempotent_without_zero_witness :
  let img := mkArray 3 3 [0; 0; 0;  0; 200; 200;  0; 200; 200] in
  wf_image img
  /\ exists corrected,
       border_correction img = Ok corrected
       /\ border_correction corrected = Ok corrected.
Proof.
  intros img. split; [reflexivity |].
  destruct (border_correction_idempotent_without_zero img) as (c & Hc & Hid);
    [reflexivity |].
  exists c. split; [exact Hc |]. apply Hid.
  vm_compute in Hc. injection Hc as <-. simpl.
  repeat (constructor; [discriminate |]). constructor.
Defined.

(** C5 as stated fails: a 4 x 4 buffer with a black border around a white
    interior is corrected to a buffer that still holds black pixels, and a
    second correction changes that buffer. *)
Lemma border_correction_not_idempotent :
  let img := mkArray 4 4 [0; 0; 0; 0;  0; 255; 255; 0;
                          0; 255; 255; 0;  0; 0; 0; 0] in
  let once := mkArray 4 4 [255; 255; 0; 255;  255; 255; 255; 255;
                           0; 255; 255; 0;  255; 255; 0; 255] in
  let twice := mkArray 4 4 [255; 255; 255; 255;  255; 255; 255; 255;
                            255; 255; 255; 0;  255; 255; 0; 255] in
  border_correction img = Ok once
  /\ border_correction once = Ok twice
  /\ once <> twice.
Proof.
  repeat split; try reflexivity. discriminate.
Qed.

(** ** Loading a configuration *)

Lemma io_bind_Ok {A B : Type} (m : io A) (k : A -> io B) (out : list event)
    (b : B) :
  m ≫= k = (out, Ok b) ->
  exists out1 a out2, m = (out1, Ok a) /\ k a = (out2, Ok b)
                      /\ out = out1 ++ out2.
Proof.
  unfold mbind, io_bind. destruct m as [out1 [a | e]]; [| done].
  destruct (k a) as [out2 r] eqn:E. intros [= <- ->]. by exists out1, a, out2.
Qed.

Lemma io_Ok_bind {A B : Type} (out : list event) (a : A) (k : A -> io B) :
  ((out, Ok a) : io A) ≫= k = (out ++ (k a).1, (k a).2).
Proof. unfold mbind, io_bind. by destruct (k a). Qed.

Lemma lift_Ok_bind {A B : Type} (a : A) (k : A -> io B) :
  lift (Ok a) ≫= k = k a.
Proof. unfold lift. rewrite io_Ok_bind. by destruct (k a). Qed.

Lemma result_Ok_bind {A B : Type} (a : A) (k : A -> result B) :
  Ok a ≫= k = k a.
Proof. reflexivity. Qed.

Lemma io_bind_intro {A B : Type} (m : io A) (k : A -> io B)
    (out1 out2 : list event) (a : A) (r : result B) :
  m = (out1, Ok a) -> k a = (out2, r) -> m ≫= k = (out1 ++ out2, r).
Proof. intros -> H. unfold mbind, io_bind. by rewrite H. Qed.

Lemma lift_Ok {A : Type} (r : result A) (out : list event) (a : A) :
  lift r = (out, Ok a) -> r = Ok a /\ out = [].
Proof. unfold lift. by intros [= <- ->]. Qed.

Lemma getitem_Ok (d : gmap string json) (key : string) (v : json) :
  getitem d key = Ok v <-> d !! key = Some v.
Proof.
  unfold getitem. destruct (d !! key); split; intros [=]; by subst.
Qed.

Lemma get_int_present (d : gmap string json) (key : string) (z : Z) :
  d !! key = Some (JInt z) -> get_int d key = ([], Ok z).
Proof. intros H. unfold get_int, getitem. by rewrite H. Qed.

Lemma get_float_present (d : gmap string json) (key : string) (v : json)
    (q : Q) :
  d !! key = Some v -> as_float v = Ok q -> get_float d key = ([], Ok q).
Proof. intros H Hq. unfold get_float, getitem. rewrite H. simpl. by rewrite Hq. Qed.





(** C6, at the failing inputs: a [desired_porosities] object without
    [total], or without [by_foam_pores], stops [UserConfig.load_from_file]
    with a message that names [desired_porosities], the same in both cases,
    and not the missing entry. *)
Theorem missing_porosity_entry_is_not_named :
  user_config.load_from_file
    (sample_fs (document_with_desired {[ "by_foam_pores" := JInt 10 ]}))
    "config.json" (Some "output")
  = ([PrintRed
        "Error! Parameter desired_porosities was not specified in desired porosities dict of specified config file"],
     Raise RuntimeError)
  /\ user_config.load_from_file
       (sample_fs (document_with_desired {[ "total" := JInt 50 ]}))
       "config.json" (Some "output")
     = ([PrintRed
           "Error! Parameter desired_porosities was not specified in desired porosities dict of specified config file"],
        Raise RuntimeError).
Proof.
  split; vm_compute; reflexivity.
Qed.

(** ** The directory suffix *)

Lemma suffix_condition_true (last_char : string) :
  truthy (suffix_condition last_char) = true.
Proof.
  unfold suffix_condition, py_or, py_not. simpl.
  by destruct (String.eqb last_char "/").
Qed.

Lemma str_last_nonempty (s : string) :
  s <> "" -> exists c, str_last s = Ok c.
Proof.
  induction s as [| a s IH]; [done |]. intros _. simpl.
  destruct s as [| b s]; [eauto |]. apply IH. discriminate.
Qed.

Lemma complete_output_directory_Ok (s t : string) :
  complete_output_directory s = Ok t -> t = s +:+ "\".
Proof.
  unfold complete_output_directory. destruct (str_last s) as [c | e]; [| done].
  rewrite result_Ok_bind, suffix_condition_true. by intros [= <-].
Qed.

Ltac io_inv H :=
  let H1 := fresh "Hstep" in
  apply io_bind_Ok in H; destruct H as (? & ? & ? & H1 & H & ->).

(** C8: for every non-empty output-directory string the suffix test of
    [UserConfig.load_from_file] is true whatever the last character is, and
    the stored [output_folder] is the string with a backslash appended,
    whether the string came as the [output_directory] argument or from the
    [output_folder] entry of the document. *)
Theorem separator_always_appended (dir : string) :
  dir <> "" ->
  (exists last_char, str_last dir = Ok last_char
                     /\ truthy (suffix_condition last_char) = true)
  /\ complete_output_directory dir = Ok (dir +:+ "\")
  /\ (forall fs filename out cfg,
        user_config.load_from_file fs filename (Some dir) = (out, Ok cfg) ->
        output_folder cfg = dir +:+ "\")
  /\ (forall fs filename out cfg loaded user_config_dict,
        json_load fs filename = Ok loaded ->
        loaded !! "user_config" = Some (JObj user_config_dict) ->
        user_config_dict !! "output_folder" = Some (JStr dir) ->
        user_config.load_from_file fs filename None = (out, Ok cfg) ->
        output_folder cfg = dir +:+ "\").
Proof.
  intros Hne. destruct (str_last_nonempty dir Hne) as [c Hc].
  split; [| split; [| split]].
  - exists c. split; [exact Hc | apply suffix_condition_true].
  - unfold complete_output_directory.
    by rewrite Hc, result_Ok_bind, suffix_condition_true.
  - intros fs filename out cfg H. unfold user_config.load_from_file in H.
    do 11 io_inv H.
    match goal with
    | Hc : lift (complete_output_directory _) = _ |- _ =>
        apply lift_Ok in Hc; destruct Hc as [Hc _];
        apply complete_output_directory_Ok in Hc
    end.
    match goal with
    | Hd : mret dir = (_, Ok _) |- _ => injection Hd as _ <-
    end.
    injection H as _ <-. simpl. done.
  - intros fs filename out cfg loaded ucd Hload Huc Hdir H.
    unfold user_config.load_from_file in H.
    do 11 io_inv H.
    match goal with
    | Hc : lift (complete_output_directory _) = _ |- _ =>
        apply lift_Ok in Hc; destruct Hc as [Hc _];
        apply complete_output_directory_Ok in Hc
    end.
    injection H as _ <-. simpl. subst.
    rewrite Hload in *.
    repeat match goal with
           | Hl : lift _ = (_, Ok _) |- _ =>
               apply lift_Ok in Hl; destruct Hl as [Hl ->]
           end.
    match goal with
    | Hl : Ok loaded = Ok _ |- _ => injection Hl as <-
    end.
    match goal with
    | Hu : (if negb (contains loaded "user_config") then _ else _) = _ |- _ =>
        destruct (negb (contains loaded "user_config"));
        [ io_inv Hu; discriminate |];
        do 3 io_inv Hu
    end.
    repeat match goal with
           | Hl : lift _ = (_, Ok _) |- _ =>
               apply lift_Ok in Hl; destruct Hl as [Hl ->]
           | Hm : mret _ = (_, Ok _) |- _ => injection Hm as _ <-
           end.
    apply getitem_Ok in Huc, Hdir.
    repeat match goal with
           | Hg : context [getitem loaded "user_config"] |- _ =>
               rewrite Huc, result_Ok_bind in Hg; simpl in Hg;
               injection Hg as <-
           | Hg : context [getitem ucd "output_folder"] |- _ =>
               rewrite Hdir, result_Ok_bind in Hg; simpl in Hg;
               injection Hg as <-
           end.
    done.
Qed.

Lemma separator_always_appended_witness :
  complete_output_directory "output/" = Ok "output/\"
  /\ exists out cfg,
       user_config.load_from_file
         (sample_fs (sample_document "calculate_porosity_w_mean"))
         "config.json" (Some "output/") = (out, Ok cfg)
       /\ output_folder cfg = "output/\".
Proof.
  destruct (separator_always_appended "output/") as (_ & Hc & Harg & _);
    [discriminate |].
  split; [exact Hc |].
  destruct (user_config.load_from_file
              (sample_fs (sample_document "calculate_porosity_w_mean"))
              "config.json" (Some "output/")) as [out [cfg | e]] eqn:E.
  - exists out, cfg. split; [reflexivity |]. exact (Harg _ _ _ _ E).
  - vm_compute in E. discriminate.
Defined.

(** ** Missing fields *)

Lemma contains_true (d : gmap string json) (key : string) :
  contains d key = true <-> is_Some (d !! key).
Proof. unfold contains. by rewrite bool_decide_eq_true. Qed.

Lemma contains_false (d : gmap string json) (key : string) :
  contains d key = false <-> d !! key = None.
Proof.
  unfold contains. rewrite bool_decide_eq_false, eq_None_not_Some. done.
Qed.

Lemma for_in_cons {A : Type} (x : A) (l : list A) (body : A -> io unit)
    (last_bound : option A) :
  for_in (x :: l) body last_bound = body x ≫= fun _ => for_in l body (Some x).
Proof. reflexivity. Qed.

Lemma io_nil_bind {A B : Type} (a : A) (k : A -> io B) :
  (([], Ok a) : io A) ≫= k = k a.
Proof. rewrite io_Ok_bind. by destruct (k a). Qed.

Lemma mret_bind {A B : Type} (a : A) (k : A -> io B) : mret a ≫= k = k a.
Proof. apply io_nil_bind. Qed.

(** A presence loop stops at the first absent key with the message its body
    builds for that key. *)
Lemma for_in_first_absent (d : gmap string json) (msg : string -> string)
    (present : list string) (key : string) (rest : list string)
    (last_bound : option string) :
  Forall (fun k => is_Some (d !! k)) present ->
  d !! key = None ->
  for_in (present ++ key :: rest)
    (fun param =>
       if negb (contains d param) then
         _ ← print_red_terminal_message (msg param); raise RuntimeError
       else mret tt)
    last_bound
  = ([PrintRed (msg key)], Raise RuntimeError).
Proof.
  intros Hpresent Habsent. revert last_bound.
  induction Hpresent as [| k present Hk _ IH]; intros last_bound.
  - apply contains_false in Habsent. simpl app.
    rewrite for_in_cons, Habsent. reflexivity.
  - apply contains_true in Hk. rewrite <- app_comm_cons.
    rewrite for_in_cons, Hk. simpl negb. cbv iota.
    rewrite mret_bind. apply IH.
Qed.

Lemma for_in_all_present (d : gmap string json) (msg : string -> string)
    (keys : list string) (last_bound : option string) :
  Forall (fun k => is_Some (d !! k)) keys ->
  for_in keys
    (fun param =>
       if negb (contains d param) then
         _ ← print_red_terminal_message (msg param); raise RuntimeError
       else mret tt)
    last_bound
  = ([], Ok (from_option Some last_bound (last keys))).
Proof.
  intros Hpresent. revert last_bound.
  induction Hpresent as [| k keys Hk _ IH]; intros last_bound.
  - reflexivity.
  - apply contains_true in Hk.
    rewrite for_in_cons, Hk. simpl negb. cbv iota.
    rewrite mret_bind, IH. destruct keys as [| s keys]; [reflexivity |].
    rewrite last_cons_cons.
    destruct (last (s :: keys)) eqn:E; [reflexivity |].
    by apply last_None in E.
Qed.

Lemma io_bind_ext {A B : Type} (m : io A) (k k' : A -> io B) :
  (forall a, k a = k' a) -> m ≫= k = m ≫= k'.
Proof.
  intros Hext. unfold mbind, io_bind. destruct m as [out [a | e]]; [| done].
  by rewrite Hext.
Qed.

Lemma for_in_ext {A : Type} (l : list A) (body body' : A -> io unit)
    (last_bound : option A) :
  (forall x, body x = body' x) ->
  for_in l body last_bound = for_in l body' last_bound.
Proof.
  intros Hext. revert last_bound.
  induction l as [| x l IH]; intros last_bound; [reflexivity |].
  rewrite !for_in_cons, Hext. apply io_bind_ext. intros _. apply IH.
Qed.

(** The checks that precede the presence loops of
    [UserConfig.load_from_file] pass. *)
Lemma load_from_file_readable (fs : filesystem) (filename : string)
    (output_directory : option string)
    (loaded user_config_dict : gmap string json) :
  readable fs filename output_directory loaded user_config_dict ->
  (if negb (path_is_file fs filename)
      || negb (String.eqb (path_suffix fs filename) ".json")
   then
     _ ← print_red_terminal_message
           ("Error! The given file name " +:+ filename
            +:+ " is not a valid json file!");
     raise FileNotFoundError
   else mret tt) = mret tt
  /\ match output_directory with
     | Some dir =>
         if negb (path_is_dir fs dir) then
           _ ← print_red_terminal_message
                 ("Error! The given directory name " +:+ path_str fs dir
                  +:+ " is not a valid directory!");
           raise NotADirectoryError
         else mret tt
     | None => mret tt
     end = mret tt
  /\ contains loaded "user_config" = true
  /\ getitem loaded "user_config" = Ok (JObj user_config_dict).
Proof.
  intros (Hfile & Hsuffix & Hdir & Hload & Huc).
  split; [by rewrite Hfile, Hsuffix |]. split.
  - destruct output_directory as [dir |]; [| done]. simpl in Hdir.
    by rewrite Hdir.
  - split; [apply contains_true; by rewrite Huc | by apply getitem_Ok].
Qed.

(** A [user_config] object without one of its four required entries stops
    [UserConfig.load_from_file] with a message that names the first missing
    entry. *)
Lemma missing_user_config_field_is_named (fs : filesystem)
    (filename : string) (output_directory : option string)
    (loaded user_config_dict : gmap string json)
    (present : list string) (key : string) (rest : list string) :
  readable fs filename output_directory loaded user_config_dict ->
  needed_params = present ++ key :: rest ->
  Forall (fun k => is_Some (user_config_dict !! k)) present ->
  user_config_dict !! key = None ->
  user_config.load_from_file fs filename output_directory
  = ([PrintRed ("Error! Parameter " +:+ key
                +:+ " was not specified in specified config file!")],
     Raise RuntimeError).
Proof.
  intros Hread Hkeys Hpresent Habsent.
  destruct (load_from_file_readable _ _ _ _ _ Hread)
    as (Hf & Hd & Hc & Hg).
  destruct Hread as (_ & _ & _ & Hload & _).
  unfold user_config.load_from_file.
  rewrite Hf, mret_bind, Hd, mret_bind, Hload, lift_Ok_bind, Hc.
  simpl negb. cbv iota.
  rewrite Hg, result_Ok_bind. simpl as_dict. rewrite lift_Ok_bind.
  rewrite Hkeys.
  rewrite (for_in_first_absent user_config_dict
             (fun param => "Error! Parameter " +:+ param
                           +:+ " was not specified in specified config file!")
             present key rest None Hpresent Habsent).
  reflexivity.
Qed.

(** A [desired_porosities] object without one of its two required entries
    stops [UserConfig.load_from_file] with a message that names
    [desired_porosities], whichever entry is missing. *)
Lemma missing_porosity_entry_names_the_dict (fs : filesystem)
    (filename : string) (output_directory : option string)
    (loaded user_config_dict desired : gmap string json)
    (present : list string) (key : string) (rest : list string) :
  readable fs filename output_directory loaded user_config_dict ->
  Forall (fun k => is_Some (user_config_dict !! k)) needed_params ->
  user_config_dict !! "desired_porosities" = Some (JObj desired) ->
  needed_porosity_params = present ++ key :: rest ->
  Forall (fun k => is_Some (desired !! k)) present ->
  desired !! key = None ->
  user_config.load_from_file fs filename output_directory
  = ([PrintRed
        "Error! Parameter desired_porosities was not specified in desired porosities dict of specified config file"],
     Raise RuntimeError).
Proof.
  intros Hread Hall Hdesired Hkeys Hpresent Habsent.
  destruct (load_from_file_readable _ _ _ _ _ Hread)
    as (Hf & Hd & Hc & Hg).
  destruct Hread as (_ & _ & _ & Hload & _).
  unfold user_config.load_from_file.
  rewrite Hf, mret_bind, Hd, mret_bind, Hload, lift_Ok_bind, Hc.
  simpl negb. cbv iota.
  rewrite Hg, result_Ok_bind. simpl as_dict. rewrite lift_Ok_bind.
  rewrite (for_in_all_present user_config_dict
             (fun param => "Error! Parameter " +:+ param
                           +:+ " was not specified in specified config file!")
             needed_params None Hall).
  rewrite io_nil_bind.
  apply getitem_Ok in Hdesired.
  rewrite (for_in_ext needed_porosity_params _
             (fun p_param =>
                if negb (contains desired p_param) then
                  _ ← print_red_terminal_message
                        "Error! Parameter desired_porosities was not specified in desired porosities dict of specified config file";
                  raise RuntimeError
                else mret tt)).
  2: { intros p. rewrite Hdesired, result_Ok_bind. simpl as_dict.
       rewrite lift_Ok_bind. destruct (negb (contains desired p)); [| done].
       reflexivity. }
  rewrite Hkeys.
  rewrite (for_in_first_absent desired
             (fun _ => "Error! Parameter desired_porosities was not specified in desired porosities dict of specified config file")
             present key rest None Hpresent Habsent).
  reflexivity.
Qed.

Lemma select_porosity_function_total (rule : json) (params : Parameters) :
  exists out params',
    select_porosity_function rule params = (out, Ok params').
Proof.
  unfold select_porosity_function.
  destruct rule as [| | | name |]; try (by eexists _, _).
  destruct (String.eqb name "calculate_porosity_w_mean"); [by eexists _, _ |].
  destruct (String.eqb name "calculate_porosity_w_median"); by eexists _, _.
Qed.

Lemma get_int_absent (d : gmap string json) (key : string) :
  d !! key = None -> get_int d key = ([], Raise (KeyError key)).
Proof. intros H. unfold get_int, getitem. by rewrite H. Qed.

Lemma get_float_absent (d : gmap string json) (key : string) :
  d !! key = None -> get_float d key = ([], Raise (KeyError key)).
Proof. intros H. unfold get_float, getitem. by rewrite H. Qed.

(** Membership of a given key in one of the two lists of fields. *)
Ltac not_a_field H :=
  exfalso; clear -H; unfold int_fields, float_fields in H;
  repeat (apply elem_of_cons in H; destruct H as [H | H]; [discriminate |]);
  by apply elem_of_nil in H.

Lemma io_bind_snd_step {A B : Type} (m : io A) (k : A -> io B)
    (out : list event) (a : A) :
  m = (out, Ok a) -> (m ≫= k).2 = (k a).2.
Proof. intros ->. rewrite io_Ok_bind. reflexivity. Qed.

Lemma io_bind_snd_raise {A B : Type} (m : io A) (k : A -> io B)
    (out : list event) (e : exn) :
  m = (out, Raise e) -> (m ≫= k).2 = Raise e.
Proof. by intros ->. Qed.

Ltac io_snd_step :=
  erewrite io_bind_snd_step
    by first [ reflexivity
             | eapply get_int_present; eassumption
             | eapply get_float_present; eassumption ].

(** The first entry of [reading_order] is either the absent key, where the
    load stops, or a present one, which is read. *)
Ltac read_field :=
  lazymatch goal with
  | Hkeys : _ :: _ = ?l ++ _ :: _,
    Hpresent : Forall (field_present _) ?l |- _ =>
      let k := fresh "k" in
      let l' := fresh "present" in
      let Hk := fresh "Hk" in
      destruct l as [| k l'];
      [ injection Hkeys as <- <-;
        eapply io_bind_snd_raise;
        first [ apply get_int_absent; assumption
              | apply get_float_absent; assumption ]
      | injection Hkeys as <- Hkeys;
        apply Forall_cons_1 in Hpresent; destruct Hpresent as [Hk Hpresent];
        destruct Hk as [[Hk (? & ?)] | [Hk (? & ? & ? & ?)]];
        [ first [ io_snd_step | not_a_field Hk ]
        | first [ io_snd_step | not_a_field Hk ] ]
      ]
  end.

(** A [parameters] object without one of the entries that
    [Parameters.load_from_file] reads stops the load with a [KeyError] that
    carries the first missing key. *)
Lemma missing_parameters_field_raises_KeyError (fs : filesystem)
    (filename : string) (loaded parameter_file : gmap string json)
    (present : list string) (key : string) (rest : list string) :
  json_load fs filename = Ok loaded ->
  loaded !! "parameters" = Some (JObj parameter_file) ->
  is_Some (parameter_file !! "porosity_function") ->
  reading_order = present ++ key :: rest ->
  Forall (field_present parameter_file) present ->
  parameter_file !! key = None ->
  (parameters.load_from_file fs filename).2 = Raise (KeyError key).
Proof.
  intros Hload Hparams [rule Hrule] Hkeys Hpresent Habsent.
  apply getitem_Ok in Hparams, Hrule.
  destruct (select_porosity_function_total rule defaults)
    as (out0 & params & Hselect).
  unfold parameters.load_from_file.
  rewrite Hload. io_snd_step.
  rewrite Hparams, result_Ok_bind. simpl as_dict. io_snd_step.
  io_snd_step. rewrite Hrule. io_snd_step.
  erewrite io_bind_snd_step by exact Hselect.
  unfold reading_order in Hkeys.
  do 17 read_field.
  match goal with
  | Hnil : [] = ?l ++ _ :: _ |- _ => destruct l; discriminate
  end.
Qed.

(** ** Scene generation *)

Lemma py_range_head (stop step : Z) :
  0 < stop -> 0 < step -> exists rest, py_range stop step = 0 :: rest.
Proof.
  intros Hstop Hstep. unfold py_range.
  assert (Hn : 0 < (stop + step - 1) / step).
  { apply Z.div_str_pos. lia. }
  unfold seqZ. destruct (Z.to_nat ((stop + step - 1) / step)) eqn:E; [lia |].
  simpl. eauto.
Qed.

Lemma for_state_raise_head {A S : Type} (a : A) (l : list A)
    (body : A -> S -> result S) (s : S) (e : exn) :
  body a s = Raise e -> for_state (a :: l) body s = Raise e.
Proof. intros H. simpl. by rewrite H. Qed.

Lemma np_random_randint_cases (low high : Z) (rs : random_source) :
  (high <= low /\ np_random_randint low high rs
                  = Raise (ValueError "low >= high"))
  \/ (low < high /\ exists v, low <= v < high
                               /\ np_random_randint low high rs
                                  = Ok (v, advance rs)).
Proof.
  unfold np_random_randint. destruct (low <? high) eqn:E; [right | left].
  - split; [lia |]. eexists. split; [| reflexivity].
    pose proof (Z.mod_pos_bound (int_draws rs (position rs)) (high - low)).
    lia.
  - split; [lia | done].
Qed.

(** With no variation of the pore count, a grid cell cannot be generated. *)
Lemma generate_cell_empty_range (parameters : Parameters)
    (user_config : UserConfig) (x y : Z) (st : objects) :
  ~ (by_foam_pores (desired_porosities user_config) == 0)%Q ->
  variation_of_foam_pores_per_track parameters = 0 ->
  exists msg, generate_cell parameters user_config x y st
              = Raise (ValueError msg).
Proof.
  intros Hfoam Hvar. unfold generate_cell. destruct st as [[tracks pores] rs].
  match goal with
  | |- context [np_random_randint ?l ?h rs] =>
      destruct (np_random_randint_cases l h rs)
        as [[_ ->] | (_ & w & _ & ->)]; [by eauto |]
  end.
  rewrite result_Ok_bind.
  match goal with
  | |- context [np_random_randint ?l ?h (advance rs)] =>
      destruct (np_random_randint_cases l h (advance rs))
        as [[_ ->] | (_ & h' & _ & ->)]; [by eauto |]
  end.
  rewrite result_Ok_bind. cbv zeta.
  repeat match goal with
         | |- context [let '(_, _) := ?t in _] => destruct t
         end.
  destruct (Qeq_bool _ 0) eqn:E; [apply Qeq_bool_iff in E; contradiction |].
  simpl negb. cbv iota.
  match goal with
  | |- context [np_random_randint ?l ?h ?r] =>
      destruct (np_random_randint_cases l h r)
        as [[_ ->] | (Hlt & _)]; [by eauto | lia]
  end.
Qed.

Lemma generate_objects_empty_range (parameters : Parameters)
    (user_config : UserConfig) (rs : random_source) :
  ~ (by_foam_pores (desired_porosities user_config) == 0)%Q ->
  variation_of_foam_pores_per_track parameters = 0 ->
  0 < image_width parameters -> 0 < image_height parameters ->
  exists msg, generate_objects parameters user_config rs
              = Raise (ValueError msg).
Proof.
  intros Hfoam Hvar Hw Hh. unfold generate_objects.
  destruct (0 <? np_round _) eqn:Elw; simpl; [| by eauto].
  destruct (0 <? layer_height user_config) eqn:Elh; simpl; [| by eauto].
  apply Z.ltb_lt in Elw, Elh.
  destruct (py_range_head _ _ Hw Elw) as [xs ->].
  destruct (py_range_head _ _ Hh Elh) as [ys ->].
  destruct (generate_cell_empty_range parameters user_config 0 0
              ([], [], rs) Hfoam Hvar) as [msg Hcell].
  exists msg. apply for_state_raise_head. apply for_state_raise_head.
  exact Hcell.
Qed.

(** At the floor of the pore count, a step that lowers the count lowers its
    variation instead. *)
Lemma adapt_parameters_at_count_floor (self : Parameters)
    (desired actual : Porosities) :
  let diff := (by_foam_pores actual - by_foam_pores desired)%Q in
  ~ (by_foam_pores desired == 0)%Q ->
  (0 < diff)%Q ->
  (porosity_foam_pore_margin self < diff)%Q ->
  (foam_pore_amount_adaption_threshold self <= diff)%Q ->
  mean_foam_pores_per_track self = 1 ->
  mean_foam_pores_per_track (adapt_parameters self desired actual) = 1
  /\ variation_of_foam_pores_per_track (adapt_parameters self desired actual)
     = Z.max 0 (variation_of_foam_pores_per_track self - 1).
Proof.
  intros diff Hne Hpos Hout Hthr Hone.
  destruct (adapt_parameters_foam_knobs self desired actual)
    as (_ & Hv & Ha).
  fold diff in Hv, Ha. rewrite Hv, Ha. clear Hv Ha.
  assert (Habs : Qltb (porosity_foam_pore_margin self) (Qabs diff) = true).
  { apply Qltb_lt. pose proof (Qle_Qabs diff). lra. }
  rewrite Habs. unfold adapt_foam_pores.
  destruct (Qeq_bool (by_foam_pores desired) 0) eqn:E;
    [apply Qeq_bool_iff in E; contradiction |].
  apply Qltb_lt in Hpos. apply Qltb_ge in Hthr.
  rewrite Hpos, Hthr, Hone. simpl.
  destruct (variation_of_foam_pores_per_track self - 1 <? 0) eqn:E1;
    simpl; split; lia.
Qed.

(** C9, amended: with a non-zero desired foam-pore porosity, no variation
    of the pore count and a canvas of positive width and height,
    [generate_objects] raises instead of returning the two lists; the state
    is reached by the feedback loop, where a step at the floor of the pore
    count keeps the count at 1 and lowers the variation by 1 down to 0: from
    the default parameters, eleven rejected passes that measure too much
    foam-pore porosity lead to a twelfth pass that raises. *)
Theorem empty_pore_count_range_raises :
  (forall parameters cfg rs,
     ~ (by_foam_pores (desired_porosities cfg) == 0)%Q ->
     variation_of_foam_pores_per_track parameters = 0 ->
     0 < image_width parameters -> 0 < image_height parameters ->
     exists msg, generate_objects parameters cfg rs = Raise (ValueError msg))
  /\ (forall self desired actual,
        ~ (by_foam_pores desired == 0)%Q ->
        (0 < by_foam_pores actual - by_foam_pores desired)%Q ->
        (porosity_foam_pore_margin self
         < by_foam_pores actual - by_foam_pores desired)%Q ->
        (foam_pore_amount_adaption_threshold self
         <= by_foam_pores actual - by_foam_pores desired)%Q ->
        mean_foam_pores_per_track self = 1 ->
        mean_foam_pores_per_track (adapt_parameters self desired actual) = 1
        /\ variation_of_foam_pores_per_track
             (adapt_parameters self desired actual)
           = Z.max 0 (variation_of_foam_pores_per_track self - 1))
  /\ (let fs := sample_fs (sample_document "calculate_porosity_w_mean") in
      let run fuel :=
        generate_image fuel sample_backend fs coarse_user_config true
          sample_state in
      (run 11%nat).2 = Ok None
      /\ mean_foam_pores_per_track (the_parameters (run 11%nat).1) = 1
      /\ variation_of_foam_pores_per_track (the_parameters (run 11%nat).1) = 0
      /\ (run 12%nat).2 = Raise (ValueError "low >= high")).
Proof.
  split; [exact generate_objects_empty_range |].
  split; [exact adapt_parameters_at_count_floor |].
  vm_compute. repeat split; reflexivity.
Qed.

Lemma empty_pore_count_range_raises_witness :
  exists msg,
    generate_objects (set_variation_of_foam_pores_per_track 0 defaults)
      sample_user_config sample_random = Raise (ValueError msg).
Proof.
  destruct empty_pore_count_range_raises as (Hraise & _).
  apply Hraise.
  - vm_compute. discriminate.
  - reflexivity.
  - reflexivity.
  - reflexivity.
Defined.

(** C9 as stated fails on a canvas without width: the grid has no cell, no
    pore count is drawn and [generate_objects] returns two empty lists. *)
Lemma empty_grid_returns_two_empty_lists :
  let parameters :=
    set_image_width 0 (set_variation_of_foam_pores_per_track 0 defaults) in
  ~ (by_foam_pores (desired_porosities sample_user_config) == 0)%Q
  /\ variation_of_foam_pores_per_track parameters = 0
  /\ generate_objects parameters sample_user_config sample_random
     = Ok ([], [], sample_random).
Proof.
  split; [vm_compute; discriminate |]. split; reflexivity.
Qed.

(** ** The generate-measure-adapt loop *)

Lemma porosity_in_margin_iff (d a m : Q) :
  porosity_in_margin d a m = true <-> (Qabs (a - d) <= m)%Q.
Proof.
  unfold porosity_in_margin.
  rewrite andb_true_iff, !Qle_bool_iff, Qabs_Qle_condition.
  split; intros [? ?]; split; lra.
Qed.

Lemma margin_tests_iff (cfg : UserConfig) (parameters : Parameters)
    (p : Porosities) :
  porosity_in_margin (total (desired_porosities cfg)) (total p)
    (total_porosity_margin parameters)
  && porosity_in_margin (by_foam_pores (desired_porosities cfg))
       (by_foam_pores p) (porosity_foam_pore_margin parameters) = true
  <-> within_margins cfg parameters p.
Proof.
  unfold within_margins. by rewrite andb_true_iff, !porosity_in_margin_iff.
Qed.

Lemma same_other_fields_set_porosity_function (v : attr_value)
    (p : Parameters) :
  same_other_fields p (set_porosity_function v p).
Proof. repeat split. Qed.

Lemma prog_bind_Ok {A B : Type} (m : prog A) (k : A -> prog B)
    (st st' : run_state) (b : B) :
  (m ≫= k) st = (st', Ok b) ->
  exists st1 a, m st = (st1, Ok a) /\ k a st1 = (st', Ok b).
Proof.
  unfold mbind, prog_bind. destruct (m st) as [st1 [a | e]]; [eauto | done].
Qed.

Lemma prog_bind_step {A B : Type} (m : prog A) (k : A -> prog B)
    (st st1 : run_state) (a : A) :
  m st = (st1, Ok a) -> (m ≫= k) st = k a st1.
Proof. intros H. unfold mbind, prog_bind. by rewrite H. Qed.

Lemma prog_bind_raise {A B : Type} (m : prog A) (k : A -> prog B)
    (st st1 : run_state) (e : exn) :
  m st = (st1, Raise e) -> (m ≫= k) st = (st1, Raise e).
Proof. intros H. unfold mbind, prog_bind. by rewrite H. Qed.

Lemma draw_parameters {A : Type}
    (f : random_source -> result (A * random_source))
    (st st' : run_state) (r : result A) :
  draw f st = (st', r) ->
  the_parameters st' = the_parameters st /\ emitted st' = emitted st.
Proof.
  unfold draw. destruct (f (the_random st)) as [[a rs] | e];
    intros [= <- _]; done.
Qed.

Lemma call_porosity_function_Ok (parameters : Parameters) (img : ndarray)
    (q : Q) :
  call_porosity_function parameters img = Ok q ->
  exists f, porosity_function parameters = Callable f.
Proof.
  unfold call_porosity_function.
  destruct (porosity_function parameters); [eauto | done].
Qed.

(** A pass that gets through rendering and measuring has left the
    parameters alone, and their porosity rule is a function. *)
Lemma render_and_measure_Ok (be : backend) (cfg : UserConfig)
    (actual : Porosities) (st st' : run_state) (img : ndarray)
    (p : Porosities) :
  render_and_measure be cfg actual st = (st', Ok (img, p)) ->
  the_parameters st' = the_parameters st
  /\ exists f, porosity_function (the_parameters st) = Callable f.
Proof.
  intros H. unfold render_and_measure in H.
  apply prog_bind_Ok in H. destruct H as (st1 & params & Hget & H).
  injection Hget as <- <-.
  apply prog_bind_Ok in H. destruct H as (st1 & [tracks pores] & Hdraw & H).
  apply draw_parameters in Hdraw. destruct Hdraw as [Hp _].
  apply prog_bind_Ok in H. destruct H as (st2 & img1 & Hb1 & H).
  injection Hb1 as <- _.
  apply prog_bind_Ok in H. destruct H as (st2 & bt & Hc1 & H).
  injection Hc1 as <- Hc1.
  apply prog_bind_Ok in H. destruct H as (st2 & img2 & Hb2 & H).
  injection Hb2 as <- _.
  apply prog_bind_Ok in H. destruct H as (st2 & tt' & Hc2 & H).
  injection Hc2 as <- _.
  injection H as <- _ _. split; [exact Hp |].
  by apply call_porosity_function_Ok in Hc1.
Qed.

(** Once the porosity rule is a string, rendering and measuring raises. *)
Lemma render_and_measure_not_callable (be : backend) (cfg : UserConfig)
    (actual : Porosities) (st : run_state) (name : string) :
  porosity_function (the_parameters st) = NameStr name ->
  exists st' e, render_and_measure be cfg actual st = (st', Raise e).
Proof.
  intros Hname.
  destruct (render_and_measure be cfg actual st) as [st' [[img p] | e]] eqn:E;
    [| by eauto].
  apply render_and_measure_Ok in E. destruct E as (_ & f & Hf). congruence.
Qed.

(** [save_files] on a callable rule: it completes, and the parameters it
    leaves are the ones it found with the rule replaced by its name. *)
Lemma save_files_callable (be : backend) (fs : filesystem) (img : ndarray)
    (actual : Porosities) (cfg : UserConfig) (st : run_state)
    (f : porosity_rule) :
  porosity_function (the_parameters st) = Callable f ->
  exists st', save_files be fs img actual cfg st = (st', Ok tt)
              /\ the_parameters st'
                 = set_porosity_function (NameStr (fn_name f))
                     (the_parameters st).
Proof.
  intros Hf. unfold save_files.
  unfold mbind, prog_bind, log, draw, get_parameters, put_parameters, mret,
    prog_ret, random_randint.
  destruct (negb (path_is_dir fs (output_folder cfg))); simpl;
    rewrite Hf; simpl; eexists; split; reflexivity.
Qed.

(** The second half of a pass, on a callable rule: it completes; it returns
    exactly when both porosities are within their margins; the parameters
    it leaves are the saved ones, the unchanged ones or the adapted ones. *)
Lemma accept_or_adapt_callable (be : backend) (fs : filesystem)
    (cfg : UserConfig) (save : bool) (img : ndarray) (p : Porosities)
    (st : run_state) (f : porosity_rule) :
  porosity_function (the_parameters st) = Callable f ->
  exists st' returned,
    accept_or_adapt be fs cfg save img p st = (st', Ok (returned, p))
    /\ (returned = true <-> within_margins cfg (the_parameters st) p)
    /\ the_parameters st'
       = if returned
         then if save
              then set_porosity_function (NameStr (fn_name f))
                     (the_parameters st)
              else the_parameters st
         else adapt_parameters (the_parameters st) (desired_porosities cfg) p.
Proof.
  intros Hf. unfold accept_or_adapt.
  rewrite (prog_bind_step _ _ st st (the_parameters st)) by reflexivity.
  cbv zeta. pose proof (margin_tests_iff cfg (the_parameters st) p) as Hm.
  destruct (_ && _).
  - destruct save.
    + destruct (save_files_callable be fs img p cfg st f Hf)
        as (st' & Hsave & Hp).
      exists st', true. erewrite prog_bind_step by exact Hsave.
      split; [reflexivity |]. split; [tauto | exact Hp].
    + exists st, true. split; [reflexivity |]. split; [tauto | reflexivity].
  - eexists _, false. split; [reflexivity |]. split; [| reflexivity].
    split; [done |]. intros H. apply Hm in H. done.
Qed.

Lemma generate_image_pass_Ok (be : backend) (fs : filesystem)
    (cfg : UserConfig) (save : bool) (actual : Porosities)
    (st st' : run_state) (returned : bool) (p : Porosities) :
  generate_image_pass be fs cfg save actual st = (st', Ok (returned, p)) ->
  (returned = true <-> within_margins cfg (the_parameters st) p)
  /\ exists f,
       porosity_function (the_parameters st) = Callable f
       /\ the_parameters st'
          = if returned
            then if save
                 then set_porosity_function (NameStr (fn_name f))
                        (the_parameters st)
                 else the_parameters st
            else adapt_parameters (the_parameters st)
                   (desired_porosities cfg) p.
Proof.
  intros H. unfold generate_image_pass in H.
  apply prog_bind_Ok in H. destruct H as (st1 & [img q] & Hm & H).
  apply render_and_measure_Ok in Hm. destruct Hm as (Hp & f & Hf).
  rewrite <- Hp in Hf.
  destruct (accept_or_adapt_callable be fs cfg save img q st1 f Hf)
    as (st2 & b & Ha & Hb & Hp2).
  rewrite Ha in H. injection H as <- <- <-.
  rewrite Hp in Hb, Hp2, Hf. split; [exact Hb |]. by exists f.
Qed.

(** A run that returns does so from a pass that found both porosities
    within their margins; the parameters it leaves are those of that pass,
    with the rule replaced by its name when the files were saved. *)
Lemma generate_image_loop_Ok (fuel : nat) (be : backend) (fs : filesystem)
    (cfg : UserConfig) (save : bool) (actual : Porosities)
    (st st' : run_state) (p : Porosities) :
  generate_image_loop fuel be fs cfg save actual st = (st', Ok (Some p)) ->
  exists accepted f,
    within_margins cfg accepted p
    /\ porosity_function accepted = Callable f
    /\ the_parameters st'
       = if save then set_porosity_function (NameStr (fn_name f)) accepted
         else accepted.
Proof.
  revert actual st. induction fuel as [| fuel IH]; intros actual st H;
    simpl in H; [done |].
  apply prog_bind_Ok in H. destruct H as (st1 & [returned q] & Hpass & H).
  apply generate_image_pass_Ok in Hpass.
  destruct Hpass as (Hret & f & Hf & Hp).
  destruct returned.
  - injection H as <- <-. exists (the_parameters st), f.
    split; [by apply Hret |]. split; [exact Hf | exact Hp].
  - by apply IH in H.
Qed.

Lemma generate_image_not_callable (fuel : nat) (be : backend)
    (fs : filesystem) (cfg : UserConfig) (save : bool) (st : run_state)
    (name : string) :
  porosity_function (the_parameters st) = NameStr name ->
  exists st' e,
    generate_image (S fuel) be fs cfg save st = (st', Raise e).
Proof.
  intros Hname. unfold generate_image. simpl. unfold generate_image_pass.
  destruct (render_and_measure_not_callable be cfg (Porosities_init 0 0)
              st name Hname) as (st' & e & Hr).
  exists st', e.
  erewrite prog_bind_raise; [reflexivity |].
  erewrite prog_bind_raise; [reflexivity | exact Hr].
Qed.



(** C10: [save_files] replaces the [porosity_function] attribute of the
    [Parameters] object it is given by the name of the function and leaves
    every other attribute as it was; so does a pass of [generate_image] with
    [save=True] that ends in [return]; after a run of [generate_image] with
    [save=True] that returned, the object holds a string in that attribute,
    and every further run of [generate_image] on it raises. *)
Theorem save_files_leaves_the_rule_name :
  (forall be fs img actual cfg st f,
     porosity_function (the_parameters st) = Callable f ->
     exists st',
       save_files be fs img actual cfg st = (st', Ok tt)
       /\ porosity_function (the_parameters st') = NameStr (fn_name f)
       /\ same_other_fields (the_parameters st) (the_parameters st'))
  /\ (forall be fs cfg actual st st' p,
        generate_image_pass be fs cfg true actual st = (st', Ok (true, p)) ->
        exists f,
          porosity_function (the_parameters st) = Callable f
          /\ porosity_function (the_parameters st') = NameStr (fn_name f)
          /\ same_other_fields (the_parameters st) (the_parameters st'))
  /\ (forall fuel be fs cfg st st' p,
        generate_image fuel be fs cfg true st = (st', Ok (Some p)) ->
        (exists f,
           porosity_function (the_parameters st') = NameStr (fn_name f))
        /\ forall fuel' be' fs' cfg' save',
             exists st'' e,
               generate_image (S fuel') be' fs' cfg' save' st'
               = (st'', Raise e)).
Proof.
  split; [| split].
  - intros be fs img actual cfg st f Hf.
    destruct (save_files_callable be fs img actual cfg st f Hf)
      as (st' & Hsave & Hp).
    exists st'. split; [exact Hsave |]. rewrite Hp. split; [reflexivity |].
    apply same_other_fields_set_porosity_function.
  - intros be fs cfg actual st st' p H.
    apply generate_image_pass_Ok in H. destruct H as (_ & f & Hf & Hp).
    exists f. split; [exact Hf |]. rewrite Hp. split; [reflexivity |].
    apply same_other_fields_set_porosity_function.
  - intros fuel be fs cfg st st' p H. unfold generate_image in H.
    apply generate_image_loop_Ok in H.
    destruct H as (accepted & f & _ & Hf & Hp).
    split.
    + exists f. by rewrite Hp.
    + intros fuel' be' fs' cfg' save'.
      apply (generate_image_not_callable _ _ _ _ _ _ (fn_name f)).
      by rewrite Hp.
Qed.

Lemma save_files_leaves_the_rule_name_witness :
  exists st' p,
    generate_image 1 sample_backend
      (sample_fs (sample_document "calculate_porosity_w_mean"))
      matching_user_config true sample_state = (st', Ok (Some p))
    /\ porosity_function (the_parameters st')
       = NameStr "calculate_porosity_w_mean"
    /\ exists st'' e,
         generate_image 1 sample_backend
           (sample_fs (sample_document "calculate_porosity_w_mean"))
           matching_user_config true st' = (st'', Raise e).
Proof.
  destruct save_files_leaves_the_rule_name as (_ & _ & Hrun).
  destruct (generate_image 1 sample_backend
              (sample_fs (sample_document "calculate_porosity_w_mean"))
              matching_user_config true sample_state)
    as [st' [[p |] | e]] eqn:E.
  - exists st', p. split; [reflexivity |].
    destruct (Hrun _ _ _ _ _ _ _ E) as (_ & Hagain).
    split; [| apply Hagain].
    vm_compute in E. by injection E as <- _.
  - vm_compute in E. discriminate.
  - vm_compute in E. discriminate.
Defined.

(** * Further properties *)

Import parameters_factory bezier_path predicates sample_shapes.

(** ** Measurement: what the two thresholds can report *)

Lemma pixels_below_app (l1 l2 : list Z) (t : Q) :
  pixels_below (l1 ++ l2) t = pixels_below l1 t + pixels_below l2 t.
Proof.
  unfold pixels_below. rewrite List.filter_app, length_app. lia.
Qed.

Lemma pixels_below_Permutation (l1 l2 : list Z) (t : Q) :
  l1 ≡ₚ l2 -> pixels_below l1 t = pixels_below l2 t.
Proof.
  unfold pixels_below. induction 1 as [| x l1 l2 _ IH | x y l | l1 l2 l3 _ IH1 _ IH2];
    simpl; [done | | | lia].
  - destruct (Qltb (inject_Z x) t); simpl; lia.
  - destruct (Qltb (inject_Z x) t), (Qltb (inject_Z y) t); simpl; lia.
Qed.

Lemma sum_Permutation (l1 l2 : list Z) :
  l1 ≡ₚ l2 -> foldr Z.add 0 l1 = foldr Z.add 0 l2.
Proof.
  induction 1; simpl; lia.
Qed.

(** In a sorted list, nothing before position [j] exceeds the element at
    position [j]. *)
Lemma sorted_prefix_le (s : list Z) (j : nat) (b : Z) :
  StronglySorted Z.le s -> s !! j = Some b ->
  Forall (fun x => x <= b) (take (S j) s).
Proof.
  intros Hs Hj. rewrite Forall_forall. intros x Hx.
  apply elem_of_take in Hx. destruct Hx as (i & Hi & Hlt).
  destruct (decide (i = j)) as [-> | Hne]; [by simplify_eq; lia |].
  rewrite <- (take_drop j s) in Hs.
  eapply (StronglySorted_app_1_elem_of _ _ _ x b Hs).
  - apply elem_of_take. exists i. split; [done | lia].
  - apply list_elem_of_lookup. exists 0%nat. rewrite lookup_drop.
    by rewrite Nat.add_0_r.
Qed.

(** If the element at position [j] of a sorted list is below the threshold,
    so are the [j + 1] elements up to it. *)
Lemma pixels_below_sorted (s : list Z) (j : nat) (b : Z) (t : Q) :
  StronglySorted Z.le s -> s !! j = Some b -> (inject_Z b < t)%Q ->
  Z.of_nat (S j) <= pixels_below s t.
Proof.
  intros Hs Hj Hb.
  rewrite <- (take_drop (S j) s), pixels_below_app.
  rewrite (pixels_below_all (take (S j) s)).
  - unfold size. rewrite length_take.
    apply lookup_lt_Some in Hj. pose proof (pixels_below_bounds (drop (S j) s) t).
    lia.
  - eapply Forall_impl; [by apply (sorted_prefix_le s j b) |].
    intros x Hx. simpl in Hx. rewrite Zle_Qle in Hx. lra.
Qed.

Lemma merge_sort_sorted (buf : list Z) :
  StronglySorted Z.le (merge_sort Z.le buf)
  /\ length (merge_sort Z.le buf) = length buf.
Proof.
  split; [apply StronglySorted_merge_sort; apply _ |].
  apply Permutation_length, merge_sort_Permutation.
Qed.

(** At least half of the pixels lie below the median plus one. *)
Lemma pixels_below_median_plus_1 (buf : list Z) :
  buf <> [] -> size buf <= 2 * pixels_below buf (np_median buf + 1).
Proof.
  intros Hne. destruct (merge_sort_sorted buf) as [Hs Hlen].
  assert (Hn : (0 < length buf)%nat) by (destruct buf; [done | simpl; lia]).
  rewrite <- (pixels_below_Permutation _ _ _ (merge_sort_Permutation Z.le buf)).
  unfold np_median, size.
  pose proof (Nat.div_mod_eq (length buf) 2) as Hdiv.
  pose proof (Nat.mod_upper_bound (length buf) 2 ltac:(lia)) as Hmod.
  destruct (merge_sort Z.le buf !! (length buf / 2)%nat) as [b |] eqn:Eb.
  2: { apply lookup_ge_None in Eb. lia. }
  destruct (Nat.even (length buf)) eqn:Eeven.
  - apply Nat.even_spec in Eeven. destruct Eeven as [k Hk].
    assert (Hhalf : (length buf / 2 = k)%nat) by lia.
    destruct (merge_sort Z.le buf !! (length buf / 2 - 1)%nat) as [a |] eqn:Ea.
    2: { apply lookup_ge_None in Ea. lia. }
    simpl.
    assert (Hab : a <= b).
    { pose proof (sorted_prefix_le _ _ _ Hs Eb) as Hpre.
      rewrite Forall_forall in Hpre. apply Hpre.
      apply elem_of_take. exists (length buf / 2 - 1)%nat. split; [done | lia]. }
    pose proof (pixels_below_sorted _ _ _
                  ((inject_Z a + inject_Z b) / 2 + 1)%Q Hs Ea) as Hcount.
    assert (Hlt : (inject_Z a < (inject_Z a + inject_Z b) / 2 + 1)%Q).
    { rewrite Zle_Qle in Hab.
      assert (E : ((inject_Z a + inject_Z b) / 2
                   == (1 # 2) * inject_Z a + (1 # 2) * inject_Z b)%Q) by field.
      rewrite E. lra. }
    specialize (Hcount Hlt). lia.
  - assert (Hodd : Nat.odd (length buf) = true)
      by (rewrite <- Nat.negb_even, Eeven; done).
    apply Nat.odd_spec in Hodd. destruct Hodd as [k Hk].
    simpl.
    pose proof (pixels_below_sorted _ _ _ (inject_Z b + 1)%Q Hs Eb) as Hcount.
    assert (Hlt : (inject_Z b < inject_Z b + 1)%Q) by lra.
    specialize (Hcount Hlt). lia.
Qed.

Lemma calculate_porosity_w_median_plus_1_range (buf : list Z) :
  buf <> [] ->
  exists q, calculate_porosity_w_median_plus_1 buf = Ok q
            /\ (50 <= q <= 100)%Q.
Proof.
  intros Hne.
  unfold calculate_porosity_w_median_plus_1, calculate_porosity_w_threshold.
  destruct (calculate_porostiy_range
              (pixels_below buf (np_median buf + 1)) buf Hne
              (pixels_below_bounds _ _)) as (q & Hq & Hval & Hrange).
  exists q. split; [exact Hq |]. split; [| apply Hrange].
  pose proof (pixels_below_median_plus_1 buf Hne) as Hhalf.
  pose proof (size_pos buf Hne) as Hpos.
  rewrite Hval.
  set (n := size buf) in *. set (k := pixels_below buf (np_median buf + 1)) in *.
  assert (Hn : (0 < inject_Z n)%Q)
    by (change 0%Q with (inject_Z 0); rewrite <- Zlt_Qlt; lia).
  assert (Hk : (inject_Z n <= 2 * inject_Z k)%Q).
  { change 2%Q with (inject_Z 2). rewrite <- inject_Z_mult, <- Zle_Qle. lia. }
  assert (E : (100 / inject_Z n * inject_Z k == 100 * inject_Z k / inject_Z n)%Q)
    by (field; lra).
  rewrite E. apply Qle_shift_div_l; [exact Hn | lra].
Qed.

(** X1. On every non-empty buffer the median-plus-one rule reports at
    least 50: a porosity below 50 % cannot be measured with it. *)
Theorem median_rule_reports_at_least_half (buf : list Z) :
  buf <> [] ->
  exists q, calculate_porosity_w_median_plus_1 buf = Ok q
            /\ (50 <= q <= 100)%Q.
Proof. apply calculate_porosity_w_median_plus_1_range. Qed.

Lemma median_rule_reports_at_least_half_witness :
  [10; 200; 30; 250; 90] <> [] /\
  exists q, calculate_porosity_w_median_plus_1 [10; 200; 30; 250; 90] = Ok q
            /\ (50 <= q <= 100)%Q.
Proof.
  split; [discriminate |].
  apply (median_rule_reports_at_least_half [10; 200; 30; 250; 90]).
  discriminate.
Defined.

Lemma pixels_below_all_inv (buf : list Z) (t : Q) :
  pixels_below buf t = size buf ->
  Forall (fun p => (inject_Z p < t)%Q) buf.
Proof.
  unfold pixels_below, size. induction buf as [| p buf IH]; [constructor |].
  simpl. pose proof (List.filter_length_le
                       (fun p => Qltb (inject_Z p) t) buf) as Hle.
  destruct (Qltb (inject_Z p) t) eqn:E; simpl; intros H; [| lia].
  constructor; [by apply Qltb_lt | apply IH; lia].
Qed.

Lemma pixels_below_none_inv (buf : list Z) (t : Q) :
  pixels_below buf t = 0 ->
  Forall (fun p => (t <= inject_Z p)%Q) buf.
Proof.
  unfold pixels_below. induction buf as [| p buf IH]; [constructor |].
  simpl. destruct (Qltb (inject_Z p) t) eqn:E; simpl; intros H; [lia |].
  constructor; [by apply Qltb_ge | by apply IH].
Qed.

Lemma sum_le_bound (buf : list Z) (t : Q) :
  Forall (fun p => (inject_Z p < t)%Q) buf ->
  (inject_Z (foldr Z.add 0%Z buf) <= inject_Z (size buf) * t)%Q.
Proof.
  induction 1 as [| p buf Hp Hall IH].
  - change (0 <= 0 * t)%Q. lra.
  - unfold size in *. simpl foldr. rewrite length_cons, Nat2Z.inj_succ.
    unfold Z.succ. rewrite !inject_Z_plus. change (inject_Z 1) with 1%Q. lra.
Qed.

Lemma sum_lt_bound (buf : list Z) (t : Q) :
  buf <> [] -> Forall (fun p => (inject_Z p < t)%Q) buf ->
  (inject_Z (foldr Z.add 0%Z buf) < inject_Z (size buf) * t)%Q.
Proof.
  intros Hne Hall. destruct Hall as [| p buf Hp Hall]; [done |].
  pose proof (sum_le_bound buf t Hall) as Hle.
  unfold size in *. simpl foldr. rewrite length_cons, Nat2Z.inj_succ.
  unfold Z.succ. rewrite !inject_Z_plus. change (inject_Z 1) with 1%Q. lra.
Qed.

Lemma sum_ge_bound (buf : list Z) (t : Q) :
  Forall (fun p => (t <= inject_Z p)%Q) buf ->
  (inject_Z (size buf) * t <= inject_Z (foldr Z.add 0%Z buf))%Q.
Proof.
  induction 1 as [| p buf Hp Hall IH].
  - change (0 <= 0 * t)%Q. lra.
  - unfold size in *. simpl foldr. rewrite length_cons, Nat2Z.inj_succ.
    unfold Z.succ. rewrite !inject_Z_plus. change (inject_Z 1) with 1%Q. lra.
Qed.

Lemma sum_eq_bound (buf : list Z) (t : Q) :
  Forall (fun p => (t <= inject_Z p)%Q) buf ->
  (inject_Z (foldr Z.add 0%Z buf) == inject_Z (size buf) * t)%Q ->
  Forall (fun p => (inject_Z p == t)%Q) buf.
Proof.
  induction 1 as [| p buf Hp Hall IH]; [constructor |].
  pose proof (sum_ge_bound buf t Hall) as Hge.
  unfold size in *. simpl foldr. rewrite length_cons, Nat2Z.inj_succ.
  unfold Z.succ. rewrite !inject_Z_plus. change (inject_Z 1) with 1%Q.
  intros Heq. constructor; [lra | apply IH; lra].
Qed.

Lemma size_np_mean (buf : list Z) :
  buf <> [] ->
  (inject_Z (size buf) * np_mean buf == inject_Z (foldr Z.add 0%Z buf))%Q.
Proof.
  intros Hne. pose proof (size_pos buf Hne) as Hpos.
  assert (Hn : (0 < inject_Z (size buf))%Q)
    by (change 0%Q with (inject_Z 0); rewrite <- Zlt_Qlt; lia).
  unfold np_mean. field. lra.
Qed.

(** X2. On every non-empty buffer the mean rule reports less than 100,
    and it reports 0 exactly when all pixels have the same value. *)
Theorem mean_rule_below_100_and_zero_iff_uniform (buf : list Z) :
  buf <> [] ->
  exists q, calculate_porosity_w_mean buf = Ok q
    /\ (0 <= q < 100)%Q
    /\ ((q == 0)%Q <-> forall x y, x ∈ buf -> y ∈ buf -> x = y).
Proof.
  intros Hne.
  unfold calculate_porosity_w_mean, calculate_porosity_w_threshold.
  destruct (calculate_porostiy_range
              (pixels_below buf (np_mean buf)) buf Hne
              (pixels_below_bounds _ _)) as (q & Hq & Hval & Hrange).
  exists q. split; [exact Hq |].
  pose proof (size_pos buf Hne) as Hpos.
  pose proof (pixels_below_bounds buf (np_mean buf)) as Hb.
  pose proof (size_np_mean buf Hne) as Hmean.
  set (n := size buf) in *. set (k := pixels_below buf (np_mean buf)) in *.
  assert (Hn : (0 < inject_Z n)%Q)
    by (change 0%Q with (inject_Z 0); rewrite <- Zlt_Qlt; lia).
  assert (E : (q == 100 * inject_Z k / inject_Z n)%Q)
    by (rewrite Hval; field; lra).
  split; [split; [apply Hrange |] |].
  - assert (Hk : k < n).
    { destruct (decide (k = n)) as [Hkn | Hkn]; [| lia].
      apply pixels_below_all_inv in Hkn.
      pose proof (sum_lt_bound buf _ Hne Hkn) as Hlt. fold n in Hlt. lra. }
    rewrite E. apply Qlt_shift_div_r; [exact Hn |].
    rewrite Zlt_Qlt in Hk. lra.
  - split.
    + intros Hz.
      assert (Hk : k = 0).
      { assert (Hk0 : (inject_Z k == 0)%Q).
        { rewrite E in Hz.
          assert (Hm : (100 * inject_Z k / inject_Z n * inject_Z n
                        == 100 * inject_Z k)%Q) by (field; lra).
          rewrite Hz in Hm. lra. }
        apply (proj1 (inject_Z_injective k 0)). exact Hk0. }
      apply pixels_below_none_inv in Hk.
      pose proof (sum_eq_bound buf _ Hk) as Hall. fold n in Hall.
      specialize (Hall ltac:(lra)). rewrite Forall_forall in Hall.
      intros x y Hx Hy. apply Hall in Hx. apply Hall in Hy.
      apply (proj1 (inject_Z_injective x y)). lra.
    + intros Huni. destruct buf as [| v buf]; [done |].
      assert (Hall : Forall (eq v) (v :: buf)).
      { rewrite Forall_forall. intros x Hx. apply Huni; [left | exact Hx]. }
      pose proof (np_mean_uniform v (v :: buf) Hne Hall) as Hm.
      rewrite E. subst k. rewrite pixels_below_none; [field; lra |].
      eapply Forall_impl; [exact Hall |]. intros p <-. simpl. lra.
Qed.

Lemma mean_rule_below_100_and_zero_iff_uniform_witness :
  [10; 200; 30] <> [] /\
  exists q, calculate_porosity_w_mean [10; 200; 30] = Ok q
    /\ (0 <= q < 100)%Q
    /\ ((q == 0)%Q <->
        forall x y, x ∈ [10; 200; 30] -> y ∈ [10; 200; 30] -> x = y).
Proof.
  split; [discriminate |].
  apply (mean_rule_below_100_and_zero_iff_uniform [10; 200; 30]).
  discriminate.
Defined.

Lemma merge_sort_Permutation_eq (l1 l2 : list Z) :
  l1 ≡ₚ l2 -> merge_sort Z.le l1 = merge_sort Z.le l2.
Proof.
  intros Hp. apply (StronglySorted_unique Z.le).
  - apply StronglySorted_merge_sort; apply _.
  - apply StronglySorted_merge_sort; apply _.
  - by rewrite !merge_sort_Permutation.
Qed.

(** X3. The measurement depends on the pixel values only, not on their
    order: both rules give the same answer on any rearrangement of the
    buffer. *)
Theorem measurement_ignores_pixel_order (rule : porosity_rule)
    (buf1 buf2 : list Z) :
  buf1 ≡ₚ buf2 -> fn_call rule buf1 = fn_call rule buf2.
Proof.
  intros Hp.
  assert (Hlen : length buf1 = length buf2) by by apply Permutation_length.
  assert (Hsize : size buf1 = size buf2) by (unfold size; by rewrite Hlen).
  destruct rule; simpl;
    unfold calculate_porosity_w_mean, calculate_porosity_w_median_plus_1,
      calculate_porosity_w_threshold, calculate_porostiy.
  - assert (Hmean : np_mean buf1 = np_mean buf2).
    { unfold np_mean. by rewrite (sum_Permutation _ _ Hp), Hsize. }
    by rewrite Hmean, (pixels_below_Permutation _ _ _ Hp), Hsize.
  - assert (Hmed : np_median buf1 = np_median buf2).
    { unfold np_median. by rewrite (merge_sort_Permutation_eq _ _ Hp), Hlen. }
    by rewrite Hmed, (pixels_below_Permutation _ _ _ Hp), Hsize.
Qed.

Lemma measurement_ignores_pixel_order_witness :
  [10; 200; 30; 250] ≡ₚ [250; 30; 200; 10] /\
  fn_call fn_calculate_porosity_w_median_plus_1 [10; 200; 30; 250]
  = fn_call fn_calculate_porosity_w_median_plus_1 [250; 30; 200; 10].
Proof.
  assert (Hp : [10; 200; 30; 250] ≡ₚ [250; 30; 200; 10]).
  { change [250; 30; 200; 10] with (reverse [10; 200; 30; 250]).
    symmetry. apply reverse_Permutation. }
  split; [exact Hp |].
  apply (measurement_ignores_pixel_order
           fn_calculate_porosity_w_median_plus_1 _ _ Hp).
Defined.

(** X4. Raising the threshold never lowers the measured porosity. *)
Theorem threshold_measure_monotone (buf : list Z) (t1 t2 : Q) :
  buf <> [] -> (t1 <= t2)%Q ->
  exists q1 q2, calculate_porosity_w_threshold buf t1 = Ok q1
    /\ calculate_porosity_w_threshold buf t2 = Ok q2
    /\ (q1 <= q2)%Q.
Proof.
  intros Hne Ht. unfold calculate_porosity_w_threshold.
  destruct (calculate_porostiy_range (pixels_below buf t1) buf Hne
              (pixels_below_bounds _ _)) as (q1 & Hq1 & Hv1 & _).
  destruct (calculate_porostiy_range (pixels_below buf t2) buf Hne
              (pixels_below_bounds _ _)) as (q2 & Hq2 & Hv2 & _).
  exists q1, q2. split; [exact Hq1 |]. split; [exact Hq2 |].
  assert (Hk : pixels_below buf t1 <= pixels_below buf t2).
  { unfold pixels_below. clear -Ht. induction buf as [| p buf IH]; [done |].
    simpl. destruct (Qltb (inject_Z p) t1) eqn:E1.
    - apply Qltb_lt in E1.
      assert (E2 : Qltb (inject_Z p) t2 = true) by (apply Qltb_lt; lra).
      rewrite E2. simpl. lia.
    - destruct (Qltb (inject_Z p) t2); simpl; lia. }
  pose proof (size_pos buf Hne) as Hpos.
  assert (Hn : (0 < inject_Z (size buf))%Q)
    by (change 0%Q with (inject_Z 0); rewrite <- Zlt_Qlt; lia).
  rewrite Hv1, Hv2. rewrite Zle_Qle in Hk.
  apply Qmult_le_l; [| exact Hk].
  apply Qlt_shift_div_l; [exact Hn | lra].
Qed.

Lemma threshold_measure_monotone_witness :
  [10; 200; 30] <> [] /\ (20 <= 100)%Q /\
  exists q1 q2, calculate_porosity_w_threshold [10; 200; 30] 20 = Ok q1
    /\ calculate_porosity_w_threshold [10; 200; 30] 100 = Ok q2
    /\ (q1 <= q2)%Q.
Proof.
  split; [discriminate |]. split; [by vm_compute |].
  apply (threshold_measure_monotone [10; 200; 30] 20 100);
    [discriminate | by vm_compute].
Defined.

(** ** Margins *)

(** X5. The margin test is symmetric in the two porosities, grows with the
    margin, and fails for every pair under a negative margin. *)
Theorem porosity_in_margin_symmetric_monotone :
  (forall d a m : Q, porosity_in_margin d a m = porosity_in_margin a d m)
  /\ (forall d a m m' : Q,
        (m <= m')%Q -> porosity_in_margin d a m = true ->
        porosity_in_margin d a m' = true)
  /\ (forall d a m : Q, (m < 0)%Q -> porosity_in_margin d a m = false).
Proof.
  split; [| split].
  - intros d a m. apply eq_true_iff_eq. rewrite !porosity_in_margin_iff.
    assert (E : (d - a == - (a - d))%Q) by ring.
    by rewrite E, Qabs_opp.
  - intros d a m m' Hm. rewrite !porosity_in_margin_iff. lra.
  - intros d a m Hm. apply not_true_is_false.
    rewrite porosity_in_margin_iff. pose proof (Qabs_nonneg (a - d)). lra.
Qed.

Lemma porosity_in_margin_symmetric_monotone_witness :
  porosity_in_margin 30 31 1 = porosity_in_margin 31 30 1
  /\ porosity_in_margin 30 31 2 = true
  /\ porosity_in_margin 30 30 (-1) = false.
Proof.
  destruct porosity_in_margin_symmetric_monotone as (Hs & Hm & Hn).
  split; [apply Hs |]. split.
  - apply (Hm 30 31 1 2)%Q; [by vm_compute | reflexivity].
  - apply Hn. reflexivity.
Defined.

(** ** One adaptation step *)

Lemma nudge_tracks_same_settings (dw dh : Q) (p : Parameters) :
  same_settings p (nudge_tracks dw dh p).
Proof. repeat split. Qed.

Lemma adapt_tracks_same_settings (bound : Q) (p : Parameters)
    (d a : Porosities) :
  same_settings p (adapt_tracks bound p d a).
Proof. unfold adapt_tracks. repeat case_match; repeat split. Qed.

Lemma adapt_foam_pores_same_settings (diff : Q) (p : Parameters) :
  same_settings p (adapt_foam_pores diff p).
Proof. unfold adapt_foam_pores. repeat case_match; repeat split. Qed.

Lemma same_settings_trans (p1 p2 p3 : Parameters) :
  same_settings p1 p2 -> same_settings p2 p3 -> same_settings p1 p3.
Proof.
  unfold same_settings. intros H1 H2.
  repeat match goal with H : _ /\ _ |- _ => destruct H end.
  repeat split; congruence.
Qed.

Lemma same_settings_refl (p : Parameters) : same_settings p p.
Proof. repeat split. Qed.

Lemma adapt_parameters_same_settings (self : Parameters)
    (desired actual : Porosities) :
  same_settings self (adapt_parameters self desired actual).
Proof.
  unfold adapt_parameters. cbv zeta.
  set (c := Qltb _ _ && Qltb _ _).
  set (moved := if c then adapt_tracks 7 self desired actual
                else adapt_tracks 10 self desired actual).
  assert (H1 : same_settings self moved).
  { subst moved. destruct c; apply adapt_tracks_same_settings. }
  set (diff := (by_foam_pores actual - by_foam_pores desired)%Q).
  set (t := Qltb (porosity_foam_pore_margin moved) (Qabs diff)).
  set (sized := if t then adapt_foam_pores diff moved else moved).
  assert (H2 : same_settings moved sized).
  { subst sized. destruct t;
      [apply adapt_foam_pores_same_settings | apply same_settings_refl]. }
  set (z := Qeq_bool (by_foam_pores desired) 0).
  set (zeroed := if z then set_mean_foam_pores_per_track 0 sized else sized).
  assert (H3 : same_settings sized zeroed).
  { subst zeroed. destruct z; repeat split. }
  eapply same_settings_trans; [exact H1 |].
  eapply same_settings_trans; [exact H2 |].
  eapply same_settings_trans; [exact H3 |]. repeat split.
Qed.

(** X6. An adaptation step assigns the track sizes, the foam-pore knobs and
    the centre scaling factor only: the canvas, the margins, the threshold,
    the porosity rule, the offsets and the variation ratios keep their
    values. *)
Theorem adapt_parameters_keeps_the_settings (self : Parameters)
    (desired actual : Porosities) :
  same_settings self (adapt_parameters self desired actual).
Proof. apply adapt_parameters_same_settings. Qed.

(** X7. An adaptation step always moves the tracks: they grow when the
    measured total porosity exceeds the desired one and shrink otherwise,
    also when the two are equal, by [(3, 2)] or by [(1, 0.5)]; the centre
    scaling factor of the foam pores is set to a third of the new width,
    rounded. *)
Theorem adapt_parameters_moves_the_tracks (self : Parameters)
    (desired actual : Porosities) :
  let self' := adapt_parameters self desired actual in
  let sign := if Qltb (total desired) (total actual) then 1%Q else (-1)%Q in
  ((track_mean_width self' == track_mean_width self + sign * 3
    /\ track_mean_height self' == track_mean_height self + sign * 2)
   \/ (track_mean_width self' == track_mean_width self + sign * 1
       /\ track_mean_height self' == track_mean_height self + sign * (1 # 2)))%Q
  /\ foam_pores_center_scaling_factor self'
     = inject_Z (np_round (track_mean_width self' / 3)).
Proof.
  intros self' sign. subst self' sign.
  destruct (adapt_parameters_tracks self desired actual) as [Hw Hh].
  split.
  - rewrite Hw, Hh. clear Hw Hh. unfold adapt_tracks.
    destruct (Qltb (if _ && _ then 7 else 10)%Q _);
      destruct (Qltb (total desired) (total actual));
      [left | left | right | right]; unfold nudge_tracks; simpl; split; ring.
  - reflexivity.
Qed.

Lemma adapt_foam_pores_in_range (diff : Q) (p : Parameters) :
  pore_knobs_in_range p -> pore_knobs_in_range (adapt_foam_pores diff p).
Proof.
  unfold pore_knobs_in_range, adapt_foam_pores. intros (Hd & Hc & Hv).
  repeat case_match; simpl in *; repeat split; lia.
Qed.

(** X8. An adaptation step keeps the foam-pore knobs in range: a diameter
    of at least 1, a pore count and a count variation that are not
    negative; and the count stays positive unless no foam-pore porosity is
    desired. *)
Theorem adapt_parameters_keeps_the_knobs_in_range (self : Parameters)
    (desired actual : Porosities) :
  pore_knobs_in_range self ->
  let self' := adapt_parameters self desired actual in
  pore_knobs_in_range self'
  /\ (1 <= mean_foam_pores_per_track self ->
      ~ (by_foam_pores desired == 0)%Q ->
      1 <= mean_foam_pores_per_track self').
Proof.
  intros Hr self'. subst self'.
  destruct (adapt_parameters_foam_knobs self desired actual) as (Hd & Hv & Hc).
  cbv zeta in Hd, Hv, Hc.
  set (diff := (by_foam_pores actual - by_foam_pores desired)%Q) in *.
  set (sized := if Qltb (porosity_foam_pore_margin self) (Qabs diff)
                then adapt_foam_pores diff self else self) in *.
  assert (Hs : pore_knobs_in_range sized).
  { subst sized. destruct (Qltb _ _); [by apply adapt_foam_pores_in_range | done]. }
  destruct Hs as (Hsd & Hsc & Hsv).
  split.
  - unfold pore_knobs_in_range. rewrite Hd, Hv, Hc.
    destruct (Qeq_bool _ _); repeat split; lia.
  - intros Hone Hne. rewrite Hc.
    destruct (Qeq_bool (by_foam_pores desired) 0) eqn:E;
      [apply Qeq_bool_iff in E; contradiction |].
    subst sized. destruct (Qltb _ _); [| lia].
    destruct Hr as (Hrd & Hrc & Hrv).
    unfold adapt_foam_pores. repeat case_match; simpl in *; lia.
Qed.

Lemma adapt_parameters_keeps_the_knobs_in_range_witness :
  pore_knobs_in_range defaults
  /\ pore_knobs_in_range
       (adapt_parameters defaults (Porosities_init 50 10)
          (mkPorosities 60 20 (Some 40%Q))).
Proof.
  assert (H : pore_knobs_in_range defaults) by (repeat split; discriminate).
  split; [exact H |].
  apply (adapt_parameters_keeps_the_knobs_in_range defaults
           (Porosities_init 50 10) (mkPorosities 60 20 (Some 40%Q)) H).
Defined.

(** ** Initial parameters from a user configuration *)

Lemma py_truediv_nonzero (a b : Q) :
  ~ (b == 0)%Q -> py_truediv a b = Ok (a / b)%Q.
Proof.
  intros Hb. unfold py_truediv.
  destruct (Qeq_bool b 0) eqn:E; [apply Qeq_bool_iff in E; contradiction | done].
Qed.

Lemma py_truediv_zero (a b : Q) :
  (b == 0)%Q -> py_truediv a b = Raise ZeroDivisionError.
Proof.
  intros Hb. unfold py_truediv. apply Qeq_bool_iff in Hb. by rewrite Hb.
Qed.

Lemma layer_width_zero (h : Z) (ratio : Q) :
  (inject_Z h * ratio == 0)%Q <-> h = 0 \/ (ratio == 0)%Q.
Proof.
  split.
  - intros H. destruct (decide (h = 0)) as [-> | Hh]; [by left | right].
    assert (Hi : ~ (inject_Z h == 0)%Q).
    { intros E. apply Hh. by apply (proj1 (inject_Z_injective h 0)). }
    destruct (Qmult_integral _ _ H); [contradiction | done].
  - intros [-> | Hr]; [ring | rewrite Hr; ring].
Qed.

(** X9. [adapt_to_config] divides by the layer width: it raises
    [ZeroDivisionError], having printed only the initialisation line, when
    the layer height or the width-to-height ratio is zero, and returns a
    [Parameters] object otherwise. *)
Theorem adapt_to_config_raises_iff_zero_pitch (cfg : UserConfig) :
  (layer_height cfg = 0 \/ (layer_width_to_layer_height_ratio cfg == 0)%Q ->
   adapt_to_config cfg
   = ([Print "Initialzed Parameters"], Raise ZeroDivisionError))
  /\ (~ (layer_height cfg = 0
         \/ (layer_width_to_layer_height_ratio cfg == 0)%Q) ->
      exists out params, adapt_to_config cfg = (out, Ok params)).
Proof.
  split.
  - intros Hz. apply layer_width_zero in Hz.
    unfold adapt_to_config, Parameters_init, print, emit, lift, mbind,
      io_bind, mret, io_ret.
    cbv beta iota zeta. rewrite (py_truediv_zero _ _ Hz). reflexivity.
  - intros Hnz.
    assert (Hlw : ~ (inject_Z (layer_height cfg)
                     * layer_width_to_layer_height_ratio cfg == 0)%Q)
      by (by rewrite layer_width_zero).
    assert (Hlh : ~ (inject_Z (layer_height cfg) == 0)%Q).
    { intros E. apply Hnz. left. by apply (proj1 (inject_Z_injective _ 0)). }
    destruct (adapt_to_config cfg) as [out r] eqn:E.
    unfold adapt_to_config, Parameters_init, print, emit, lift, mbind,
      io_bind, mret, io_ret in E.
    cbv beta iota zeta in E.
    rewrite (py_truediv_nonzero _ _ Hlw) in E. cbv beta iota zeta in E.
    rewrite (py_truediv_nonzero _ _ Hlh) in E. cbv beta iota zeta in E.
    rewrite (py_truediv_nonzero 100
               (inject_Z (image_height defaults * image_width defaults))) in E
      by discriminate.
    cbv beta iota zeta in E.
    repeat match type of E with
           | context [if ?b then _ else _] =>
               destruct b; cbv beta iota zeta in E
           end;
      injection E as <- <-; eauto.
Qed.

Lemma adapt_to_config_raises_iff_zero_pitch_witness :
  adapt_to_config (mkUserConfig 0 (5 # 4) (Porosities_init 50 40) "output")
  = ([Print "Initialzed Parameters"], Raise ZeroDivisionError)
  /\ exists out params, adapt_to_config sample_user_config = (out, Ok params).
Proof.
  split.
  - apply (adapt_to_config_raises_iff_zero_pitch
             (mkUserConfig 0 (5 # 4) (Porosities_init 50 40) "output")).
    left. reflexivity.
  - apply (adapt_to_config_raises_iff_zero_pitch sample_user_config).
    intros [H | H]; [discriminate H | vm_compute in H; discriminate H].
Defined.

(** X10. With a non-zero layer height and ratio, [adapt_to_config] prints
    two estimates and starts from them: the foam-pore estimate is
    [9800 / (layer_width * layer_height)] and the total estimate is the
    foam-pore estimate plus 36, the share of the tracks being a constant;
    the object returned has the default settings, centre scaling factor and
    count variation; its pore diameter and pore count are one of
    [(9, 9)], [(7, 8)], [(3, 7)], [(3, 8)] and its track sizes are rounded
    shares of the layer sizes, all four chosen by comparing the estimates
    with the desired porosities. *)
Theorem adapt_to_config_estimates_and_choices (cfg : UserConfig) :
  layer_height cfg <> 0 ->
  ~ (layer_width_to_layer_height_ratio cfg == 0)%Q ->
  let layer_width :=
    (inject_Z (layer_height cfg) * layer_width_to_layer_height_ratio cfg)%Q in
  let desired := desired_porosities cfg in
  exists est_total est_foam rest params,
    adapt_to_config cfg
    = (Print "Initialzed Parameters"
       :: PrintFmt
            "I estimated these porosities to update the initial default parameters: total: {:.2f}, foam: {:.2f}"
            [est_total; est_foam]
       :: rest, Ok params)
    /\ (est_foam == 9800 / (layer_width * inject_Z (layer_height cfg)))%Q
    /\ (est_total == est_foam + 36)%Q
    /\ same_settings defaults params
    /\ same_scaling_and_variation defaults params
    /\ (mean_diameter_of_foam_pores params, mean_foam_pores_per_track params)
       = (if Qltb est_foam (by_foam_pores desired)
          then if Qltb 5 (by_foam_pores desired - est_foam)
               then (9, 9) else (7, 8)
          else if Qltb 5 (est_foam - by_foam_pores desired)
               then (3, 7) else (3, 8))
    /\ track_mean_width params
       = inject_Z
           (np_round
              (layer_width
               * (if Qltb (total desired) est_total
                  then if Qltb est_foam (by_foam_pores desired)
                       then 99 # 100 else 85 # 100
                  else 8 # 10)))
    /\ track_mean_height params
       = inject_Z
           (np_round
              (inject_Z (layer_height cfg)
               * (if Qltb (total desired) est_total
                  then if Qltb est_foam (by_foam_pores desired)
                       then 96 # 100 else 9 # 10
                  else 8 # 10))).
Proof.
  intros Hh Hr layer_width desired.
  assert (Hlw : ~ (layer_width == 0)%Q).
  { subst layer_width. rewrite layer_width_zero. tauto. }
  assert (Hlh : ~ (inject_Z (layer_height cfg) == 0)%Q).
  { intros E. apply Hh. by apply (proj1 (inject_Z_injective _ 0)). }
  destruct (adapt_to_config cfg) as [out r] eqn:E.
  unfold adapt_to_config, Parameters_init, print, emit, lift, mbind,
    io_bind, mret, io_ret in E.
  cbv beta iota zeta in E. fold layer_width desired in E.
  rewrite (py_truediv_nonzero _ _ Hlw) in E. cbv beta iota zeta in E.
  rewrite (py_truediv_nonzero _ _ Hlh) in E. cbv beta iota zeta in E.
  rewrite (py_truediv_nonzero 100
             (inject_Z (image_height defaults * image_width defaults))) in E
    by discriminate.
  cbv beta iota zeta in E.
  match type of E with
  | context [Qltb ?e (by_foam_pores _)] => set (ef := e) in E
  end.
  match type of E with
  | context [Qltb (total _) ?e] => set (et := e) in E
  end.
  assert (Hef : (ef == 9800 / (layer_width * inject_Z (layer_height cfg)))%Q).
  { subst ef. simpl mean_diameter_of_foam_pores.
    simpl mean_foam_pores_per_track. simpl image_height. simpl image_width.
    change (inject_Z (1024 * 1360)) with (1392640 # 1)%Q.
    change (inject_Z (5 * 5)) with 25%Q. change (inject_Z 8) with 8%Q.
    change (inject_Z 1024) with 1024%Q. change (inject_Z 1360) with 1360%Q.
    field. split; assumption. }
  assert (Het : (et == ef + 36)%Q).
  { subst et. simpl image_height. simpl image_width.
    change (inject_Z (1024 * 1360)) with (1392640 # 1)%Q.
    change (inject_Z 1024) with 1024%Q. change (inject_Z 1360) with 1360%Q.
    field. split; assumption. }
  exists et, ef.
  destruct (Qltb ef (by_foam_pores desired)) eqn:E1; cbv beta iota zeta in E;
    [destruct (Qltb 5 (by_foam_pores desired - ef)) eqn:E2
    | destruct (Qltb 5 (ef - by_foam_pores desired)) eqn:E2];
    cbv beta iota zeta in E;
    destruct (Qltb (total desired) et) eqn:E3; cbv beta iota zeta in E;
    injection E as <- <-; eexists _, _;
    (split; [reflexivity |]); (split; [exact Hef |]); (split; [exact Het |]);
    repeat split.
Qed.

Lemma adapt_to_config_estimates_and_choices_witness :
  exists est_total est_foam rest params,
    adapt_to_config sample_user_config
    = (Print "Initialzed Parameters"
       :: PrintFmt
            "I estimated these porosities to update the initial default parameters: total: {:.2f}, foam: {:.2f}"
            [est_total; est_foam]
       :: rest, Ok params)
    /\ (est_foam == 49 # 10)%Q
    /\ (est_total == 409 # 10)%Q
    /\ mean_diameter_of_foam_pores params = 9
    /\ mean_foam_pores_per_track params = 9
    /\ track_mean_width params = 40%Q
    /\ track_mean_height params = 32%Q.
Proof.
  destruct (adapt_to_config_estimates_and_choices sample_user_config)
    as (et & ef & rest & params & Hrun & Hef & Het & _ & _ & Hknobs & Hw & Hh).
  - discriminate.
  - vm_compute. discriminate.
  - exists et, ef, rest, params. split; [exact Hrun |].
    vm_compute in Hrun. injection Hrun as <- <- <- <-.
    repeat split; reflexivity.
Defined.

(** ** Saving and loading back *)

(** X11. [save_files] on a callable rule writes the image, then the
    configuration: the directory is created only when it is missing; both
    file names carry the same drawn number between 1 and 100, padded to
    three digits; the document holds the user configuration, the
    parameters with the name of the rule, and the measured porosities. *)
Theorem save_files_writes_a_numbered_pair (be : backend) (fs : filesystem)
    (img : ndarray) (actual : Porosities) (cfg : UserConfig)
    (st : run_state) (f : porosity_rule) :
  porosity_function (the_parameters st) = Callable f ->
  exists st' no msgs,
    save_files be fs img actual cfg st = (st', Ok tt)
    /\ 1 <= no <= 100
    /\ emitted st'
       = emitted st
         ++ (if path_is_dir fs (output_folder cfg) then []
             else [Mkdir (output_folder cfg)])
         ++ msgs
    /\ List.filter is_persistence msgs
       = [Imwrite (image_file_name cfg no actual) img;
          JsonDump (config_file_name cfg no)
            (dumped_config (fn_name f) (the_parameters st) actual cfg)].
Proof.
  intros Hf.
  pose proof (Z.mod_pos_bound (int_draws (the_random st)
                                 (position (the_random st))) 100 ltac:(lia))
    as Hno.
  unfold save_files.
  unfold mbind, prog_bind, log, draw, get_parameters, put_parameters, mret,
    prog_ret, random_randint.
  destruct (path_is_dir fs (output_folder cfg)); simpl; rewrite Hf; simpl;
    eexists _, (1 + int_draws (the_random st) (position (the_random st))
                    `mod` 100), _;
    (split; [reflexivity |]); (split; [lia |]);
    (split; [rewrite <- ?app_assoc; simpl; reflexivity |]);
    reflexivity.
Qed.

Lemma save_files_writes_a_numbered_pair_witness :
  exists st' msgs,
    save_files sample_backend
      (sample_fs (sample_document "calculate_porosity_w_mean"))
      (mkArray 2 2 [211; 211; 76; 76]) (mkPorosities 50 25 (Some 25%Q))
      matching_user_config sample_state = (st', Ok tt)
    /\ emitted st' = msgs
    /\ List.filter is_persistence msgs
       = [Imwrite "output/img100_50_25.png" (mkArray 2 2 [211; 211; 76; 76]);
          JsonDump "output/config_100.json"
            (dumped_config "calculate_porosity_w_mean" defaults
               (mkPorosities 50 25 (Some 25%Q)) matching_user_config)].
Proof.
  destruct (save_files_writes_a_numbered_pair sample_backend
              (sample_fs (sample_document "calculate_porosity_w_mean"))
              (mkArray 2 2 [211; 211; 76; 76]) (mkPorosities 50 25 (Some 25%Q))
              matching_user_config sample_state fn_calculate_porosity_w_mean
              eq_refl) as (st' & no & msgs & Hrun & Hno & Hout & Hfiles).
  exists st', (emitted st'). split; [exact Hrun |]. split; [reflexivity |].
  vm_compute in Hrun. injection Hrun as <-. reflexivity.
Defined.

Lemma complete_output_directory_nonempty (s : string) :
  s <> "" -> complete_output_directory s = Ok (s +:+ "\").
Proof.
  intros Hs. destruct (str_last_nonempty s Hs) as [c Hc].
  unfold complete_output_directory. rewrite Hc, result_Ok_bind.
  by rewrite suffix_condition_true.
Qed.

(** X12. Loading back the parameters that [save_files] dumped restores the
    numeric dataclass fields, and nothing else: the rule comes back as the
    mean rule whichever rule was saved, the name dumped for the
    median-plus-one rule being reported as unsupported, and the diameter
    variation of the foam pores, which is not dumped, comes back as 1. *)
Theorem dumped_parameters_load_back (fs : filesystem) (filename : string)
    (f : porosity_rule) (p : Parameters) (actual : Porosities)
    (cfg : UserConfig) :
  json_load fs filename = Ok (dumped_config (fn_name f) p actual cfg) ->
  exists out params,
    parameters.load_from_file fs filename = (out, Ok params)
    /\ same_dumped_fields p params
    /\ porosity_function params = Callable fn_calculate_porosity_w_mean
    /\ foam_pore_variation_of_diameter params = 1%Q
    /\ List.filter (fun e => match e with PrintRed _ => true | _ => false end)
         out
       = match f with
         | fn_calculate_porosity_w_mean => []
         | fn_calculate_porosity_w_median_plus_1 =>
             [PrintRed
                "The given porosity function is not supported in this loading process"]
         end.
Proof.
  intros Hload. unfold parameters.load_from_file. rewrite Hload.
  destruct p, actual, cfg.
  destruct f; eexists _, _;
    (split; [vm_compute; reflexivity |]); repeat split.
Qed.

Lemma dumped_parameters_load_back_witness :
  exists out params,
    parameters.load_from_file
      (sample_fs (sample_document "calculate_porosity_w_median_plus_1"))
      "config.json" = (out, Ok params)
    /\ same_dumped_fields defaults params
    /\ porosity_function params = Callable fn_calculate_porosity_w_mean
    /\ foam_pore_variation_of_diameter params = 1%Q.
Proof.
  destruct (dumped_parameters_load_back
              (sample_fs (sample_document "calculate_porosity_w_median_plus_1"))
              "config.json" fn_calculate_porosity_w_median_plus_1 defaults
              (mkPorosities 50 10 (Some 40%Q)) sample_user_config eq_refl)
    as (out & params & Hrun & Hsame & Hf & Hv & _).
  by exists out, params.
Defined.

(** The presence checks of [UserConfig.load_from_file] pass on a dumped
    document, and the reads that follow find what was dumped. *)
Lemma dumped_user_config_is_complete (name : string) (p : Parameters)
    (actual : Porosities) (cfg : UserConfig) :
  (if negb (contains (dumped_config name p actual cfg) "user_config") then
     _ ← print_red_terminal_message
           "Error! No user_config parameter dict found in specified config file!";
     raise RuntimeError
   else
     user_config_dict ←
       lift (v ← getitem (dumped_config name p actual cfg) "user_config";
             as_dict v);
     param ←
       for_in needed_params
         (fun param =>
            if negb (contains user_config_dict param) then
              _ ← print_red_terminal_message
                    ("Error! Parameter " +:+ param
                     +:+ " was not specified in specified config file!");
              raise RuntimeError
            else mret tt)
         None;
     _ ← for_in needed_porosity_params
           (fun p_param =>
              desired ←
                lift (v ← getitem user_config_dict "desired_porosities";
                      as_dict v);
              if negb (contains desired p_param) then
                param ← bound_var "param" param;
                _ ← print_red_terminal_message
                      ("Error! Parameter " +:+ param
                       +:+ " was not specified in desired porosities dict of specified config file");
                raise RuntimeError
              else mret tt)
           None;
     mret user_config_dict)
  = ([], Ok (asdict_user_config cfg)).
Proof.
  destruct p, actual, cfg as [lh ratio [t bf bt] folder].
  vm_compute. reflexivity.
Qed.

Lemma dumped_user_config_reads (cfg : UserConfig) :
  let d := asdict_user_config cfg in
  (getitem d "layer_height" ≫= as_int) = Ok (layer_height cfg)
  /\ (getitem d "layer_width_to_layer_height_ratio" ≫= as_float)
     = Ok (layer_width_to_layer_height_ratio cfg)
  /\ (getitem d "output_folder" ≫= as_str) = Ok (output_folder cfg)
  /\ (getitem d "desired_porosities" ≫= as_dict)
     = Ok (asdict_porosities (desired_porosities cfg))
  /\ (getitem (asdict_porosities (desired_porosities cfg)) "total"
      ≫= as_float) = Ok (total (desired_porosities cfg))
  /\ (getitem (asdict_porosities (desired_porosities cfg)) "by_foam_pores"
      ≫= as_float) = Ok (by_foam_pores (desired_porosities cfg)).
Proof.
  destruct cfg as [lh ratio [t bf bt] folder]. repeat split.
Qed.

(** X13. Loading back the user configuration that [save_files] dumped,
    with no output directory given, restores the layer height, the ratio
    and the two desired porosities; the stored folder is the saved one with
    a backslash appended, and [by_tracks] is unset. *)
Theorem dumped_user_config_loads_back (fs : filesystem) (filename : string)
    (name : string) (p : Parameters) (actual : Porosities)
    (cfg : UserConfig) :
  path_is_file fs filename = true ->
  path_suffix fs filename = ".json" ->
  json_load fs filename = Ok (dumped_config name p actual cfg) ->
  output_folder cfg <> "" ->
  user_config.load_from_file fs filename None
  = ([Print ("Loaded UserConfig from  " +:+ filename)],
     Ok {| layer_height := layer_height cfg;
           layer_width_to_layer_height_ratio :=
             layer_width_to_layer_height_ratio cfg;
           desired_porosities :=
             Porosities_init (total (desired_porosities cfg))
               (by_foam_pores (desired_porosities cfg));
           output_folder := output_folder cfg +:+ "\" |}).
Proof.
  intros Hfile Hsuffix Hload Hfolder.
  pose proof (complete_output_directory_nonempty _ Hfolder) as Hdir.
  destruct (dumped_user_config_reads cfg) as (Rh & Rr & Rf & Rd & Rt & Rb).
  cut (exists out,
         user_config.load_from_file fs filename None
         = (out,
            Ok {| layer_height := layer_height cfg;
                  layer_width_to_layer_height_ratio :=
                    layer_width_to_layer_height_ratio cfg;
                  desired_porosities :=
                    Porosities_init (total (desired_porosities cfg))
                      (by_foam_pores (desired_porosities cfg));
                  output_folder := output_folder cfg +:+ "\" |})
         /\ out = [Print ("Loaded UserConfig from  " +:+ filename)]).
  { by intros (out & -> & ->). }
  eexists. split.
  - unfold user_config.load_from_file. rewrite Hfile, Hsuffix.
    eapply io_bind_intro; [reflexivity | cbv beta].
    eapply io_bind_intro; [reflexivity | cbv beta].
    rewrite Hload.
    eapply io_bind_intro; [reflexivity | cbv beta].
    eapply io_bind_intro;
      [apply dumped_user_config_is_complete | cbv beta].
    eapply io_bind_intro;
      [exact (f_equal (fun r => ([], r)) Rh) | cbv beta].
    eapply io_bind_intro;
      [exact (f_equal (fun r => ([], r)) Rr) | cbv beta].
    eapply io_bind_intro;
      [exact (f_equal (fun r => ([], r)) Rf) | cbv beta].
    eapply io_bind_intro;
      [exact (f_equal (fun r => ([], r)) Hdir) | cbv beta].
    eapply io_bind_intro;
      [exact (f_equal (fun r => ([], r)) Rd) | cbv beta].
    eapply io_bind_intro;
      [exact (f_equal (fun r => ([], r)) Rt) | cbv beta].
    eapply io_bind_intro;
      [exact (f_equal (fun r => ([], r)) Rb) | cbv beta].
    eapply io_bind_intro; [reflexivity | cbv beta].
    reflexivity.
  - reflexivity.
Qed.

Lemma dumped_user_config_loads_back_witness :
  user_config.load_from_file
    (sample_fs (sample_document "calculate_porosity_w_mean")) "config.json"
    None
  = ([Print "Loaded UserConfig from  config.json"],
     Ok {| layer_height := 40;
           layer_width_to_layer_height_ratio := 5 # 4;
           desired_porosities := Porosities_init 50 10;
           output_folder := "output\" |}).
Proof.
  apply (dumped_user_config_loads_back
           (sample_fs (sample_document "calculate_porosity_w_mean"))
           "config.json" "calculate_porosity_w_mean" defaults
           (mkPorosities 50 10 (Some 40%Q)) sample_user_config);
    [reflexivity | reflexivity | reflexivity | discriminate].
Defined.

(** ** What a run measures, keeps and cannot reach *)

Lemma fn_call_Ok (f : porosity_rule) (buf : list Z) (q : Q) :
  fn_call f buf = Ok q -> buf <> [].
Proof. intros H ->. by destruct f. Qed.

Lemma fn_call_range (f : porosity_rule) (buf : list Z) (q : Q) :
  fn_call f buf = Ok q -> (0 <= q <= 100)%Q.
Proof.
  intros H. pose proof (fn_call_Ok f buf q H) as Hne.
  destruct f; simpl in H;
    unfold calculate_porosity_w_mean, calculate_porosity_w_median_plus_1,
      calculate_porosity_w_threshold in H;
    match type of H with
    | calculate_porostiy ?c buf = _ =>
        destruct (calculate_porostiy_range c buf Hne (pixels_below_bounds _ _))
          as (q' & Hq & _ & Hrange)
    end;
    rewrite Hq in H; by injection H as <-.
Qed.

(** What a pass that gets through rendering and measuring has measured. *)
Lemma render_and_measure_measured (be : backend) (cfg : UserConfig)
    (actual : Porosities) (st st' : run_state) (img : ndarray)
    (p : Porosities) :
  render_and_measure be cfg actual st = (st', Ok (img, p)) ->
  exists f tracks_only bt,
    porosity_function (the_parameters st) = Callable f
    /\ fn_call f (data tracks_only) = Ok bt
    /\ fn_call f (data img) = Ok (total p)
    /\ by_tracks p = Some bt
    /\ by_foam_pores p = (total p - bt)%Q.
Proof.
  intros H. unfold render_and_measure in H.
  apply prog_bind_Ok in H. destruct H as (st1 & params & Hget & H).
  injection Hget as <- <-.
  apply prog_bind_Ok in H. destruct H as (st1 & [tracks pores] & Hdraw & H).
  apply prog_bind_Ok in H. destruct H as (st2 & img1 & Hb1 & H).
  injection Hb1 as <- Hb1.
  apply prog_bind_Ok in H. destruct H as (st2 & bt & Hc1 & H).
  injection Hc1 as <- Hc1.
  apply prog_bind_Ok in H. destruct H as (st2 & img2 & Hb2 & H).
  injection Hb2 as <- Hb2.
  apply prog_bind_Ok in H. destruct H as (st2 & t & Hc2 & H).
  injection Hc2 as <- Hc2.
  injection H as <- <- <-.
  unfold call_porosity_function in Hc1, Hc2.
  destruct (porosity_function (the_parameters st)) as [f | name] eqn:Ef;
    [| done].
  exists f, img1, bt. by repeat split.
Qed.

Lemma generate_image_pass_measured (be : backend) (fs : filesystem)
    (cfg : UserConfig) (save : bool) (actual : Porosities)
    (st st' : run_state) (returned : bool) (p : Porosities) :
  generate_image_pass be fs cfg save actual st = (st', Ok (returned, p)) ->
  exists f tracks_only img bt,
    porosity_function (the_parameters st) = Callable f
    /\ fn_call f (data tracks_only) = Ok bt
    /\ fn_call f (data img) = Ok (total p)
    /\ by_tracks p = Some bt
    /\ by_foam_pores p = (total p - bt)%Q.
Proof.
  intros H. unfold generate_image_pass in H.
  apply prog_bind_Ok in H. destruct H as (st1 & [img q] & Hm & H).
  pose proof Hm as Hm'. apply render_and_measure_Ok in Hm'.
  destruct Hm' as (Hp & f0 & Hf0).
  apply render_and_measure_measured in Hm.
  destruct Hm as (f & img1 & bt & Hf & Hbt & Ht & Hby & Hfoam).
  rewrite <- Hp in Hf0.
  destruct (accept_or_adapt_callable be fs cfg save img q st1 f0 Hf0)
    as (st2 & b & Ha & _).
  rewrite Ha in H. injection H as <- <- <-.
  by exists f, img1, img, bt.
Qed.

Lemma generate_image_loop_measured (fuel : nat) (be : backend)
    (fs : filesystem) (cfg : UserConfig) (save : bool) (actual : Porosities)
    (st st' : run_state) (p : Porosities) :
  generate_image_loop fuel be fs cfg save actual st = (st', Ok (Some p)) ->
  exists bt,
    by_tracks p = Some bt
    /\ by_foam_pores p = (total p - bt)%Q
    /\ (0 <= total p <= 100)%Q
    /\ (0 <= bt <= 100)%Q.
Proof.
  revert actual st. induction fuel as [| fuel IH]; intros actual st H;
    simpl in H; [done |].
  apply prog_bind_Ok in H. destruct H as (st1 & [returned q] & Hpass & H).
  destruct returned; [| by apply IH in H].
  injection H as <- <-.
  apply generate_image_pass_measured in Hpass.
  destruct Hpass as (f & img1 & img & bt & _ & Hbt & Ht & Hby & Hfoam).
  exists bt. split; [exact Hby |]. split; [exact Hfoam |].
  split; eapply fn_call_range; eassumption.
Qed.

(** X14. The porosities a run returns are measured ones: the track share
    is set, the foam-pore share is the total minus the track share, and the
    total and the track share are percentages. *)
Theorem returned_porosities_are_measured (fuel : nat) (be : backend)
    (fs : filesystem) (cfg : UserConfig) (save : bool)
    (st st' : run_state) (p : Porosities) :
  generate_image fuel be fs cfg save st = (st', Ok (Some p)) ->
  exists by_tracks',
    by_tracks p = Some by_tracks'
    /\ by_foam_pores p = (total p - by_tracks')%Q
    /\ (0 <= total p <= 100)%Q
    /\ (0 <= by_tracks' <= 100)%Q.
Proof. apply generate_image_loop_measured. Qed.

Lemma returned_porosities_are_measured_witness :
  exists st' p by_tracks',
    generate_image 1 sample_backend
      (sample_fs (sample_document "calculate_porosity_w_mean"))
      matching_user_config false sample_state = (st', Ok (Some p))
    /\ by_tracks p = Some by_tracks'
    /\ by_foam_pores p = (total p - by_tracks')%Q
    /\ (0 <= total p <= 100)%Q
    /\ (0 <= by_tracks' <= 100)%Q.
Proof.
  destruct (generate_image 1 sample_backend
              (sample_fs (sample_document "calculate_porosity_w_mean"))
              matching_user_config false sample_state)
    as [st' [[p |] | e]] eqn:E.
  - destruct (returned_porosities_are_measured _ _ _ _ _ _ _ _ E)
      as (bt & H).
    exists st', p, bt. split; [reflexivity | exact H].
  - vm_compute in E. discriminate.
  - vm_compute in E. discriminate.
Defined.


Lemma quiet_step_refl (st : run_state) : quiet_step st st.
Proof.
  split; [exists []; by rewrite app_nil_r | apply same_settings_refl].
Qed.

Lemma quiet_step_trans (st1 st2 st3 : run_state) :
  quiet_step st1 st2 -> quiet_step st2 st3 -> quiet_step st1 st3.
Proof.
  intros [(m1 & E1 & F1) S1] [(m2 & E2 & F2) S2]. split.
  - exists (m1 ++ m2). rewrite E2, E1, app_assoc. split; [done |].
    by rewrite List.filter_app, F1, F2.
  - by eapply same_settings_trans.
Qed.

Lemma prog_bind_quiet {A B : Type} (m : prog A) (k : A -> prog B) :
  (forall st, quiet_step st (m st).1) ->
  (forall a st, quiet_step st (k a st).1) ->
  forall st, quiet_step st ((m ≫= k) st).1.
Proof.
  intros Hm Hk st. unfold mbind, prog_bind. specialize (Hm st).
  destruct (m st) as [st1 [a | e]]; [| exact Hm].
  eapply quiet_step_trans; [exact Hm | apply Hk].
Qed.

Lemma draw_quiet {A : Type}
    (f : random_source -> result (A * random_source)) (st : run_state) :
  quiet_step st (draw f st).1.
Proof.
  unfold draw. destruct (f (the_random st)) as [[a rs] | e]; simpl;
    [| apply quiet_step_refl].
  split; [exists []; by rewrite app_nil_r | apply same_settings_refl].
Qed.

Lemma log_quiet (e : event) (st : run_state) :
  is_persistence e = false -> quiet_step st (log e st).1.
Proof.
  intros He. split; [| apply same_settings_refl].
  exists [e]. split; [done |]. simpl. by rewrite He.
Qed.

Lemma put_parameters_quiet (p : Parameters) (st : run_state) :
  same_settings (the_parameters st) p ->
  quiet_step st (put_parameters p st).1.
Proof.
  intros Hp. split; [exists []; by rewrite app_nil_r | exact Hp].
Qed.

Lemma render_and_measure_quiet (be : backend) (cfg : UserConfig)
    (actual : Porosities) (st : run_state) :
  quiet_step st (render_and_measure be cfg actual st).1.
Proof.
  revert st. unfold render_and_measure.
  apply prog_bind_quiet; [intros st; apply quiet_step_refl |].
  intros parameters. cbv zeta.
  apply prog_bind_quiet; [intros st; apply draw_quiet |].
  intros [tracks pores].
  apply prog_bind_quiet; [intros st; apply quiet_step_refl |]. intros img1.
  apply prog_bind_quiet; [intros st; apply quiet_step_refl |]. intros bt.
  apply prog_bind_quiet; [intros st; apply quiet_step_refl |]. intros img2.
  apply prog_bind_quiet; [intros st; apply quiet_step_refl |]. intros t.
  intros st. apply quiet_step_refl.
Qed.

Lemma accept_or_adapt_quiet (be : backend) (fs : filesystem)
    (cfg : UserConfig) (img : ndarray) (p : Porosities) (st : run_state) :
  quiet_step st (accept_or_adapt be fs cfg false img p st).1.
Proof.
  unfold accept_or_adapt.
  unfold mbind, prog_bind, get_parameters, put_parameters, log, mret,
    prog_ret.
  cbv zeta. destruct (_ && _); simpl; [apply quiet_step_refl |].
  split.
  - eexists [_]. split; [reflexivity | reflexivity].
  - simpl. apply adapt_parameters_same_settings.
Qed.

Lemma generate_image_loop_quiet (fuel : nat) (be : backend)
    (fs : filesystem) (cfg : UserConfig) (actual : Porosities)
    (st : run_state) :
  quiet_step st (generate_image_loop fuel be fs cfg false actual st).1.
Proof.
  revert actual st. induction fuel as [| fuel IH]; intros actual st;
    [apply quiet_step_refl |].
  simpl. revert st. apply prog_bind_quiet.
  - intros st. unfold generate_image_pass. revert st.
    apply prog_bind_quiet; [intros st; apply render_and_measure_quiet |].
    intros [img q] st. apply accept_or_adapt_quiet.
  - intros [returned q] st. destruct returned; [apply quiet_step_refl |].
    apply IH.
Qed.

(** X15. A run with [save=False] writes nothing, whatever its outcome: it
    creates no directory, writes no image and dumps no configuration; and
    it leaves the canvas, the margins, the threshold, the porosity rule,
    the offsets and the variation ratios of the caller's parameters as they
    were, so that the object can be used for the next run. *)
Theorem run_without_saving_writes_nothing (fuel : nat) (be : backend)
    (fs : filesystem) (cfg : UserConfig) (st : run_state) :
  let st' := (generate_image fuel be fs cfg false st).1 in
  (exists msgs, emitted st' = emitted st ++ msgs
                /\ List.filter is_persistence msgs = [])
  /\ same_settings (the_parameters st) (the_parameters st').
Proof. apply generate_image_loop_quiet. Qed.

Lemma generate_image_loop_rejecting (Inv : Parameters -> Prop)
    (cfg : UserConfig) :
  (forall p d a, Inv p -> Inv (adapt_parameters p d a)) ->
  (forall params f img q,
     Inv params -> porosity_function params = Callable f ->
     fn_call f (data img) = Ok (total q) ->
     ~ within_margins cfg params q) ->
  forall fuel be fs save actual st st' p,
    Inv (the_parameters st) ->
    generate_image_loop fuel be fs cfg save actual st <> (st', Ok (Some p)).
Proof.
  intros Hstep Hreject fuel be fs save.
  induction fuel as [| fuel IH]; intros actual st st' p Hinv H;
    simpl in H; [done |].
  apply prog_bind_Ok in H. destruct H as (st1 & [returned q] & Hpass & H).
  pose proof Hpass as Hm. apply generate_image_pass_measured in Hm.
  destruct Hm as (f & img1 & img & bt & Hf & _ & Ht & _).
  apply generate_image_pass_Ok in Hpass.
  destruct Hpass as (Hret & f' & _ & Hp).
  destruct returned.
  - apply (Hreject (the_parameters st) f img q Hinv Hf Ht). by apply Hret.
  - apply (IH q st1 st' p); [| exact H]. rewrite Hp. by apply Hstep.
Qed.

Lemma median_rule_at_least_half (buf : list Z) (q : Q) :
  calculate_porosity_w_median_plus_1 buf = Ok q -> (50 <= q)%Q.
Proof.
  intros H.
  assert (Hne : buf <> []) by (intros ->; done).
  destruct (calculate_porosity_w_median_plus_1_range buf Hne)
    as (q' & Hq & Hrange & _).
  rewrite Hq in H. by injection H as <-.
Qed.

(** X16. Under the median-plus-one rule a run cannot reach a total porosity
    below 50: when the desired total porosity plus its margin is below 50,
    no number of passes ends in [return]. *)
Theorem median_rule_run_never_returns_below_half (fuel : nat) (be : backend)
    (fs : filesystem) (cfg : UserConfig) (save : bool) (st st' : run_state)
    (p : Porosities) :
  porosity_function (the_parameters st)
  = Callable fn_calculate_porosity_w_median_plus_1 ->
  (total (desired_porosities cfg) + total_porosity_margin (the_parameters st)
   < 50)%Q ->
  generate_image fuel be fs cfg save st <> (st', Ok (Some p)).
Proof.
  intros Hf Hlow. unfold generate_image.
  apply (generate_image_loop_rejecting
           (fun params =>
              porosity_function params
              = Callable fn_calculate_porosity_w_median_plus_1
              /\ total_porosity_margin params
                 = total_porosity_margin (the_parameters st))).
  - intros params d a [Hrule Hmargin].
    destruct (adapt_parameters_same_settings params d a)
      as (_ & _ & Hm & _ & _ & Hr & _).
    split; congruence.
  - intros params f img q [Hrule Hmargin] Hcall Hq [Htotal _].
    rewrite Hrule in Hcall. injection Hcall as <-.
    apply median_rule_at_least_half in Hq.
    rewrite Hmargin in Htotal. apply Qabs_Qle_condition in Htotal. lra.
  - done.
Qed.

Lemma median_rule_run_never_returns_below_half_witness :
  let st := mkState (set_porosity_function
                       (Callable fn_calculate_porosity_w_median_plus_1)
                       defaults) sample_random [] in
  let cfg := mkUserConfig 400 (5 # 4) (Porosities_init 30 10) "output" in
  forall st' p,
    generate_image 3 sample_backend
      (sample_fs (sample_document "calculate_porosity_w_mean")) cfg false st
    <> (st', Ok (Some p)).
Proof.
  intros st cfg st' p.
  apply (median_rule_run_never_returns_below_half 3 sample_backend
           (sample_fs (sample_document "calculate_porosity_w_mean")) cfg
           false st st' p); [reflexivity | by vm_compute].
Defined.

(** X17. With a negative margin no image is accepted: a run whose total
    margin or foam-pore margin is negative never ends in [return]. *)
Theorem negative_margin_run_never_returns (fuel : nat) (be : backend)
    (fs : filesystem) (cfg : UserConfig) (save : bool) (st st' : run_state)
    (p : Porosities) :
  (total_porosity_margin (the_parameters st) < 0)%Q
  \/ (porosity_foam_pore_margin (the_parameters st) < 0)%Q ->
  generate_image fuel be fs cfg save st <> (st', Ok (Some p)).
Proof.
  intros Hneg. unfold generate_image.
  apply (generate_image_loop_rejecting
           (fun params =>
              total_porosity_margin params
              = total_porosity_margin (the_parameters st)
              /\ porosity_foam_pore_margin params
                 = porosity_foam_pore_margin (the_parameters st))).
  - intros params d a [Ht Hfm].
    destruct (adapt_parameters_same_settings params d a)
      as (_ & _ & Hm & Hm' & _).
    split; congruence.
  - intros params f img q [Ht Hfm] _ _ [Htotal Hfoam].
    rewrite Ht in Htotal. rewrite Hfm in Hfoam.
    pose proof (Qabs_nonneg (total q - total (desired_porosities cfg))).
    pose proof (Qabs_nonneg (by_foam_pores q
                             - by_foam_pores (desired_porosities cfg))).
    destruct Hneg; lra.
  - done.
Qed.

Lemma negative_margin_run_never_returns_witness :
  let st := mkState (set_total_porosity_margin (-1) defaults)
              sample_random [] in
  forall st' p,
    generate_image 3 sample_backend
      (sample_fs (sample_document "calculate_porosity_w_mean"))
      matching_user_config false st
    <> (st', Ok (Some p)).
Proof.
  intros st st' p.
  apply (negative_margin_run_never_returns 3 sample_backend
           (sample_fs (sample_document "calculate_porosity_w_mean"))
           matching_user_config false st st' p).
  left. reflexivity.
Defined.

(** ** Border correction leaves the picture alone *)

Lemma border_correction_pixel_keeps (img0 img : ndarray) (xi yi : Z) :
  same_shape img0 img -> keeps_nonzero_pixels img0 img ->
  0 <= xi < Z.of_nat (shape0 img0) -> 0 <= yi < Z.of_nat (shape1 img0) ->
  exists img', border_correction_pixel (Z.of_nat (shape0 img0))
                 (Z.of_nat (shape1 img0)) xi yi img = Ok img'
               /\ same_shape img0 img' /\ keeps_nonzero_pixels img0 img'.
Proof.
  intros Hshape [Hkeep Hfrom] Hx Hy.
  destruct (border_correction_pixel_total img0 img xi yi Hshape Hx Hy)
    as (img' & Hrun & Hshape').
  exists img'. split; [exact Hrun |]. split; [exact Hshape' |].
  destruct Hshape as (H0 & H1 & Hwf).
  unfold border_correction_pixel in Hrun.
  destruct (array_get_in_range img xi yi Hwf) as (p & Hget & Hp);
    [lia | lia |].
  rewrite Hget in Hrun. simpl in Hrun.
  destruct (p =? 0) eqn:Ez; [| injection Hrun as <-; by split].
  apply Z.eqb_eq in Ez. subst p.
  destruct (array_get img _ _) as [v | e] eqn:Hv; [| done]. simpl in Hrun.
  unfold array_set in Hrun. rewrite H0, H1 in Hrun.
  rewrite (axis_index_in_range _ xi Hx), (axis_index_in_range _ yi Hy)
    in Hrun.
  simpl in Hrun. injection Hrun as <-. simpl.
  rewrite H1 in Hp.
  assert (Hv' : v ∈ data img).
  { unfold array_get in Hv.
    destruct (axis_index (shape0 img) _) as [r |]; [| done].
    destruct (axis_index (shape1 img) _) as [c |]; [| done].
    simpl in Hv. destruct (data img !! _) as [w |] eqn:Ew; [| done].
    injection Hv as ->. by eapply list_elem_of_lookup_2. }
  split.
  - intros i q Hi Hq.
    destruct (decide (i = (Z.to_nat xi * shape1 img0 + Z.to_nat yi)%nat))
      as [-> | Hne].
    + specialize (Hkeep _ _ Hi Hq). congruence.
    + cbn [data]. rewrite list_lookup_insert_ne by congruence.
      by apply Hkeep.
  - cbn [data]. intros w Hw. apply list_elem_of_lookup in Hw.
    destruct Hw as [i Hi].
    destruct (decide (i = (Z.to_nat xi * shape1 img0 + Z.to_nat yi)%nat))
      as [-> | Hne].
    + apply list_lookup_insert_Some in Hi.
      destruct Hi as [(_ & <- & _) | (Hne & _)]; [by apply Hfrom | done].
    + rewrite list_lookup_insert_ne in Hi by congruence.
      apply Hfrom. by eapply list_elem_of_lookup_2.
Qed.

Lemma border_correction_keeps (img : ndarray) :
  wf_image img ->
  exists corrected,
    border_correction img = Ok corrected
    /\ same_shape img corrected
    /\ keeps_nonzero_pixels img corrected.
Proof.
  intros Hwf. unfold border_correction.
  pose (P := fun t => same_shape img t /\ keeps_nonzero_pixels img t).
  assert (H0 : P img).
  { split; [by repeat split |]. split; [by intros | done]. }
  destruct (for_state_invariant P (seqZ 0 (Z.of_nat (shape0 img)))
              (fun xi t =>
                 for_state (seqZ 0 (Z.of_nat (shape1 img)))
                   (fun yi u =>
                      border_correction_pixel (Z.of_nat (shape0 img))
                        (Z.of_nat (shape1 img)) xi yi u) t) img H0)
    as (c & Hc & Hs & Hk).
  - intros xi t Hxi Ht. apply elem_of_seqZ in Hxi.
    apply (for_state_invariant P); [done |].
    intros yi u Hyi [Hu Hu']. apply elem_of_seqZ in Hyi.
    destruct (border_correction_pixel_keeps img u xi yi Hu Hu')
      as (u' & ? & ? & ?); [lia | lia |].
    exists u'. split; [assumption | split; assumption].
  - exists c. split; [exact Hc | split; assumption].
Qed.

(** X18. [border_correction] returns a buffer of the shape it was given, in
    which every pixel that was not 0 has kept its value and every value is
    one the buffer held before: only pixels of value 0 are overwritten, by
    values copied from the buffer. *)
Theorem border_correction_keeps_nonzero_pixels (img : ndarray) :
  wf_image img ->
  exists corrected,
    border_correction img = Ok corrected
    /\ same_shape img corrected
    /\ keeps_nonzero_pixels img corrected.
Proof. apply border_correction_keeps. Qed.

Lemma border_correction_keeps_nonzero_pixels_witness :
  let img := mkArray 3 3 [0; 0; 0;  0; 200; 210;  0; 220; 230] in
  wf_image img
  /\ exists corrected,
       border_correction img = Ok corrected
       /\ same_shape img corrected
       /\ keeps_nonzero_pixels img corrected.
Proof.
  intros img. split; [reflexivity |].
  apply (border_correction_keeps_nonzero_pixels img). reflexivity.
Defined.

(** ** Scenes that can be generated *)

Lemma np_round_cases (x : Q) :
  (np_round x = Qfloor x /\ (x - inject_Z (Qfloor x) <= 1 # 2)%Q)
  \/ (np_round x = Qfloor x + 1 /\ (1 # 2 <= x - inject_Z (Qfloor x))%Q).
Proof.
  unfold np_round. cbv zeta.
  destruct (Qltb (x - inject_Z (Qfloor x)) (1 # 2)) eqn:E1.
  - left. apply Qltb_lt in E1. split; [done | lra].
  - apply Qltb_ge in E1.
    destruct (Qltb (1 # 2) (x - inject_Z (Qfloor x))) eqn:E2;
      [right; by split |].
    apply Qltb_ge in E2.
    destruct (Z.even (Qfloor x)); [left | right]; split; done || lra.
Qed.

(** Rounding stays within integral bounds. *)
Lemma np_round_between (low high : Z) (x : Q) :
  (inject_Z low <= x <= inject_Z high)%Q -> low <= np_round x <= high.
Proof.
  intros [Hl Hh].
  pose proof (Qfloor_le x) as Hf. pose proof (Qlt_floor x) as Hf'.
  assert (Hlow : low <= Qfloor x).
  { destruct (Z_lt_le_dec (Qfloor x) low) as [Hlt | ?]; [| done].
    assert (Hle : Qfloor x + 1 <= low) by lia.
    rewrite Zle_Qle in Hle. lra. }
  assert (Hhigh : Qfloor x <= high).
  { rewrite Zle_Qle. lra. }
  destruct (np_round_cases x) as [[-> _] | [-> Hr]]; [lia |].
  split; [lia |].
  destruct (Z_lt_le_dec high (Qfloor x + 1)) as [Hlt | ?]; [| done].
  assert (E : Qfloor x = high) by lia.
  rewrite E in Hr. lra.
Qed.

Lemma draw_random_normal_int_between (low high : Z) (rs : random_source) :
  low <= high ->
  exists z,
    draw_random_normal_int (inject_Z low) (inject_Z high) rs
    = (inject_Z z, advance rs)
    /\ low <= z <= high.
Proof.
  intros Hle. unfold draw_random_normal_int, np_random_normal. cbv zeta.
  set (n0 := normal_draws rs (position rs)).
  set (n1 := if Qltb n0 (-3) then (-3)%Q else n0).
  set (n2 := if Qltb 3 n1 then 3%Q else n1).
  assert (Hn : (-3 <= n2 <= 3)%Q).
  { subst n2 n1. destruct (Qltb n0 (-3)) eqn:E1.
    - destruct (Qltb 3 (-3)) eqn:E2; [by vm_compute in E2 | lra].
    - apply Qltb_ge in E1. destruct (Qltb 3 n0) eqn:E2; [lra |].
      apply Qltb_ge in E2. lra. }
  eexists. split; [reflexivity |].
  apply np_round_between. rewrite Zle_Qle in Hle.
  assert (E : (n2 * ((inject_Z high - inject_Z low) / 6)
               + (inject_Z low + (inject_Z high - inject_Z low) / 2)
               == inject_Z low
                  + (n2 + 3) * ((inject_Z high - inject_Z low) * (1 # 6)))%Q)
    by field.
  rewrite E.
  set (d := (inject_Z high - inject_Z low)%Q) in *.
  assert (Hd : (0 <= d)%Q) by (subst d; lra).
  assert (H1 : (0 <= (n2 + 3) * (d * (1 # 6)))%Q).
  { apply Qmult_le_0_compat; lra. }
  assert (H2 : ((n2 + 3) * (d * (1 # 6)) <= 6 * (d * (1 # 6)))%Q).
  { apply Qmult_le_compat_r; lra. }
  split; [lra |].
  assert (E6 : (6 * (d * (1 # 6)) == d)%Q) by field.
  subst d. lra.
Qed.

(** X19. For integral bounds [low <= high], [draw_random_normal_int]
    returns an integer between them, both included, and consumes one
    normal draw. *)
Theorem draw_random_normal_int_in_range (low high : Z)
    (rs : random_source) :
  low <= high ->
  exists z,
    draw_random_normal_int (inject_Z low) (inject_Z high) rs
    = (inject_Z z, advance rs)
    /\ low <= z <= high.
Proof. apply draw_random_normal_int_between. Qed.

Lemma draw_random_normal_int_in_range_witness :
  exists z,
    draw_random_normal_int (inject_Z 1) (inject_Z 9) sample_random
    = (inject_Z z, advance sample_random)
    /\ 1 <= z <= 9.
Proof. apply (draw_random_normal_int_in_range 1 9 sample_random). lia. Defined.

Lemma for_state_count {A St : Type} (P : nat -> St -> Prop) (l : list A)
    (body : A -> St -> result St) (s : St) (k : nat) :
  P k s ->
  (forall a j t, a ∈ l -> P j t -> exists t', body a t = Ok t' /\ P (S j) t') ->
  exists s', for_state l body s = Ok s' /\ P (k + length l)%nat s'.
Proof.
  revert s k. induction l as [| a l IH]; intros s k Hs Hbody; simpl.
  - exists s. by rewrite Nat.add_0_r.
  - destruct (Hbody a k s) as (t & -> & Ht); [left | done |]. simpl.
    destruct (IH t (S k) Ht) as (s' & Hrun & Hs').
    + intros b j u Hb Hu. apply Hbody; [by right | done].
    + exists s'. split; [done |].
      by replace (k + S (length l))%nat with (S k + length l)%nat by lia.
Qed.

Lemma BezierEllipse_init_fields (x0 y0 w h : Q) (c : color_tag)
    (rs : random_source) :
  let shape := (BezierEllipse_init x0 y0 w h c rs).1 in
  color shape = c /\ width shape = w /\ height shape = h
  /\ ellipse.x shape = x0 /\ ellipse.y shape = y0.
Proof.
  unfold BezierEllipse_init. cbv zeta.
  destruct (np_random_random _ rs) as [us rs']. by repeat split.
Qed.

Lemma generate_foam_pore_Ok (parameters : Parameters) (x y : Z)
    (tracks pores : list BezierEllipse) (rs : random_source) :
  exists pore rs',
    generate_foam_pore parameters x y (tracks, pores, rs)
    = Ok (tracks, pores ++ [pore], rs')
    /\ color pore = DARK_ELLIPSE_COLOR.
Proof.
  unfold generate_foam_pore. cbv zeta.
  repeat match goal with
         | |- context [let '(_, _) := ?t in _] =>
             lazymatch t with
             | BezierEllipse_init _ _ _ _ _ _ => fail
             | _ => destruct t
             end
         end.
  match goal with
  | |- context [BezierEllipse_init ?a ?b ?c ?d ?e ?f] =>
      pose proof (BezierEllipse_init_fields a b c d e f) as (Hc & _);
      destruct (BezierEllipse_init a b c d e f) as [pore rs']
  end.
  by exists pore, rs'.
Qed.

Lemma Qfloor_Qceiling_lt (a b : Q) : (a < b)%Q -> Qfloor a < Qceiling b.
Proof.
  intros Hab. pose proof (Qfloor_le a). pose proof (Qle_ceiling b).
  rewrite Zlt_Qlt. lra.
Qed.

Lemma randint_around (mean variation : Q) (rs : random_source) :
  (0 < mean * variation)%Q ->
  exists v,
    np_random_randint (Qfloor (mean - mean * variation))
      (Qceiling (mean + mean * variation)) rs = Ok (v, advance rs)
    /\ (mean - mean * variation - 1 < inject_Z v
        < mean + mean * variation + 1)%Q.
Proof.
  intros Hpos.
  pose proof (Qfloor_Qceiling_lt (mean - mean * variation)
                (mean + mean * variation) ltac:(lra)) as Hrange.
  destruct (np_random_randint_cases (Qfloor (mean - mean * variation))
              (Qceiling (mean + mean * variation)) rs)
    as [[Hge _] | (_ & w & [Hl Hh] & E)]; [lia |].
  exists w. split; [exact E |].
  pose proof (Qlt_floor (mean - mean * variation)) as Hf.
  pose proof (Qceiling_lt (mean + mean * variation)) as Hc.
  rewrite inject_Z_plus in Hf. change (inject_Z 1) with 1%Q in Hf.
  unfold Z.sub in Hc. rewrite inject_Z_plus in Hc.
  change (inject_Z (- (1))) with (-1)%Q in Hc.
  rewrite Zle_Qle in Hl. rewrite Zlt_Qlt in Hh. split; lra.
Qed.

(** One grid cell under non-empty draw ranges: one more track, and only
    dark pores, none when no foam-pore porosity is desired. *)
Lemma generate_cell_Ok (parameters : Parameters) (cfg : UserConfig)
    (x y : Z) (tracks pores : list BezierEllipse) (rs : random_source) :
  drawable parameters cfg ->
  exists track new_pores rs',
    generate_cell parameters cfg x y (tracks, pores, rs)
    = Ok (tracks ++ [track], pores ++ new_pores, rs')
    /\ is_track parameters track
    /\ Forall (fun pore => color pore = DARK_ELLIPSE_COLOR) new_pores
    /\ ((by_foam_pores (desired_porosities cfg) == 0)%Q -> new_pores = []).
Proof.
  intros (Hw & Hwv & Hh & Hhv & Hfoam). unfold generate_cell.
  assert (Hw' : (0 < track_mean_width parameters
                     * track_width_variation parameters)%Q)
    by (apply Qmult_lt_0_compat; assumption).
  assert (Hh' : (0 < track_mean_height parameters
                     * track_height_variation parameters)%Q)
    by (apply Qmult_lt_0_compat; assumption).
  cbv zeta.
  destruct (randint_around (track_mean_width parameters)
              (track_width_variation parameters) rs Hw')
    as (gw & -> & Egw).
  rewrite result_Ok_bind.
  destruct (randint_around (track_mean_height parameters)
              (track_height_variation parameters) (advance rs) Hh')
    as (gh & -> & Egh).
  rewrite result_Ok_bind.
  repeat match goal with
         | |- context [let '(_, _) := ?t in _] =>
             lazymatch t with
             | BezierEllipse_init _ _ _ _ _ _ => fail
             | _ => destruct t
             end
         end.
  match goal with
  | |- context [BezierEllipse_init ?a ?b ?c ?d ?e ?f] =>
      pose proof (BezierEllipse_init_fields a b c d e f)
        as (Hc & Hwd & Hht & _);
      destruct (BezierEllipse_init a b c d e f) as [track rs3]
  end.
  simpl in Hc, Hwd, Hht.
  assert (Htrack : is_track parameters track).
  { split; [exact Hc |].
    split; [exists gw | exists gh]; split; assumption. }
  destruct (Qeq_bool (by_foam_pores (desired_porosities cfg)) 0) eqn:Ez;
    simpl negb; cbv iota.
  - exists track, [], rs3. rewrite app_nil_r.
    split; [done |]. split; [exact Htrack |]. split; [constructor | done].
  - assert (Hvar : 0 < variation_of_foam_pores_per_track parameters).
    { destruct Hfoam as [E | ?]; [| done].
      apply Qeq_bool_iff in E. congruence. }
    match goal with
    | |- context [np_random_randint ?l ?h rs3] =>
        destruct (np_random_randint_cases l h rs3)
          as [[Hge _] | (_ & amount & _ & ->)]; [lia |]
    end.
    rewrite result_Ok_bind.
    assert (Hloop : forall l ps src,
              exists new src',
                for_state l
                  (fun (_ : Z) st => generate_foam_pore parameters x y st)
                  (tracks ++ [track], ps, src)
                = Ok (tracks ++ [track], ps ++ new, src')
                /\ Forall (fun pore => color pore = DARK_ELLIPSE_COLOR) new).
    { induction l as [| i l IH]; intros ps src; cbn [for_state].
      - exists [], src. by rewrite app_nil_r.
      - destruct (generate_foam_pore_Ok parameters x y (tracks ++ [track])
                    ps src) as (pore & src1 & -> & Hdark).
        rewrite result_Ok_bind. destruct (IH (ps ++ [pore]) src1) as (new & src' & -> & Hnew).
        exists (pore :: new), src'. rewrite <- app_assoc. split; [done |].
        by constructor. }
    destruct (Hloop (seqZ 0 amount) pores (advance rs3))
      as (new & src' & -> & Hnew).
    exists track, new, src'. split; [done |]. split; [done |].
    split; [done |]. intros E. apply Qeq_bool_iff in E. congruence.
Qed.

Lemma generate_objects_Ok (parameters : Parameters) (cfg : UserConfig)
    (rs : random_source) :
  0 < np_round (inject_Z (layer_height cfg)
                * layer_width_to_layer_height_ratio cfg) ->
  0 < layer_height cfg ->
  drawable parameters cfg ->
  exists tracks pores rs',
    generate_objects parameters cfg rs = Ok (tracks, pores, rs')
    /\ length tracks = grid_cells parameters cfg
    /\ Forall (is_track parameters) tracks
    /\ Forall (fun pore => color pore = DARK_ELLIPSE_COLOR) pores
    /\ ((by_foam_pores (desired_porosities cfg) == 0)%Q -> pores = []).
Proof.
  intros Hlw Hlh Hdraw. unfold generate_objects, grid_cells. cbv zeta.
  set (layer_width := np_round _) in *.
  destruct (0 <? layer_width) eqn:E1; [| lia].
  destruct (0 <? layer_height cfg) eqn:E2; [| lia]. simpl.
  set (xs := py_range (image_width parameters) layer_width).
  set (ys := py_range (image_height parameters) (layer_height cfg)).
  pose (P := fun (n : nat) (st : objects) =>
               length st.1.1 = n
               /\ Forall (is_track parameters) st.1.1
               /\ Forall (fun pore => color pore = DARK_ELLIPSE_COLOR) st.1.2
               /\ ((by_foam_pores (desired_porosities cfg) == 0)%Q ->
                   st.1.2 = [])).
  assert (Hinner : forall x base st,
            P base st ->
            exists st',
              for_state ys
                (fun y st => generate_cell parameters cfg x y st) st = Ok st'
              /\ P (base + length ys)%nat st').
  { intros x base st Hst. apply (for_state_count P); [exact Hst |].
    intros y j [[tracks pores] r] _ (Hlen & Htr & Hpo & Hno).
    unfold P. cbn [fst snd] in Hlen, Htr, Hpo, Hno.
    destruct (generate_cell_Ok parameters cfg x y tracks pores r Hdraw)
      as (track & new & r' & -> & Ht & Hd & Hn).
    eexists. split; [reflexivity |]. cbn [fst snd] in *.
    split; [rewrite length_app; cbn [length]; lia |].
    split; [apply Forall_app; split; [done | by constructor] |].
    split; [apply Forall_app; by split |].
    intros Hz. by rewrite (Hno Hz), (Hn Hz). }
  pose (Q := fun (n : nat) (st : objects) => P (n * length ys)%nat st).
  destruct (for_state_count Q xs
              (fun x st =>
                 for_state ys
                   (fun y st => generate_cell parameters cfg x y st) st)
              ([], [], rs) 0) as ([[tracks pores] r'] & Hrun & Hq).
  - by repeat split.
  - intros x j st _ Hst. unfold Q in *.
    destruct (Hinner x _ st Hst) as (st' & Hrun & Hst').
    exists st'. split; [exact Hrun |].
    by replace (S j * length ys)%nat with (j * length ys + length ys)%nat
      by lia.
  - exists tracks, pores, r'. split; [exact Hrun |].
    unfold Q, P in Hq. simpl in Hq. by destruct Hq as (? & ? & ? & ?).
Qed.

(** X20. [generate_objects] returns when the grid pitches are positive and
    no draw range is empty, which positive track sizes and variations
    ensure: it then yields one light track per grid cell, each of an
    integral size within its draw range, and dark foam pores only, none of
    them when the desired foam-pore porosity is 0. *)
Theorem generate_objects_returns_one_track_per_cell (parameters : Parameters)
    (cfg : UserConfig) (rs : random_source) :
  0 < np_round (inject_Z (layer_height cfg)
                * layer_width_to_layer_height_ratio cfg) ->
  0 < layer_height cfg ->
  drawable parameters cfg ->
  exists tracks pores rs',
    generate_objects parameters cfg rs = Ok (tracks, pores, rs')
    /\ length tracks = grid_cells parameters cfg
    /\ Forall (is_track parameters) tracks
    /\ Forall (fun pore => color pore = DARK_ELLIPSE_COLOR) pores
    /\ ((by_foam_pores (desired_porosities cfg) == 0)%Q -> pores = []).
Proof. apply generate_objects_Ok. Qed.

Lemma generate_objects_returns_one_track_per_cell_witness :
  exists tracks pores rs',
    generate_objects defaults coarse_user_config sample_random
    = Ok (tracks, pores, rs')
    /\ length tracks = 9%nat
    /\ Forall (is_track defaults) tracks
    /\ Forall (fun pore => color pore = DARK_ELLIPSE_COLOR) pores.
Proof.
  destruct (generate_objects_returns_one_track_per_cell defaults
              coarse_user_config sample_random)
    as (tracks & pores & rs' & Hrun & Hlen & Htracks & Hpores & _).
  - by vm_compute.
  - reflexivity.
  - repeat split; try reflexivity. right. reflexivity.
  - exists tracks, pores, rs'. split; [exact Hrun |].
    split; [| by split]. rewrite Hlen. reflexivity.
Defined.

Lemma generate_cell_no_spread (parameters : Parameters) (cfg : UserConfig)
    (x y : Z) (st : objects) (n : Z) :
  (track_mean_width parameters
   + track_mean_width parameters * track_width_variation parameters
   <= inject_Z n
   <= track_mean_width parameters
      - track_mean_width parameters * track_width_variation parameters)%Q ->
  generate_cell parameters cfg x y st = Raise (ValueError "low >= high").
Proof.
  intros [Hhigh Hlow]. unfold generate_cell. destruct st as [[tracks pores] rs].
  cbv zeta.
  match goal with
  | |- context [np_random_randint ?l ?h rs] =>
      destruct (np_random_randint_cases l h rs)
        as [[_ ->] | (Hlt & _)]; [done |]
  end.
  exfalso.
  assert (H1 : n <= Qfloor (track_mean_width parameters
                            - track_mean_width parameters
                              * track_width_variation parameters)).
  { rewrite <- (Qfloor_Z n). by apply Qfloor_resp_le. }
  assert (H2 : Qceiling (track_mean_width parameters
                         + track_mean_width parameters
                           * track_width_variation parameters) <= n).
  { rewrite <- (Qceiling_Z n). by apply Qceiling_resp_le. }
  lia.
Qed.

Lemma generate_objects_no_spread (parameters : Parameters)
    (cfg : UserConfig) (rs : random_source) (n : Z) :
  (track_mean_width parameters == inject_Z n)%Q ->
  (n <= 0 /\ (0 <= track_width_variation parameters)%Q)
  \/ (track_width_variation parameters == 0)%Q ->
  0 < image_width parameters -> 0 < image_height parameters ->
  exists msg, generate_objects parameters cfg rs = Raise (ValueError msg).
Proof.
  intros Hn Hcase Hw Hh. unfold generate_objects.
  destruct (0 <? np_round _) eqn:Elw; simpl; [| by eauto].
  destruct (0 <? layer_height cfg) eqn:Elh; simpl; [| by eauto].
  apply Z.ltb_lt in Elw, Elh.
  destruct (py_range_head _ _ Hw Elw) as [xs ->].
  destruct (py_range_head _ _ Hh Elh) as [ys ->].
  eexists. apply for_state_raise_head. apply for_state_raise_head.
  apply (generate_cell_no_spread parameters cfg 0 0 ([], [], rs) n).
  destruct Hcase as [[Hneg Hv] | Hv].
  - assert (Hn0 : (inject_Z n <= 0)%Q)
      by (change 0%Q with (inject_Z 0); by rewrite <- Zle_Qle).
    assert (Hprod : (track_mean_width parameters
                     * track_width_variation parameters <= 0)%Q).
    { rewrite Hn.
      assert (E : (inject_Z n * track_width_variation parameters
                   == - ((- inject_Z n)
                         * track_width_variation parameters))%Q) by ring.
      rewrite E.
      assert (0 <= (- inject_Z n) * track_width_variation parameters)%Q
        by (apply Qmult_le_0_compat; lra).
      lra. }
    lra.
  - rewrite Hv. lra.
Qed.

(** X21. Without a spread of the track width nothing can be drawn: on a
    canvas of positive width and height, [generate_objects] raises a
    [ValueError] when the track width is integral and either not positive,
    with a variation ratio that is not negative, or varied by a ratio of
    0. *)
Theorem integral_track_width_without_spread_raises (parameters : Parameters)
    (cfg : UserConfig) (rs : random_source) (n : Z) :
  (track_mean_width parameters == inject_Z n)%Q ->
  (n <= 0 /\ (0 <= track_width_variation parameters)%Q)
  \/ (track_width_variation parameters == 0)%Q ->
  0 < image_width parameters -> 0 < image_height parameters ->
  exists msg, generate_objects parameters cfg rs = Raise (ValueError msg).
Proof. apply generate_objects_no_spread. Qed.

Lemma integral_track_width_without_spread_raises_witness :
  exists msg,
    generate_objects (set_track_mean_width (-1) defaults) sample_user_config
      sample_random = Raise (ValueError msg).
Proof.
  apply (integral_track_width_without_spread_raises
           (set_track_mean_width (-1) defaults) sample_user_config
           sample_random (-1)).
  - reflexivity.
  - left. split; [lia | by vm_compute].
  - reflexivity.
  - reflexivity.
Defined.

(** ** What stops the loading of a configuration *)

Lemma load_from_file_not_json (fs : filesystem) (filename : string)
    (output_directory : option string) :
  path_is_file fs filename = false \/ path_suffix fs filename <> ".json" ->
  user_config.load_from_file fs filename output_directory
  = ([PrintRed ("Error! The given file name " +:+ filename
                +:+ " is not a valid json file!")],
     Raise FileNotFoundError).
Proof.
  intros Hbad. unfold user_config.load_from_file.
  assert (E : negb (path_is_file fs filename)
              || negb (String.eqb (path_suffix fs filename) ".json") = true).
  { destruct Hbad as [-> | Hs]; [done |].
    apply String.eqb_neq in Hs. rewrite Hs. by destruct (path_is_file _ _). }
  rewrite E. reflexivity.
Qed.

Lemma load_from_file_not_a_directory (fs : filesystem) (filename : string)
    (dir : string) :
  path_is_file fs filename = true -> path_suffix fs filename = ".json" ->
  path_is_dir fs dir = false ->
  user_config.load_from_file fs filename (Some dir)
  = ([PrintRed ("Error! The given directory name " +:+ path_str fs dir
                +:+ " is not a valid directory!")],
     Raise NotADirectoryError).
Proof.
  intros Hfile Hsuffix Hdir. unfold user_config.load_from_file.
  rewrite Hfile, Hsuffix, Hdir. reflexivity.
Qed.

Lemma load_from_file_no_user_config (fs : filesystem) (filename : string)
    (output_directory : option string) (loaded : gmap string json) :
  path_is_file fs filename = true -> path_suffix fs filename = ".json" ->
  from_option (fun dir => path_is_dir fs dir = true) True output_directory ->
  json_load fs filename = Ok loaded ->
  loaded !! "user_config" = None ->
  user_config.load_from_file fs filename output_directory
  = ([PrintRed
        "Error! No user_config parameter dict found in specified config file!"],
     Raise RuntimeError).
Proof.
  intros Hfile Hsuffix Hdir Hload Hnone. unfold user_config.load_from_file.
  rewrite Hfile, Hsuffix. simpl negb. simpl orb. cbv iota.
  rewrite mret_bind.
  assert (E : match output_directory with
              | Some dir =>
                  if negb (path_is_dir fs dir) then
                    _ ← print_red_terminal_message
                          ("Error! The given directory name "
                           +:+ path_str fs dir
                           +:+ " is not a valid directory!");
                    raise NotADirectoryError
                  else mret tt
              | None => mret tt
              end = mret tt).
  { destruct output_directory as [dir |]; [| done]. simpl in Hdir.
    by rewrite Hdir. }
  rewrite E, mret_bind, Hload, lift_Ok_bind.
  rewrite (proj2 (contains_false _ _) Hnone). reflexivity.
Qed.

(** X22. [UserConfig.load_from_file] checks in this order and stops at the
    first failure with one red message: a file that does not exist or does
    not end in [.json] raises [FileNotFoundError], whatever the directory;
    then a given output directory that is not a directory raises
    [NotADirectoryError]; then a document without a [user_config] entry
    raises [RuntimeError]. *)
Theorem load_from_file_stops_at_the_first_failed_check (fs : filesystem)
    (filename : string) :
  (forall output_directory,
     path_is_file fs filename = false \/ path_suffix fs filename <> ".json" ->
     user_config.load_from_file fs filename output_directory
     = ([PrintRed ("Error! The given file name " +:+ filename
                   +:+ " is not a valid json file!")],
        Raise FileNotFoundError))
  /\ (forall dir,
        path_is_file fs filename = true -> path_suffix fs filename = ".json" ->
        path_is_dir fs dir = false ->
        user_config.load_from_file fs filename (Some dir)
        = ([PrintRed ("Error! The given directory name " +:+ path_str fs dir
                      +:+ " is not a valid directory!")],
           Raise NotADirectoryError))
  /\ (forall output_directory loaded,
        path_is_file fs filename = true -> path_suffix fs filename = ".json" ->
        from_option (fun dir => path_is_dir fs dir = true) True
          output_directory ->
        json_load fs filename = Ok loaded ->
        loaded !! "user_config" = None ->
        user_config.load_from_file fs filename output_directory
        = ([PrintRed
              "Error! No user_config parameter dict found in specified config file!"],
           Raise RuntimeError)).
Proof.
  split; [| split].
  - intros. by apply load_from_file_not_json.
  - intros. by apply load_from_file_not_a_directory.
  - intros. by eapply load_from_file_no_user_config.
Qed.

Lemma load_from_file_stops_at_the_first_failed_check_witness :
  let fs := sample_fs (sample_document "calculate_porosity_w_mean") in
  user_config.load_from_file fs "missing.json" (Some "nowhere")
  = ([PrintRed "Error! The given file name missing.json is not a valid json file!"],
     Raise FileNotFoundError)
  /\ user_config.load_from_file fs "config.json" (Some "nowhere")
     = ([PrintRed "Error! The given directory name nowhere is not a valid directory!"],
        Raise NotADirectoryError)
  /\ user_config.load_from_file (sample_fs ∅) "config.json" (Some "output")
     = ([PrintRed
           "Error! No user_config parameter dict found in specified config file!"],
        Raise RuntimeError).
Proof.
  intros fs.
  destruct (load_from_file_stops_at_the_first_failed_check fs "missing.json")
    as (Hfile & _ & _).
  destruct (load_from_file_stops_at_the_first_failed_check fs "config.json")
    as (_ & Hdir & _).
  destruct (load_from_file_stops_at_the_first_failed_check (sample_fs ∅)
              "config.json") as (_ & _ & Hdoc).
  split; [| split].
  - apply Hfile. left. reflexivity.
  - apply Hdir; reflexivity.
  - apply (Hdoc (Some "output") ∅); reflexivity.
Defined.

(** X23. A [user_config] object that lacks one of its four required
    entries stops [UserConfig.load_from_file] with a [RuntimeError] and a
    message that names the first missing entry. *)
Theorem missing_user_config_entry_is_reported_by_name (fs : filesystem)
    (filename : string) (output_directory : option string)
    (loaded user_config_dict : gmap string json)
    (present : list string) (key : string) (rest : list string) :
  readable fs filename output_directory loaded user_config_dict ->
  needed_params = present ++ key :: rest ->
  Forall (fun k => is_Some (user_config_dict !! k)) present ->
  user_config_dict !! key = None ->
  user_config.load_from_file fs filename output_directory
  = ([PrintRed ("Error! Parameter " +:+ key
                +:+ " was not specified in specified config file!")],
     Raise RuntimeError).
Proof. apply missing_user_config_field_is_named. Qed.

Lemma missing_user_config_entry_is_reported_by_name_witness :
  let doc :=
    <["user_config" :=
        JObj (delete "output_folder" (asdict_user_config sample_user_config))]>
      (sample_document "calculate_porosity_w_mean") in
  user_config.load_from_file (sample_fs doc) "config.json" (Some "output")
  = ([PrintRed
        "Error! Parameter output_folder was not specified in specified config file!"],
     Raise RuntimeError).
Proof.
  intros doc.
  apply (missing_user_config_entry_is_reported_by_name (sample_fs doc)
           "config.json" (Some "output") doc
           (delete "output_folder" (asdict_user_config sample_user_config))
           ["layer_height"; "layer_width_to_layer_height_ratio"]
           "output_folder" ["desired_porosities"]).
  - repeat split; reflexivity.
  - reflexivity.
  - repeat (constructor; [eexists; vm_compute; reflexivity |]). constructor.
  - vm_compute. reflexivity.
Defined.

(** X24. A [parameters] object that lacks one of the seventeen entries
    that [Parameters.load_from_file] reads unconditionally stops the load
    with a [KeyError] carrying the first missing key; no message is
    printed for it. *)
Theorem missing_parameters_entry_raises_KeyError (fs : filesystem)
    (filename : string) (loaded parameter_file : gmap string json)
    (present : list string) (key : string) (rest : list string) :
  json_load fs filename = Ok loaded ->
  loaded !! "parameters" = Some (JObj parameter_file) ->
  is_Some (parameter_file !! "porosity_function") ->
  reading_order = present ++ key :: rest ->
  Forall (field_present parameter_file) present ->
  parameter_file !! key = None ->
  (parameters.load_from_file fs filename).2 = Raise (KeyError key).
Proof. apply missing_parameters_field_raises_KeyError. Qed.

Lemma missing_parameters_entry_raises_KeyError_witness :
  let parameter_file :=
    delete "total_porosity_margin"
      (asdict_parameters "calculate_porosity_w_mean" defaults) in
  let doc :=
    <["parameters" := JObj parameter_file]>
      (sample_document "calculate_porosity_w_mean") in
  (parameters.load_from_file (sample_fs doc) "config.json").2
  = Raise (KeyError "total_porosity_margin").
Proof.
  intros parameter_file doc.
  apply (missing_parameters_entry_raises_KeyError (sample_fs doc)
           "config.json" doc parameter_file
           ["image_width"; "image_height"] "total_porosity_margin"
           (drop 3 reading_order)).
  - reflexivity.
  - vm_compute. reflexivity.
  - eexists. vm_compute. reflexivity.
  - reflexivity.
  - repeat (constructor;
            [left; split;
             [unfold int_fields; set_solver
             | eexists; vm_compute; reflexivity] |]).
    constructor.
  - vm_compute. reflexivity.
Defined.

Lemma load_from_file_empty_folder (fs : filesystem) (filename : string)
    (output_directory : option string)
    (loaded user_config_dict desired : gmap string json) :
  readable fs filename output_directory loaded user_config_dict ->
  Forall (fun k => is_Some (user_config_dict !! k)) needed_params ->
  user_config_dict !! "desired_porosities" = Some (JObj desired) ->
  Forall (fun k => is_Some (desired !! k)) needed_porosity_params ->
  (exists z, user_config_dict !! "layer_height" = Some (JInt z)) ->
  (exists v q, user_config_dict !! "layer_width_to_layer_height_ratio"
               = Some v /\ as_float v = Ok q) ->
  from_option (fun dir => dir = "")
    (user_config_dict !! "output_folder" = Some (JStr "")) output_directory ->
  (user_config.load_from_file fs filename output_directory).2
  = Raise IndexError.
Proof.
  intros Hread Hall Hdesired Hpor (z & Hz) (v & q & Hv & Hq) Hempty.
  destruct (load_from_file_readable _ _ _ _ _ Hread)
    as (Hf & Hd & Hc & Hg).
  destruct Hread as (_ & _ & _ & Hload & _).
  unfold user_config.load_from_file.
  rewrite Hf, mret_bind, Hd, mret_bind, Hload, lift_Ok_bind, Hc.
  simpl negb. cbv iota.
  rewrite Hg, result_Ok_bind. simpl as_dict. rewrite lift_Ok_bind.
  rewrite (for_in_all_present user_config_dict
             (fun param => "Error! Parameter " +:+ param
                           +:+ " was not specified in specified config file!")
             needed_params None Hall).
  rewrite io_nil_bind.
  apply getitem_Ok in Hdesired.
  unfold needed_porosity_params in Hpor |- *.
  apply Forall_cons_1 in Hpor. destruct Hpor as [Ht Hpor].
  apply Forall_cons_1 in Hpor. destruct Hpor as [Hb _].
  cbn [for_in]. rewrite Hdesired, !result_Ok_bind. cbv beta.
  simpl as_dict. rewrite !lift_Ok_bind.
  rewrite (proj2 (contains_true _ _) Ht), (proj2 (contains_true _ _) Hb).
  simpl negb. cbv iota. rewrite !mret_bind.
  apply getitem_Ok in Hz, Hv.
  rewrite Hz, result_Ok_bind. simpl as_int. rewrite lift_Ok_bind.
  rewrite Hv, result_Ok_bind, Hq, lift_Ok_bind.
  destruct output_directory as [dir |]; simpl in Hempty.
  - subst dir. rewrite mret_bind. reflexivity.
  - apply getitem_Ok in Hempty. rewrite Hempty, result_Ok_bind.
    simpl as_str. rewrite lift_Ok_bind. reflexivity.
Qed.

(** X25. An empty output folder, given as the argument or stored in the
    document, passes every check of [UserConfig.load_from_file] and then
    raises [IndexError], when the last character of the string is read. *)
Theorem empty_output_folder_raises_IndexError (fs : filesystem)
    (filename : string) (output_directory : option string)
    (loaded user_config_dict desired : gmap string json) :
  readable fs filename output_directory loaded user_config_dict ->
  Forall (fun k => is_Some (user_config_dict !! k)) needed_params ->
  user_config_dict !! "desired_porosities" = Some (JObj desired) ->
  Forall (fun k => is_Some (desired !! k)) needed_porosity_params ->
  (exists z, user_config_dict !! "layer_height" = Some (JInt z)) ->
  (exists v q, user_config_dict !! "layer_width_to_layer_height_ratio"
               = Some v /\ as_float v = Ok q) ->
  from_option (fun dir => dir = "")
    (user_config_dict !! "output_folder" = Some (JStr "")) output_directory ->
  (user_config.load_from_file fs filename output_directory).2
  = Raise IndexError.
Proof. apply load_from_file_empty_folder. Qed.

Lemma empty_output_folder_raises_IndexError_witness :
  let user_config_dict :=
    <["output_folder" := JStr ""]> (asdict_user_config sample_user_config) in
  let doc :=
    <["user_config" := JObj user_config_dict]>
      (sample_document "calculate_porosity_w_mean") in
  (user_config.load_from_file (sample_fs doc) "config.json" None).2
  = Raise IndexError.
Proof.
  intros user_config_dict doc.
  apply (empty_output_folder_raises_IndexError (sample_fs doc) "config.json"
           None doc user_config_dict
           (asdict_porosities (desired_porosities sample_user_config))).
  - repeat split; reflexivity.
  - repeat (constructor; [eexists; vm_compute; reflexivity |]). constructor.
  - vm_compute. reflexivity.
  - repeat (constructor; [eexists; vm_compute; reflexivity |]). constructor.
  - eexists. vm_compute. reflexivity.
  - eexists _, _. split; vm_compute; reflexivity.
  - vm_compute. reflexivity.
Defined.

(** ** The path of an ellipse *)

Lemma np_max_spec (a : list Q) (M : Q) :
  np_max a = Ok M -> M ∈ a /\ Forall (fun c => (c <= M)%Q) a.
Proof.
  destruct a as [| c a]; [done |]. simpl. intros [= <-].
  revert c. induction a as [| d a IH]; intros c; simpl.
  - split; [left | constructor; [lra | constructor]].
  - destruct (Qltb c d) eqn:E.
    + apply Qltb_lt in E. destruct (IH d) as [Hin Hall].
      apply Forall_cons_1 in Hall. destruct Hall as [Hd Hall].
      split; [right; exact Hin |].
      constructor; [lra |]. constructor; [exact Hd | exact Hall].
    + apply Qltb_ge in E. destruct (IH c) as [Hin Hall].
      apply Forall_cons_1 in Hall. destruct Hall as [Hc Hall].
      split.
      * apply elem_of_cons in Hin. destruct Hin as [-> | Hin];
          [left | right; by right].
      * constructor; [exact Hc |]. constructor; [lra | exact Hall].
Qed.

Lemma np_min_spec (a : list Q) (m : Q) :
  np_min a = Ok m -> m ∈ a /\ Forall (fun c => (m <= c)%Q) a.
Proof.
  destruct a as [| c a]; [done |]. simpl. intros [= <-].
  revert c. induction a as [| d a IH]; intros c; simpl.
  - split; [left | constructor; [lra | constructor]].
  - destruct (Qltb d c) eqn:E.
    + apply Qltb_lt in E. destruct (IH d) as [Hin Hall].
      apply Forall_cons_1 in Hall. destruct Hall as [Hd Hall].
      split; [right; exact Hin |].
      constructor; [lra |]. constructor; [exact Hd | exact Hall].
    + apply Qltb_ge in E. destruct (IH c) as [Hin Hall].
      apply Forall_cons_1 in Hall. destruct Hall as [Hc Hall].
      split.
      * apply elem_of_cons in Hin. destruct Hin as [-> | Hin];
          [left | right; by right].
      * constructor; [exact Hc |]. constructor; [lra | exact Hall].
Qed.

Lemma np_max_nonempty (a : list Q) : a <> [] -> exists M, np_max a = Ok M.
Proof. destruct a; [done | simpl; eauto]. Qed.

Lemma np_min_nonempty (a : list Q) : a <> [] -> exists m, np_min a = Ok m.
Proof. destruct a; [done | simpl; eauto]. Qed.

(** The scaled coordinate is the coordinate times [length / actual_length],
    whatever its sign; the other coordinate is kept. *)
Lemma scale_vertex_coordinate (index : nat) (length actual_length : Q)
    (v : vertex) :
  ~ (actual_length == 0)%Q ->
  (coordinate index (scale_vertex index length actual_length v)
   == coordinate index v * (length / actual_length))%Q
  /\ coordinate (1 - index) (scale_vertex index length actual_length v)
     = coordinate (1 - index) v.
Proof.
  intros Hal. unfold scale_vertex. cbv zeta.
  destruct (Qltb (coordinate index v) 0) eqn:E.
  - apply Qltb_lt in E.
    assert (Habs : (Qabs (coordinate index v) == - coordinate index v)%Q)
      by (apply Qabs_neg; lra).
    destruct index as [| [| k]]; simpl in *;
      (split; [rewrite Habs; field; exact Hal | done]).
  - apply Qltb_ge in E.
    assert (Habs : (Qabs (coordinate index v) == coordinate index v)%Q)
      by (by apply Qabs_pos).
    destruct index as [| [| k]]; simpl in *;
      (split; [rewrite Habs; field; exact Hal | done]).
Qed.

Lemma scale_to_length_axis (self : BezierEllipse) (index : nat)
    (vertices : list vertex) (M m : Q) :
  (index <= 1)%nat ->
  np_max (coordinate index <$> vertices) = Ok M ->
  np_min (coordinate index <$> vertices) = Ok m ->
  ~ (M + Qabs m == 0)%Q ->
  scale_to_length self (if index is O then "x" else "y") vertices
  = ([], Ok (Finite (scale_vertex index
                       (if index is O then width self else height self)
                       (M + Qabs m) <$> vertices))).
Proof.
  intros Hindex HM Hm Hal. unfold scale_to_length.
  assert (E : Qeq_bool (M + Qabs m) 0 = false).
  { destruct (Qeq_bool (M + Qabs m) 0) eqn:E; [| done].
    apply Qeq_bool_iff in E. contradiction. }
  destruct index as [| [| k]]; [| | lia]; simpl String.eqb; cbv iota;
    rewrite mret_bind, HM, lift_Ok_bind, Hm, lift_Ok_bind; cbv zeta;
    rewrite E; reflexivity.
Qed.

Lemma scale_to_length_extent (self : BezierEllipse) (index : nat)
    (vertices : list vertex) (M m : Q) :
  (index <= 1)%nat ->
  np_max (coordinate index <$> vertices) = Ok M ->
  np_min (coordinate index <$> vertices) = Ok m ->
  (m <= 0 <= M)%Q -> (m < M)%Q ->
  let length := if index is O then width self else height self in
  (0 <= length)%Q ->
  exists scaled M' m',
    scale_to_length self (if index is O then "x" else "y") vertices
    = ([], Ok (Finite scaled))
    /\ np_max (coordinate index <$> scaled) = Ok M'
    /\ np_min (coordinate index <$> scaled) = Ok m'
    /\ (M' - m' == length)%Q
    /\ coordinate (1 - index) <$> scaled
       = coordinate (1 - index) <$> vertices.
Proof.
  intros Hindex HM Hm [Hm0 HM0] Hlt length Hlen.
  assert (Habs : (Qabs m == - m)%Q) by (apply Qabs_neg; lra).
  assert (Hal : ~ (M + Qabs m == 0)%Q) by (rewrite Habs; lra).
  pose proof (scale_to_length_axis self index vertices M m Hindex HM Hm Hal)
    as Hrun.
  fold length in Hrun.
  set (scaled := scale_vertex index length (M + Qabs m) <$> vertices) in *.
  assert (Hne : vertices <> []) by (intros ->; done).
  assert (Hne' : coordinate index <$> scaled <> []).
  { subst scaled. destruct vertices; [done | discriminate]. }
  destruct (np_max_nonempty _ Hne') as [M' HM'].
  destruct (np_min_nonempty _ Hne') as [m' Hm'].
  exists scaled, M', m'. split; [exact Hrun |].
  split; [exact HM' |]. split; [exact Hm' |].
  assert (Hcoord : forall v,
            (coordinate index (scale_vertex index length (M + Qabs m) v)
             == coordinate index v * (length / (M + Qabs m)))%Q)
    by (intros v; by apply scale_vertex_coordinate).
  assert (Hk : (0 <= length / (M + Qabs m))%Q).
  { apply Qle_shift_div_l; [rewrite Habs; lra | lra]. }
  split.
  - apply np_max_spec in HM, HM'. apply np_min_spec in Hm, Hm'.
    destruct HM as [HMin HMall], HM' as [HMin' HMall'].
    destruct Hm as [Hmin Hmall], Hm' as [Hmin' Hmall'].
    rewrite Forall_forall in HMall, HMall', Hmall, Hmall'.
    subst scaled. rewrite <- list_fmap_compose in *.
    apply list_elem_of_fmap in HMin, Hmin, HMin', Hmin'.
    destruct HMin as (vM & -> & HvM), Hmin as (vm & -> & Hvm).
    destruct HMin' as (vM' & -> & HvM'), Hmin' as (vm' & -> & Hvm').
    simpl in *.
    assert (HupM : (coordinate index
                      (scale_vertex index length
                         (coordinate index vM + Qabs (coordinate index vm))
                         vM')
                    <= coordinate index vM
                       * (length / (coordinate index vM
                                    + Qabs (coordinate index vm))))%Q).
    { rewrite Hcoord. apply Qmult_le_compat_r; [| exact Hk].
      apply HMall. apply list_elem_of_fmap. by exists vM'. }
    assert (HloM : (coordinate index vM
                    * (length / (coordinate index vM
                                 + Qabs (coordinate index vm)))
                    <= coordinate index
                         (scale_vertex index length
                            (coordinate index vM
                             + Qabs (coordinate index vm)) vM'))%Q).
    { rewrite <- Hcoord. apply HMall'. apply list_elem_of_fmap.
      by exists vM. }
    assert (Hupm : (coordinate index vm
                    * (length / (coordinate index vM
                                 + Qabs (coordinate index vm)))
                    <= coordinate index
                         (scale_vertex index length
                            (coordinate index vM
                             + Qabs (coordinate index vm)) vm'))%Q).
    { rewrite (Hcoord vm'). apply Qmult_le_compat_r; [| exact Hk].
      apply Hmall. apply list_elem_of_fmap. by exists vm'. }
    assert (Hlom : (coordinate index
                      (scale_vertex index length
                         (coordinate index vM + Qabs (coordinate index vm))
                         vm')
                    <= coordinate index vm
                       * (length / (coordinate index vM
                                    + Qabs (coordinate index vm))))%Q).
    { rewrite <- (Hcoord vm). apply Hmall'. apply list_elem_of_fmap.
      by exists vm. }
    set (cM := coordinate index vM) in *.
    set (cm := coordinate index vm) in *.
    assert (Hspan : (cM * (length / (cM + Qabs cm))
                     - cm * (length / (cM + Qabs cm)) == length)%Q).
    { rewrite Habs. field. rewrite Habs in Hal. exact Hal. }
    lra.
  - subst scaled. rewrite <- list_fmap_compose.
    apply list_fmap_ext. intros i v _. simpl.
    by apply scale_vertex_coordinate.
Qed.

(** X26. [__scale_to_length] makes the requested length the full extent of
    the shape along the scaled axis: when the coordinates on that axis
    reach from a value that is not positive to one that is not negative,
    the largest minus the smallest scaled coordinate is the width, or the
    height, and the coordinates on the other axis are unchanged. *)
Theorem scale_to_length_spans_the_requested_length (self : BezierEllipse)
    (index : nat) (vertices : list vertex) (M m : Q) :
  (index <= 1)%nat ->
  np_max (coordinate index <$> vertices) = Ok M ->
  np_min (coordinate index <$> vertices) = Ok m ->
  (m <= 0 <= M)%Q -> (m < M)%Q ->
  let length := if index is O then width self else height self in
  (0 <= length)%Q ->
  exists scaled M' m',
    scale_to_length self (if index is O then "x" else "y") vertices
    = ([], Ok (Finite scaled))
    /\ np_max (coordinate index <$> scaled) = Ok M'
    /\ np_min (coordinate index <$> scaled) = Ok m'
    /\ (M' - m' == length)%Q
    /\ coordinate (1 - index) <$> scaled
       = coordinate (1 - index) <$> vertices.
Proof. apply scale_to_length_extent. Qed.

Lemma scale_to_length_spans_the_requested_length_witness :
  exists scaled M' m',
    scale_to_length diamond_ellipse "x" diamond_directions
    = ([], Ok (Finite scaled))
    /\ np_max (coordinate 0 <$> scaled) = Ok M'
    /\ np_min (coordinate 0 <$> scaled) = Ok m'
    /\ (M' - m' == 40)%Q.
Proof.
  destruct (scale_to_length_spans_the_requested_length diamond_ellipse 0
              diamond_directions 1 (-1))
    as (scaled & M' & m' & Hrun & HM & Hm & Hspan & _).
  - lia.
  - reflexivity.
  - reflexivity.
  - split; by vm_compute.
  - by vm_compute.
  - by vm_compute.
  - by exists scaled, M', m'.
Defined.

Lemma scale_to_length_Finite (self : BezierEllipse) (coord : string)
    (vertices scaled : list vertex) (out : list event) :
  scale_to_length self coord vertices = (out, Ok (Finite scaled)) ->
  vertices <> []
  /\ exists index length actual_length,
       scaled = scale_vertex index length actual_length <$> vertices.
Proof.
  intros H. unfold scale_to_length in H.
  apply io_bind_Ok in H. destruct H as (out1 & index & out2 & _ & H & _).
  apply io_bind_Ok in H. destruct H as (out3 & M & out4 & HM & H & _).
  apply io_bind_Ok in H. destruct H as (out5 & m & out6 & _ & H & _).
  apply lift_Ok in HM. destruct HM as [HM _].
  split; [by intros -> |].
  cbv zeta in H. destruct (Qeq_bool _ 0); [done |].
  injection H as _ <-. eauto.
Qed.

Lemma closed_fmap {A B : Type} (f : A -> B) (l : list A) :
  last l = head l -> last (f <$> l) = head (f <$> l).
Proof.
  intros H. rewrite fmap_last, H. by destruct l.
Qed.

Lemma closed_insert_last {A : Type} (first : A) (l : list A) :
  last (<[(length (first :: l) - 1)%nat := first]> (first :: l))
  = head (<[(length (first :: l) - 1)%nat := first]> (first :: l)).
Proof.
  rewrite last_lookup, length_insert.
  replace (Init.Nat.pred (length (first :: l)))
    with (length (first :: l) - 1)%nat by lia.
  rewrite list_lookup_insert_eq by (simpl; lia).
  destruct l as [| a l]; [done |]. simpl. done.
Qed.

Lemma create_bezier_vertices_closed (cos_sin : list vertex)
    (self : BezierEllipse) (out : list event) (vertices : list vertex) :
  create_bezier_vertices_and_codes cos_sin self
  = (out, Ok (Finite vertices)) ->
  vertices <> []
  /\ last vertices = head vertices
  /\ length vertices = Nat.min (length cos_sin) (length (radii self)).
Proof.
  intros H. unfold create_bezier_vertices_and_codes in H. cbv zeta in H.
  apply io_bind_Ok in H. destruct H as (out1 & [] & out2 & _ & H & _).
  match type of H with
  | context [scale_to_length self "x" ?v] => set (v1 := v) in H
  end.
  assert (Hv1 : last v1 = head v1
                /\ length v1
                   = Nat.min (length cos_sin) (length (radii self))).
  { subst v1.
    assert (Hz : length (zip_with
                           (fun (d : Q * Q) (radius : Q) =>
                              ((d.1 * radius)%Q, (d.2 * radius)%Q))
                           cos_sin (radii self))
                 = Nat.min (length cos_sin) (length (radii self)))
      by apply length_zip_with.
    revert Hz. generalize (zip_with
                  (fun (d : Q * Q) (radius : Q) =>
                     ((d.1 * radius)%Q, (d.2 * radius)%Q))
                  cos_sin (radii self)).
    intros l Hz. rewrite <- Hz. destruct l as [| first rest]; [done |].
    split; [apply closed_insert_last | apply length_insert]. }
  destruct Hv1 as [Hclosed1 Hlen1].
  apply io_bind_Ok in H. destruct H as (out3 & sx & out4 & Hx & H & _).
  destruct sx as [v2 |]; [| done].
  apply scale_to_length_Finite in Hx.
  destruct Hx as (Hne1 & ix & lx & ax & ->).
  apply io_bind_Ok in H. destruct H as (out5 & sy & out6 & Hy & H & _).
  destruct sy as [v3 |]; [| done].
  apply scale_to_length_Finite in Hy.
  destruct Hy as (_ & iy & ly & ay & ->).
  injection H as _ <-.
  split; [| split].
  - destruct v1; [done | discriminate].
  - by do 3 apply closed_fmap.
  - rewrite !length_fmap. exact Hlen1.
Qed.

(** X27. The path of an ellipse is closed and complete: when
    [__create_bezier_vertices_and_codes] yields finite vertices, there is
    one for each angle, and the last one is the first one, also after the
    scaling to width and height and the move to the centre. *)
Theorem created_path_is_closed (cos_sin : list vertex)
    (self : BezierEllipse) (out : list event) (vertices : list vertex) :
  length cos_sin = length (radii self) ->
  create_bezier_vertices_and_codes cos_sin self
  = (out, Ok (Finite vertices)) ->
  vertices <> []
  /\ last vertices = head vertices
  /\ length vertices = length (radii self).
Proof.
  intros Hlen H. apply create_bezier_vertices_closed in H.
  destruct H as (Hne & Hclosed & Hl). rewrite Hlen, Nat.min_id in Hl.
  done.
Qed.

Lemma created_path_is_closed_witness :
  exists vertices,
    create_bezier_vertices_and_codes diamond_directions diamond_ellipse
    = ([], Ok (Finite vertices))
    /\ last vertices = head vertices
    /\ length vertices = 5%nat.
Proof.
  destruct (create_bezier_vertices_and_codes diamond_directions
              diamond_ellipse) as [out [[vertices |] | e]] eqn:E.
  - destruct (created_path_is_closed diamond_directions diamond_ellipse out
                vertices eq_refl E) as (_ & Hclosed & Hlen).
    exists vertices. split; [| split; [exact Hclosed | exact Hlen]].
    vm_compute in E. by injection E as <- _.
  - vm_compute in E. discriminate.
  - vm_compute in E. discriminate.
Defined.
